(** * A workflow graph engine (app/engine/core.py), its code-review
    workflow (app/workflows/code_review.py) and the application around them
    (app/main.py), embedded and verified.

    Layout: [Py] holds the fragment of Python the files rely on (values of
    a state mapping, [repr], exceptions, number arithmetic); [core] embeds
    the engine; [Text] the string methods and the pattern the workflow
    uses; [code_review] the five nodes of the review; [main] the tool, the
    engine of the application and its handlers.  These take a state as a
    value; [shared] embeds the execution once more over a store of
    objects, for what depends on states and lists being shared.  Then come
    the vocabulary of the statements, example graphs and engines, and the
    properties: the loop and [run_graph] in general, the claims C1 to C10
    about linear runs, dynamic redirection, failing runs, registration and
    the quality gate, and the further properties X1 to X27 of the engine,
    the nodes, the handlers and the default review from end to end. *)

From Stdlib Require Import ZArith String Ascii List Floats.
From stdpp Require Import base option gmap strings list sorting pretty.
Set Warnings "-inexact-float,-register-all".
Open Scope Z_scope.

(** ** Python values, strings, exceptions and numbers *)
Module Py.

(** The values a state mapping can hold.  A state is a [Dict[str, Any]] that
    the HTTP layer decodes from JSON, so [Any] ranges over [None], booleans,
    unbounded integers, binary64 floats, strings, lists and string-keyed
    mappings.  A [str] is a sequence of code points; the model keeps the
    code points below 256, one per [ascii]. *)
Inductive PyVal : Type :=
  | VNone
  | VBool (b : bool)
  | VInt (z : Z)
  | VFloat (f : float)
  | VStr (s : string)
  | VList (l : list PyVal)
  | VDict (d : gmap string PyVal).

(** [type(v).__name__], as the interpreter's error messages print it. *)
Definition type_name (v : PyVal) : string :=
  match v with
  | VNone => "NoneType"
  | VBool _ => "bool"
  | VInt _ => "int"
  | VFloat _ => "float"
  | VStr _ => "str"
  | VList _ => "list"
  | VDict _ => "dict"
  end.

(** *** [repr] of a string *)

Definition squote : ascii := ascii_of_N 39.
Definition dquote : ascii := ascii_of_N 34.
Definition backslash : ascii := ascii_of_N 92.

Fixpoint has_char (c : ascii) (s : string) : bool :=
  match s with
  | EmptyString => false
  | String a rest => if Ascii.eqb a c then true else has_char c rest
  end.

(** [str.isprintable] on the code points below 256: the controls
    0..31 and 127..159, the no-break space 160 and the soft hyphen 173 are
    not printable. *)
Definition is_printable (c : ascii) : bool :=
  let n := N_of_ascii c in
  (((32 <=? n) && (n <? 127)) || ((161 <=? n) && negb (n =? 173)))%N.

Definition hex_digit (n : N) : ascii :=
  if (n <? 10)%N then ascii_of_N (48 + n) else ascii_of_N (87 + n).

Definition repr_char (quote c : ascii) : string :=
  if Ascii.eqb c quote || Ascii.eqb c backslash then String backslash (String c "")
  else if Ascii.eqb c (ascii_of_N 9) then String backslash "t"
  else if Ascii.eqb c (ascii_of_N 10) then String backslash "n"
  else if Ascii.eqb c (ascii_of_N 13) then String backslash "r"
  else if is_printable c then String c ""
  else let n := N_of_ascii c in
       String backslash (String "x" (String (hex_digit (n / 16)) (String (hex_digit (n mod 16)) ""))).

Fixpoint repr_chars (quote : ascii) (s : string) : string :=
  match s with
  | EmptyString => ""
  | String c rest => repr_char quote c +:+ repr_chars quote rest
  end.

(** [repr(s)]: single quotes, unless the string has a single quote and no
    double quote. *)
Definition repr_str (s : string) : string :=
  let quote := if has_char squote s && negb (has_char dquote s) then dquote else squote in
  String quote (repr_chars quote s +:+ String quote "").

Fixpoint join (sep : string) (l : list string) : string :=
  match l with
  | [] => ""
  | [s] => s
  | s :: rest => s +:+ sep +:+ join sep rest
  end.

(** [repr] of a list of strings, as an f-string interpolates it. *)
Definition repr_str_list (l : list string) : string :=
  "[" +:+ join ", " (repr_str <$> l) +:+ "]".

(** [sorted] on strings: ascending by code points. *)
Definition sorted (l : list string) : list string := merge_sort String.le l.

(** *** Exceptions *)

Inductive ExcClass : Type :=
  | ValueError
  | KeyError
  | TypeError
  | AttributeError
  | OverflowError
  | OtherException (name : string).

(** An exception instance with its single string argument; every [raise]
    of the two files has this shape.  Only subclasses of [Exception] are
    modelled. *)
Record PyExc : Type := mkExc { exc_class : ExcClass; exc_arg : string }.

(** [str(exc)]: the argument itself, but its [repr] for a [KeyError]. *)
Definition exc_str (e : PyExc) : string :=
  match exc_class e with
  | KeyError => repr_str (exc_arg e)
  | _ => exc_arg e
  end.

(** A computation that returns a value or raises. *)
Inductive Exc (A : Type) : Type :=
  | Returned (a : A)
  | Raised (e : PyExc).
Arguments Returned {A} a.
Arguments Raised {A} e.

#[global] Instance Exc_ret : MRet Exc := @Returned.
#[global] Instance Exc_bind : MBind Exc := λ A B f m,
  match m with
  | Returned a => f a
  | Raised e => Raised e
  end.

Definition raise {A} (c : ExcClass) (msg : string) : Exc A := Raised (mkExc c msg).

(** *** Numbers

    Python's [int] is unbounded ([Z]); its [float] is IEEE binary64, here a
    primitive float.  A [bool] is an [int] in arithmetic and comparisons. *)

Inductive Num : Type :=
  | NInt (z : Z)
  | NFloat (f : float).

Definition as_num (v : PyVal) : option Num :=
  match v with
  | VBool b => Some (NInt (if b then 1 else 0))
  | VInt z => Some (NInt z)
  | VFloat f => Some (NFloat f)
  | _ => None
  end.

Definition of_num (n : Num) : PyVal :=
  match n with
  | NInt z => VInt z
  | NFloat f => VFloat f
  end.

(** [float(z)]: the nearest double, ties to even; an [int] that rounds past
    the largest double raises. *)
Definition float_of_Z (z : Z) : Exc float :=
  match SpecFloat.binary_normalize prec emax z 0 false with
  | S754_infinity _ => raise OverflowError "int too large to convert to float"
  | sf => Returned (SF2Prim sf)
  end.

(** The signed integer mantissa of a finite non-zero double. *)
Definition signed (s : bool) (m : positive) : Z := if s then Z.neg m else Z.pos m.

(** Mixed comparison is exact: the double is not rounded to an integer, nor
    the integer to a double.  [None]: unordered (a NaN). *)
Definition float_compare_Z (f : float) (z : Z) : option comparison :=
  match Prim2SF f with
  | S754_nan => None
  | S754_infinity s => Some (if s then Lt else Gt)
  | S754_zero _ => Some (0 ?= z)
  | S754_finite s m e =>
      Some (if 0 <=? e then (signed s m * 2 ^ e ?= z) else (signed s m ?= z * 2 ^ (- e)))
  end.

Definition num_compare (x y : Num) : option comparison :=
  match x, y with
  | NInt a, NInt b => Some (a ?= b)
  | NFloat a, NFloat b =>
      match PrimFloat.compare a b with
      | FEq => Some Eq
      | FLt => Some Lt
      | FGt => Some Gt
      | FNotComparable => None
      end
  | NFloat a, NInt b => float_compare_Z a b
  | NInt a, NFloat b => CompOpp <$> float_compare_Z b a
  end.

Definition num_gt (x y : Num) : bool :=
  match num_compare x y with Some Gt => true | _ => false end.
Definition num_ge (x y : Num) : bool :=
  match num_compare x y with Some Gt | Some Eq => true | _ => false end.

Definition not_supported (op : string) (a b : PyVal) : PyExc :=
  mkExc TypeError ("'" +:+ op +:+ "' not supported between instances of '"
                   +:+ type_name a +:+ "' and '" +:+ type_name b +:+ "'").

(** [a > y] for a number [y]; every non-number [a] raises. *)
Definition gt_num (a : PyVal) (y : Num) : Exc bool :=
  match as_num a with
  | Some x => Returned (num_gt x y)
  | None => Raised (not_supported ">" a (of_num y))
  end.

(** [x >= b] for a number [x]; every non-number [b] raises. *)
Definition num_ge_val (x : Num) (b : PyVal) : Exc bool :=
  match as_num b with
  | Some y => Returned (num_ge x y)
  | None => Raised (not_supported ">=" (of_num x) b)
  end.

Definition unsupported_operands (op : string) (a b : string) : PyExc :=
  mkExc TypeError ("unsupported operand type(s) for " +:+ op +:+ ": '" +:+ a +:+ "' and '" +:+ b +:+ "'").

(** [a + k] for an [int] literal [k]. *)
Definition add_int (a : PyVal) (k : Z) : Exc Num :=
  match a with
  | VBool b => Returned (NInt ((if b then 1 else 0) + k))
  | VInt z => Returned (NInt (z + k))
  | VFloat f => g ← float_of_Z k; Returned (NFloat (f + g)%float)
  | VStr _ | VList _ =>
      raise TypeError ("can only concatenate " +:+ type_name a +:+ " (not "
                       +:+ String dquote ("int" +:+ String dquote (") to " +:+ type_name a)))
  | VNone | VDict _ => Raised (unsupported_operands "+" (type_name a) "int")
  end.

(** [f * a] for a [float] [f]. *)
Definition float_mul (f : float) (a : PyVal) : Exc float :=
  match a with
  | VBool b => Returned (f * (if b then 1 else 0))%float
  | VInt z => g ← float_of_Z z; Returned (f * g)%float
  | VFloat g => Returned (f * g)%float
  | VStr _ | VList _ => raise TypeError "can't multiply sequence by non-int of type 'float'"
  | VNone | VDict _ => Raised (unsupported_operands "*" "float" (type_name a))
  end.

(** [max(x, y)] on two floats: [y] replaces [x] only when [y > x]. *)
Definition float_max (x y : float) : float := if PrimFloat.ltb x y then y else x.

(** The nearest integer to [a / b], ties to even ([0 <= a], [0 < b]). *)
Definition div_half_even (a b : Z) : Z :=
  let q := a / b in
  match 2 * (a mod b) ?= b with
  | Lt => q
  | Gt => q + 1
  | Eq => if Z.even q then q else q + 1
  end.

(** The nearest double to [a / b], ties to even ([0 <= a], [0 < b]): the
    quotient is cut to at least 56 bits with the lowest one made sticky,
    and then rounded once. *)
Definition float_of_ratio (a b : Z) : float :=
  if a =? 0 then 0%float
  else
    let k := Z.max 0 (57 + Z.log2 b - Z.log2 a) in
    let q := (a * 2 ^ k) / b in
    let m := if (a * 2 ^ k) mod b =? 0 then q else Z.lor q 1 in
    SF2Prim (SpecFloat.binary_normalize prec emax m (- k) false).

(** [round(x, 2)] on a float: the exact binary value is rounded to two
    decimals, ties to even, and the decimal is read back as the nearest
    double; the sign is kept.  Zeros, infinities, NaN and the doubles that
    are integers round to themselves. *)
Definition round2 (x : float) : float :=
  match Prim2SF x with
  | S754_finite s m e =>
      if 0 <=? e then x
      else
        let r := float_of_ratio (div_half_even (Z.pos m * 100) (2 ^ (- e))) 100 in
        if s then (- r)%float else r
  | _ => x
  end.

(** [v.get(key, default)]: only a mapping has the method. *)
Definition get_method (v : PyVal) (key : string) (dflt : PyVal) : Exc PyVal :=
  match v with
  | VDict d => Returned (default dflt (d !! key))
  | _ => raise AttributeError ("'" +:+ type_name v +:+ "' object has no attribute 'get'")
  end.

End Py.

(** ** The engine: app/engine/core.py *)
Module core.
Import Py.

(** A state mapping, [Dict[str, Any]]. *)
Abbreviation State := (gmap string PyVal).

(** [ToolRegistry]: callable tools by name. *)
Definition Tool : Type := list PyVal → Exc PyVal.
Record ToolRegistry : Type := mkTools { _tools : gmap string Tool }.

Definition register (self : ToolRegistry) (name : string) (fn : Tool) : ToolRegistry :=
  mkTools (<[name := fn]> (_tools self)).

Definition get (self : ToolRegistry) (name : string) : Exc Tool :=
  match _tools self !! name with
  | None => raise KeyError ("Tool '" +:+ name +:+ "' is not registered")
  | Some fn => Returned fn
  end.

Definition list_tools (self : ToolRegistry) : list string :=
  sorted (elements (dom (_tools self))).

Record NodeResult : Type := mkNodeResult {
  state : State;
  next_node : option string;
  log : option string;
}.

(** What calling a node yields once awaited: a [NodeResult], or any other
    value.  States are values here.  The engine itself never writes into a
    state mapping: it copies the initial one and hands each result's
    [state] on, to the log and to the next node.  A node is therefore
    modelled as a function of the state it is given, which builds its
    successor state and leaves the mapping it received as it was, the way
    the nodes of app/workflows start from [dict(state)]. *)
Inductive NodeReturn : Type :=
  | RetNodeResult (r : NodeResult)
  | RetValue (v : PyVal).

Definition NodeCallable : Type := State → ToolRegistry → Exc NodeReturn.

Record GraphDefinition : Type := mkGraph {
  graph_id : string;
  nodes : gmap string NodeCallable;
  edges : gmap string (list string);
  start_node : string;
  description : option string;
}.

(** A log entry, the mapping with the keys [node], [log] and
    [state_snapshot]. *)
Record LogEntry : Type := mkLog {
  node : string;
  entry_log : option string;
  state_snapshot : State;
}.

(** [GraphRunRecord]; [run_graph_id] is its field [graph_id]. *)
Record GraphRunRecord : Type := mkRun {
  run_id : string;
  run_graph_id : string;
  current_state : State;
  status : string;
  logs : list LogEntry;
  current_node : option string;
  error : option string;
}.

(** [GraphEngine].  Its lock serialises the critical sections; here each
    critical section is one function from engine to engine. *)
Record GraphEngine : Type := mkEngine {
  _graphs : gmap string GraphDefinition;
  _runs : gmap string GraphRunRecord;
  _node_library : gmap string NodeCallable;
  _tool_registry : ToolRegistry;
}.

Definition __init__ (node_library : gmap string NodeCallable) (tool_registry : ToolRegistry)
  : GraphEngine :=
  mkEngine ∅ ∅ node_library tool_registry.

(** An edge value as [register_graph] may receive it: a list of names, or a
    single name. *)
Inductive EdgeValue : Type :=
  | NameList (l : list string)
  | OneName (v : string).

(** [v if isinstance(v, list) else [v]] *)
Definition normalize_edge (v : EdgeValue) : list string :=
  match v with
  | NameList l => l
  | OneName s => [s]
  end.

(** [f"Unknown node '{name}'. Available: {sorted(self._node_library.keys())}"] *)
Definition unknown_node_message (library : gmap string NodeCallable) (name : string) : string :=
  "Unknown node '" +:+ name +:+ "'. Available: "
  +:+ repr_str_list (sorted (elements (dom library))).

(** The loop [for name in nodes] of [register_graph], filling [node_map].
    The mapping built keeps what each name is bound to, not the order in
    which the names came. *)
Fixpoint build_node_map (library : gmap string NodeCallable) (names : list string)
    (node_map : gmap string NodeCallable) : Exc (gmap string NodeCallable) :=
  match names with
  | [] => Returned node_map
  | name :: rest =>
      match library !! name with
      | None => raise ValueError (unknown_node_message library name)
      | Some fn => build_node_map library rest (<[name := fn]> node_map)
      end
  end.

(** [register_graph]; [uuid] is the value [uuid.uuid4()] draws. *)
Definition register_graph (self : GraphEngine) (uuid : string) (names : list string)
    (edge_values : gmap string EdgeValue) (start : string) (descr : option string)
  : GraphEngine * Exc string :=
  match build_node_map (_node_library self) names ∅ with
  | Raised e => (self, Raised e)
  | Returned node_map =>
      match node_map !! start with
      | None => (self, raise ValueError ("Start node '" +:+ start +:+ "' must be in nodes list"))
      | Some _ =>
          let normalized_edges := normalize_edge <$> edge_values in
          let graph := mkGraph uuid node_map normalized_edges start descr in
          (mkEngine (<[uuid := graph]> (_graphs self)) (_runs self)
                    (_node_library self) (_tool_registry self),
           Returned uuid)
      end
  end.

(** [_run_node] *)
Definition _run_node (tools : ToolRegistry) (fn : NodeCallable) (st : State) : Exc NodeResult :=
  result ← fn st tools;
  match result with
  | RetNodeResult r => Returned r
  | RetValue (VDict d) => Returned (mkNodeResult d None None)
  | RetValue _ => raise TypeError "Node must return NodeResult or dict"
  end.

(** One pass through the body of the [while] loop of [_execute], entered
    with a truthy [current_node]: the next [current_node], [current_state]
    and [logs], or the exception that leaves the loop.  The entry holds the
    state as a value; in the code it holds the state object itself, which
    later nodes may change in place ([shared.loop_body] has that). *)
Definition loop_body (graph : GraphDefinition) (tools : ToolRegistry)
    (cur : string) (st : State) (lg : list LogEntry)
  : Exc (option string * State * list LogEntry) :=
  match nodes graph !! cur with
  | None => raise KeyError cur
  | Some node_fn =>
      result ← _run_node tools node_fn st;
      let lg := lg ++ [mkLog cur (log result) (state result)] in
      let st := state result in
      match next_node result with
      | Some n => Returned (Some n, st, lg)
      | None =>
          let next_candidates := default [] (edges graph !! cur) in
          if (1 <? length next_candidates)%nat
          then raise ValueError ("Node '" +:+ cur
                 +:+ "' has multiple edges but no next_node provided by the node logic")
          else Returned (head next_candidates, st, lg)
      end
  end.

(** The [while current_node:] loop.  [None] and the empty string are falsy
    and end it.  The loop has no bound of its own: [fuel] bounds the passes
    and [None] says the bound was hit. *)
Fixpoint _execute_loop (fuel : nat) (graph : GraphDefinition) (tools : ToolRegistry)
    (cur : option string) (st : State) (lg : list LogEntry)
  : option (Exc (State * list LogEntry)) :=
  match cur with
  | Some (String _ _ as name) =>
      match fuel with
      | O => None
      | S fuel' =>
          match loop_body graph tools name st lg with
          | Raised e => Some (Raised e)
          | Returned (cur', st', lg') => _execute_loop fuel' graph tools cur' st' lg'
          end
      end
  | _ => Some (Returned (st, lg))
  end.

(** The passes of the loop as a relation: [passes graph tools n ls ls']
    says that [n] passes, each entered with a truthy [current_node] and
    none raising, lead from the loop variables [ls] to [ls']. *)
Inductive passes (graph : GraphDefinition) (tools : ToolRegistry)
  : nat → option string * State * list LogEntry → option string * State * list LogEntry → Prop :=
  | passes_O ls : passes graph tools 0 ls ls
  | passes_S n name st lg ls' ls'' :
      name ≠ "" →
      loop_body graph tools name st lg = Returned ls' →
      passes graph tools n ls' ls'' →
      passes graph tools (S n) (Some name, st, lg) ls''.

(** [_execute] *)
Definition _execute (fuel : nat) (self : GraphEngine) (graph : GraphDefinition) (st : State)
  : option (Exc (State * list LogEntry)) :=
  _execute_loop fuel graph (_tool_registry self) (Some (start_node graph)) st [].

(** [self._runs[run_id] = run], and the later assignments to the fields of
    that same record object. *)
Definition store_run (self : GraphEngine) (run : GraphRunRecord) : GraphEngine :=
  mkEngine (_graphs self) (<[run_id run := run]> (_runs self))
           (_node_library self) (_tool_registry self).

(** The record [run_graph] creates: running, with a copy of the initial
    state, no logs, no current node and no error.  The copy is a value
    here; in the code [dict(initial_state)] is shallow and shares the
    lists and mappings it holds ([shared.new_run] has that). *)
Definition new_run (uuid gid : string) (initial_state : State) : GraphRunRecord :=
  mkRun uuid gid initial_state "running" [] None None.

(** The first critical section of [run_graph]: the graph is looked up and the
    record is published.  [uuid] is the value [uuid.uuid4()] draws. *)
Definition run_graph_begin (self : GraphEngine) (uuid gid : string) (initial_state : State)
  : Exc (GraphEngine * GraphRunRecord * GraphDefinition) :=
  match _graphs self !! gid with
  | None => raise KeyError ("Graph '" +:+ gid +:+ "' not found")
  | Some graph =>
      let run := new_run uuid gid initial_state in
      Returned (store_run self run, run, graph)
  end.

(** The second critical section: the [try] branch on success, the [except]
    branch on an exception. *)
Definition run_graph_settle (self : GraphEngine) (run : GraphRunRecord)
    (outcome : Exc (State * list LogEntry)) : GraphEngine * Exc GraphRunRecord :=
  match outcome with
  | Returned (final_state, lg) =>
      let run' := mkRun (run_id run) (run_graph_id run) final_state "completed" lg None (error run) in
      (store_run self run', Returned run')
  | Raised exc =>
      let run' := mkRun (run_id run) (run_graph_id run) (current_state run) "failed"
                        (logs run) (current_node run) (Some (exc_str exc)) in
      (store_run self run', Raised exc)
  end.

(** [run_graph].  [None]: the execution loop was still running when the
    fuel ran out, and the record stays as published. *)
Definition run_graph (fuel : nat) (self : GraphEngine) (uuid gid : string) (initial_state : State)
  : GraphEngine * option (Exc GraphRunRecord) :=
  match run_graph_begin self uuid gid initial_state with
  | Raised e => (self, Some (Raised e))
  | Returned (self1, run, graph) =>
      match _execute fuel self1 graph initial_state with
      | None => (self1, None)
      | Some outcome =>
          let '(self2, r) := run_graph_settle self1 run outcome in (self2, Some r)
      end
  end.

(** [list_nodes] *)
Definition list_nodes (self : GraphEngine) : list string :=
  sorted (elements (dom (_node_library self))).

(** [get_run] *)
Definition get_run (self : GraphEngine) (rid : string) : Exc GraphRunRecord :=
  match _runs self !! rid with
  | None => raise KeyError ("Run '" +:+ rid +:+ "' not found")
  | Some run => Returned run
  end.

End core.

(** ** String methods and the pattern of [_extract_functions_from_code] *)
Module Text.
Import Py.

(** The longest prefix of [s] whose characters satisfy [p], and the rest. *)
Fixpoint span (p : ascii → bool) (s : string) : string * string :=
  match s with
  | EmptyString => ("", "")
  | String c rest =>
      if p c then let '(run, tail) := span p rest in (String c run, tail)
      else ("", s)
  end.

Definition in_range (lo hi : N) (c : ascii) : bool :=
  ((lo <=? N_of_ascii c) && (N_of_ascii c <=? hi))%N.

(** The classes [a-zA-Z_] and [a-zA-Z0-9_]. *)
Definition is_ident_start (c : ascii) : bool :=
  in_range 97 122 c || in_range 65 90 c || Ascii.eqb c "_".
Definition is_ident_char (c : ascii) : bool :=
  is_ident_start c || in_range 48 57 c.

(** A match of the pattern at the very start of [s]: the text of its group
    and the length of the whole match.  The pattern is a raw string in
    which the backslash before [s+] is doubled, so it reads: the letters
    [def], one backslash, one or more letters [s], then the group, a
    character of [a-zA-Z_] followed by any number of [a-zA-Z0-9_].  The run
    of [s] is greedy; when no group can start after all of it, the matcher
    gives the last [s] back, and the group starts with that [s]. *)
Definition match_def (s : string) : option (string * nat) :=
  match s with
  | String c1 (String c2 (String c3 (String b rest))) =>
      if Ascii.eqb c1 "d" && Ascii.eqb c2 "e" && Ascii.eqb c3 "f" && Ascii.eqb b backslash then
        let '(run, tail) := span (Ascii.eqb "s") rest in
        let '(word, _) := span is_ident_char tail in
        match run with
        | EmptyString => None
        | String _ run' =>
            if match tail with String c _ => is_ident_start c | EmptyString => false end
            then Some (word, (4 + String.length run + String.length word)%nat)
            else match run' with
                 | EmptyString => None
                 | String _ _ =>
                     Some (String "s" word, (4 + String.length run + String.length word)%nat)
                 end
        end
      else None
  | _ => None
  end.

(** [re.findall] with that pattern: the groups of the matches found from
    left to right, each search resuming where the last match ended.
    [skip] counts the characters still covered by the last match. *)
Fixpoint findall_def (skip : nat) (s : string) : list string :=
  match s with
  | EmptyString => []
  | String _ rest =>
      match skip with
      | S k => findall_def k rest
      | O =>
          match match_def s with
          | Some (group, len) => group :: findall_def (len - 1) rest
          | None => findall_def 0 rest
          end
      end
  end.

(** The line boundaries of [str.splitlines] among the code points below
    256: LF, VT, FF, CR, FS, GS, RS and NEL. *)
Definition is_linebreak (c : ascii) : bool :=
  in_range 10 13 c || in_range 28 30 c || Ascii.eqb c (ascii_of_N 133).

(** [s.splitlines()] continued with [line], the characters of the current
    line read so far: the lines without their terminators, CR LF counting
    as one terminator, and no empty line after a final terminator. *)
Fixpoint splitlines_from (line : string) (s : string) : list string :=
  match s with
  | EmptyString => match line with EmptyString => [] | _ => [line] end
  | String c rest =>
      if is_linebreak c then
        line :: match rest with
                | String c' rest' =>
                    if Ascii.eqb c (ascii_of_N 13) && Ascii.eqb c' (ascii_of_N 10)
                    then splitlines_from "" rest'
                    else splitlines_from "" rest
                | EmptyString => []
                end
      else splitlines_from (line +:+ String c "") rest
  end.

Definition splitlines (s : string) : list string := splitlines_from "" s.

(** [sub in s] *)
Fixpoint contains (sub s : string) : bool :=
  if String.prefix sub s then true
  else match s with
       | EmptyString => false
       | String _ rest => contains sub rest
       end.

(** [len(v)] *)
Definition len (v : PyVal) : Exc Z :=
  match v with
  | VStr s => Returned (Z.of_nat (String.length s))
  | VList l => Returned (Z.of_nat (length l))
  | VDict d => Returned (Z.of_nat (size d))
  | _ => raise TypeError ("object of type '" +:+ type_name v +:+ "' has no len()")
  end.

(** The truth value of [v]. *)
Definition truthy (v : PyVal) : bool :=
  match v with
  | VNone => false
  | VBool b => b
  | VInt z => negb (z =? 0)
  | VFloat f => negb (PrimFloat.eqb f 0)
  | VStr s => negb (String.eqb s "")
  | VList l => match l with [] => false | _ => true end
  | VDict d => negb (bool_decide (d = ∅))
  end.

(** [a / b] on two [int]s, [0 <= a] and [0 < b]: the nearest double. *)
Definition int_truediv (a b : Z) : Exc float :=
  match Prim2SF (float_of_ratio a b) with
  | S754_infinity _ => raise OverflowError "integer division result too large for a float"
  | _ => Returned (float_of_ratio a b)
  end.

(** [min(x, y)] on two floats: [y] replaces [x] only when [y < x]. *)
Definition float_min (x y : float) : float := if PrimFloat.ltb y x then y else x.

End Text.

(** ** The quality gate: app/workflows/code_review.py *)
Module code_review.
Import Py core.

Section nodes.

(** [repr] of a float, as an f-string prints it (the shortest decimal that
    reads back as the same double).  It only shapes log lines and is left as
    a parameter. *)
Variable float_repr : float → string.

Definition str_num (n : Num) : string :=
  match n with
  | NInt z => pretty z
  | NFloat f => float_repr f
  end.

(** [suggest_improvements].  [setdefault(...).extend(...)] extends the list
    under [suggestions] in place, a list the shallow copy shares with the
    state received; the successor state below holds the extended list, and
    nothing here tracks what older holders of that list then see. *)
Definition suggest_improvements (st : State) (tools : ToolRegistry) : Exc NodeReturn :=
  let complexity := default (VInt 0) (st !! "complexity_score") in
  too_complex ← gt_num complexity (NFloat 0.7);
  let suggestions :=
    if too_complex : bool then ["Reduce branching or split large functions."] else [] in
  issues ← get_method (default (VDict ∅) (st !! "issues")) "issues" (VInt 0);
  flagged ← gt_num issues (NInt 0);
  let suggestions :=
    if flagged : bool then suggestions ++ ["Address flagged code smells."] else suggestions in
  let suggestions :=
    match suggestions with
    | [] => ["Looks good, minor refactors only."]
    | _ => suggestions
    end in
  match default (VList []) (st !! "suggestions") with
  | VList l =>
      let new_state := <["suggestions" := VList (l ++ (VStr <$> suggestions))]> st in
      Returned (RetNodeResult (mkNodeResult new_state None
        (Some ("Added " +:+ pretty (length suggestions) +:+ " suggestions"))))
  | v => raise AttributeError ("'" +:+ type_name v +:+ "' object has no attribute 'extend'")
  end.

(** The value [check_quality] stores under [quality_score]:
    [round(max(0.0, 1.0 - 0.2 * issues_count - 0.3 * complexity), 2)]. *)
Definition quality_score (st : State) : Exc float :=
  issues_count ← get_method (default (VDict ∅) (st !! "issues")) "issues" (VInt 0);
  let complexity := default (VInt 0) (st !! "complexity_score") in
  a ← float_mul 0.2 issues_count;
  b ← float_mul 0.3 complexity;
  Returned (round2 (float_max 0 (1 - a - b))).

(** [check_quality] *)
Definition check_quality (st : State) (tools : ToolRegistry) : Exc NodeReturn :=
  let threshold := default (VFloat 0.7) (st !! "quality_threshold") in
  let max_loops := default (VInt 3) (st !! "max_iterations") in
  iterations ← add_int (default (VInt 0) (st !! "iterations")) 1;
  score ← quality_score st;
  let new_state := <["iterations" := of_num iterations]> (<["quality_score" := VFloat score]> st) in
  let line := "Quality score " +:+ float_repr score
              +:+ " (iteration " +:+ str_num iterations +:+ ")" in
  reached ← num_ge_val (NFloat score) threshold;
  stop ← (if reached : bool then Returned true else num_ge_val iterations max_loops);
  if stop : bool
  then Returned (RetNodeResult (mkNodeResult new_state None (Some (line +:+ " -> stop"))))
  else Returned (RetNodeResult (mkNodeResult new_state (Some "suggest_improvements")
                                             (Some (line +:+ " -> continue")))).

End nodes.

Section workflow.

(** Three things the model of a value does not fix are parameters here:
    [repr] of a float (as above); the keys of a mapping in the order a
    [for] loop visits them, its insertion order, which a [gmap] does not
    keep; and [str] of a list or a mapping, which follows that order too. *)
Variable float_repr : float → string.
Variable key_order : gmap string PyVal → list string.
Variable container_str : PyVal → string.

(** [str(v)], as an f-string interpolates a value. *)
Definition str_value (v : PyVal) : string :=
  match v with
  | VNone => "None"
  | VBool b => if b then "True" else "False"
  | VInt z => pretty z
  | VFloat f => float_repr f
  | VStr s => s
  | VList _ | VDict _ => container_str v
  end.

(** [_extract_functions_from_code]; [re.findall] wants a string. *)
Definition _extract_functions_from_code (code : PyVal) : Exc (list string) :=
  match code with
  | VStr s => Returned (Text.findall_def 0 s)
  | _ => raise TypeError ("expected string or bytes-like object, got '"
                          +:+ type_name code +:+ "'")
  end.

(** [extract_functions] *)
Definition extract_functions (st : State) (tools : ToolRegistry) : Exc NodeReturn :=
  let code := default (VStr "") (st !! "code") in
  functions ← _extract_functions_from_code code;
  let new_state :=
    <["function_count" := VInt (Z.of_nat (length functions))]>
      (<["functions" := VList (VStr <$> functions)]> st) in
  Returned (RetNodeResult (mkNodeResult new_state None
    (Some ("Found " +:+ pretty (length functions) +:+ " functions")))).

(** The values a [for] loop over [v] visits: the items of a list, the
    characters of a string, the keys of a mapping. *)
Definition iterate (v : PyVal) : Exc (list PyVal) :=
  match v with
  | VList l => Returned l
  | VStr s => Returned ((λ c, VStr (String c "")) <$> list_ascii_of_string s)
  | VDict d => Returned (VStr <$> key_order d)
  | _ => raise TypeError ("'" +:+ type_name v +:+ "' object is not iterable")
  end.

(** The loop of [check_complexity]:
    [complexity_score += min(1.0, max(0.1, len(fn) / 10))]. *)
Fixpoint complexity_sum (complexity_score : float) (fns : list PyVal) : Exc float :=
  match fns with
  | [] => Returned complexity_score
  | fn :: rest =>
      n ← Text.len fn;
      q ← Text.int_truediv n 10;
      complexity_sum (complexity_score + Text.float_min 1 (float_max 0.1 q)) rest
  end.

(** [check_complexity] *)
Definition check_complexity (st : State) (tools : ToolRegistry) : Exc NodeReturn :=
  fns ← iterate (default (VList []) (st !! "functions"));
  total ← complexity_sum 0 fns;
  complexity_score ←
    (if Text.truthy (default VNone (st !! "functions")) then
       n ← Text.len (default (VList []) (st !! "functions"));
       d ← float_of_Z (Z.max 1 n);
       Returned (round2 (total / d))
     else Returned 0.1%float);
  let new_state := <["complexity_score" := VFloat complexity_score]> st in
  Returned (RetNodeResult (mkNodeResult new_state None
    (Some ("Complexity score: " +:+ float_repr complexity_score)))).

(** [detect_issues] *)
Definition detect_issues (st : State) (tools : ToolRegistry) : Exc NodeReturn :=
  detect ← get tools "detect_smells";
  issues ← detect [default (VStr "") (st !! "code")];
  let new_state := <["issues" := issues]> st in
  count ← get_method issues "issues" (VInt 0);
  Returned (RetNodeResult (mkNodeResult new_state None
    (Some ("Issues detected: " +:+ str_value count)))).

(** [NODE_LIBRARY] *)
Definition NODE_LIBRARY : gmap string NodeCallable :=
  <["check_quality" := check_quality float_repr]>
    (<["suggest_improvements" := suggest_improvements]>
       (<["detect_issues" := detect_issues]>
          (<["check_complexity" := check_complexity]>
             (<["extract_functions" := extract_functions]> ∅)))).

End workflow.

End code_review.

(** ** The application: app/main.py *)
Module main.
Import Py core code_review.

(** [detect_smells_tool], as a tool called with its positional arguments. *)
Definition detect_smells_tool : Tool := λ args,
  match args with
  | [] => raise TypeError "detect_smells_tool() missing 1 required positional argument: 'code'"
  | [VStr code] =>
      let long_lines := filter (λ line, (120 <? String.length line)%nat) (Text.splitlines code) in
      let todo_comments := filter (λ line, Text.contains "TODO" line) (Text.splitlines code) in
      Returned (VDict
        (<["todos" := VInt (Z.of_nat (length todo_comments))]>
           (<["long_lines" := VInt (Z.of_nat (length long_lines))]>
              (<["issues" := VInt (Z.of_nat (length long_lines + length todo_comments))]> ∅))))
  | [code] => raise AttributeError ("'" +:+ type_name code
                                    +:+ "' object has no attribute 'splitlines'")
  | _ => raise TypeError ("detect_smells_tool() takes 1 positional argument but "
                          +:+ pretty (length args) +:+ " were given")
  end.

(** [tool_registry], after [tool_registry.register("detect_smells", ...)]. *)
Definition tool_registry : ToolRegistry :=
  register (mkTools ∅) "detect_smells" detect_smells_tool.

(** The response models, and [HTTPException]. *)
Record GraphCreateRequest : Type := mkCreateRequest {
  req_nodes : list string;
  req_edges : gmap string EdgeValue;
  req_start_node : string;
  req_description : option string;
}.

Record GraphRunRequest : Type := mkRunRequest {
  req_graph_id : string;
  initial_state : State;
}.

Record GraphRunResponse : Type := mkRunResponse {
  resp_run_id : string;
  final_state : State;
  resp_logs : list LogEntry;
}.

Record GraphStateResponse : Type := mkStateResponse {
  state_run_id : string;
  state_status : string;
  state_current_state : State;
  state_logs : list LogEntry;
  state_current_node : option string;
  state_error : option string;
}.

Record HTTPException : Type := mkHTTP { status_code : Z; detail : string }.

(** What a handler ends with: the body it returns, the [HTTPException] it
    raises, or an exception it does not catch. *)
Inductive Reply (A : Type) : Type :=
  | Body (a : A)
  | Refused (e : HTTPException)
  | Unhandled (e : PyExc).
Arguments Body {A} a.
Arguments Refused {A} e.
Arguments Unhandled {A} e.

Section app.
Variable float_repr : float → string.
Variable key_order : gmap string PyVal → list string.
Variable container_str : PyVal → string.

(** The ids of the graph table in the order [list_graphs] returns them,
    the order of insertion, which the model of the table does not keep. *)
Variable graph_order : gmap string GraphDefinition → list string.

(** [engine], as the module creates it. *)
Definition engine : GraphEngine :=
  __init__ (NODE_LIBRARY float_repr key_order container_str) tool_registry.

(** [list(NODE_LIBRARY.keys())] and the [edges] of [_ensure_default_graph]. *)
Definition default_nodes : list string :=
  ["extract_functions"; "check_complexity"; "detect_issues"; "suggest_improvements";
   "check_quality"].

Definition default_edges : gmap string EdgeValue :=
  <["check_quality" := NameList []]>
    (<["suggest_improvements" := NameList ["check_quality"]]>
       (<["detect_issues" := NameList ["suggest_improvements"]]>
          (<["check_complexity" := NameList ["detect_issues"]]>
             (<["extract_functions" := NameList ["check_complexity"]]> ∅)))).

(** [_ensure_default_graph] on the engine [eng]; [uuid] is the id
    [register_graph] would draw. *)
Definition _ensure_default_graph (eng : GraphEngine) (uuid : string)
  : GraphEngine * Exc string :=
  match graph_order (_graphs eng) with
  | first :: _ => (eng, Returned first)
  | [] => register_graph eng uuid default_nodes default_edges "extract_functions"
            (Some "Code review loop")
  end.

(** [create_graph]: a [ValueError] becomes status 400. *)
Definition create_graph (eng : GraphEngine) (uuid : string) (request : GraphCreateRequest)
  : GraphEngine * Reply string :=
  let edges := (λ v, NameList (normalize_edge v)) <$> req_edges request in
  match register_graph eng uuid (req_nodes request) edges (req_start_node request)
          (req_description request) with
  | (eng', Returned gid) => (eng', Body gid)
  | (eng', Raised exc) =>
      match exc_class exc with
      | ValueError => (eng', Refused (mkHTTP 400 (exc_str exc)))
      | _ => (eng', Unhandled exc)
      end
  end.

(** [run_graph]: a [KeyError] becomes status 404, any other exception 500.
    An exception of another class is taken to derive from none of the
    classes named in [ExcClass]. *)
Definition run_graph (fuel : nat) (eng : GraphEngine) (uuid : string) (request : GraphRunRequest)
  : GraphEngine * option (Reply GraphRunResponse) :=
  match core.run_graph fuel eng uuid (req_graph_id request) (initial_state request) with
  | (eng', None) => (eng', None)
  | (eng', Some (Returned run)) =>
      (eng', Some (Body (mkRunResponse (run_id run) (current_state run) (logs run))))
  | (eng', Some (Raised exc)) =>
      match exc_class exc with
      | KeyError => (eng', Some (Refused (mkHTTP 404 (exc_str exc))))
      | _ => (eng', Some (Refused (mkHTTP 500 (exc_str exc))))
      end
  end.

(** [get_state]: a [KeyError] becomes status 404. *)
Definition get_state (eng : GraphEngine) (rid : string) : Reply GraphStateResponse :=
  match get_run eng rid with
  | Returned run =>
      Body (mkStateResponse (run_id run) (status run) (current_state run) (logs run)
              (current_node run) (error run))
  | Raised exc =>
      match exc_class exc with
      | KeyError => Refused (mkHTTP 404 (exc_str exc))
      | _ => Unhandled exc
      end
  end.

End app.

End main.

(** ** The engine with shared objects

    The modules above take a state as a value.  In the code a state is an
    object: [dict(state)] copies the mapping but not the lists and mappings
    it holds, [_execute] puts the state object a node returns into the log
    entry as it is, and a node may change a list in place.  This module
    embeds [_run_node], [_execute], [run_graph] and [get_run] once more,
    over a store of objects, for the properties that depend on who shares
    what. *)
Module shared.
Import Py core.

(** A value: immutable, or a reference to a list or a mapping of the
    store. *)
Inductive Value : Type :=
  | PNone
  | PBool (b : bool)
  | PInt (z : Z)
  | PFloat (f : float)
  | PStr (s : string)
  | PRef (l : nat).

Inductive Object : Type :=
  | OList (items : list Value)
  | ODict (entries : gmap string Value).

(** The store: the objects created so far, a reference being the position
    of its object.  Nothing is ever freed. *)
Abbreviation Store := (list Object).

Definition alloc (h : Store) (o : Object) : Store * nat := (h ++ [o], length h).

(** The entries of the mapping [v] refers to.  The callers below pass a
    mapping, as the signatures say; anything else counts as empty here. *)
Definition entries_at (h : Store) (v : Value) : gmap string Value :=
  match v with
  | PRef l => match h !! l with Some (ODict m) => m | _ => ∅ end
  | _ => ∅
  end.


(** [dict(state)]: a new mapping with the same keys bound to the same
    values, references included. *)
Definition dict_copy (h : Store) (state : Value) : Store * Value :=
  let '(h', l) := alloc h (ODict (entries_at h state)) in (h', PRef l).

(** [isinstance(v, dict)] *)
Definition is_dict (h : Store) (v : Value) : bool :=
  match v with
  | PRef l => match h !! l with Some (ODict _) => true | _ => false end
  | _ => false
  end.

Record NodeResult : Type := mkNodeResult {
  state : Value;
  next_node : option string;
  log : option string;
}.

Inductive NodeReturn : Type :=
  | RetNodeResult (r : NodeResult)
  | RetValue (v : Value).

(** A node receives the state object and the tools; it may create objects
    and change existing ones, also when it raises. *)
Definition NodeCallable : Type := Store → Value → ToolRegistry → Store * Exc NodeReturn.

Record GraphDefinition : Type := mkGraph {
  graph_id : string;
  nodes : gmap string NodeCallable;
  edges : gmap string (list string);
  start_node : string;
  description : option string;
}.

Record LogEntry : Type := mkLog {
  node : string;
  entry_log : option string;
  state_snapshot : Value;
}.

Record GraphRunRecord : Type := mkRun {
  run_id : string;
  run_graph_id : string;
  current_state : Value;
  status : string;
  logs : list LogEntry;
  current_node : option string;
  error : option string;
}.

Record GraphEngine : Type := mkEngine {
  _graphs : gmap string GraphDefinition;
  _runs : gmap string GraphRunRecord;
  _node_library : gmap string NodeCallable;
  _tool_registry : ToolRegistry;
}.

(** [_run_node] *)
Definition _run_node (tools : ToolRegistry) (fn : NodeCallable) (h : Store) (st : Value)
  : Store * Exc NodeResult :=
  let '(h', outcome) := fn h st tools in
  (h', result ← outcome;
       match result with
       | RetNodeResult r => Returned r
       | RetValue v =>
           if is_dict h' v then Returned (mkNodeResult v None None)
           else raise TypeError "Node must return NodeResult or dict"
       end).

(** One pass through the body of the [while] loop of [_execute].  The log
    entry holds [result.state] itself, the object that is the next
    [current_state]. *)
Definition loop_body (graph : GraphDefinition) (tools : ToolRegistry) (h : Store)
    (cur : string) (st : Value) (lg : list LogEntry)
  : Store * Exc (option string * Value * list LogEntry) :=
  match nodes graph !! cur with
  | None => (h, raise KeyError cur)
  | Some node_fn =>
      let '(h', outcome) := _run_node tools node_fn h st in
      (h', result ← outcome;
           let lg := lg ++ [mkLog cur (log result) (state result)] in
           let st := state result in
           match next_node result with
           | Some n => Returned (Some n, st, lg)
           | None =>
               let next_candidates := default [] (edges graph !! cur) in
               if (1 <? length next_candidates)%nat
               then raise ValueError ("Node '" +:+ cur
                      +:+ "' has multiple edges but no next_node provided by the node logic")
               else Returned (head next_candidates, st, lg)
           end)
  end.

(** The [while current_node:] loop; [None]: the fuel ran out. *)
Fixpoint _execute_loop (fuel : nat) (graph : GraphDefinition) (tools : ToolRegistry)
    (h : Store) (cur : option string) (st : Value) (lg : list LogEntry)
  : Store * option (Exc (Value * list LogEntry)) :=
  match cur with
  | Some (String _ _ as name) =>
      match fuel with
      | O => (h, None)
      | S fuel' =>
          match loop_body graph tools h name st lg with
          | (h', Raised e) => (h', Some (Raised e))
          | (h', Returned (cur', st', lg')) => _execute_loop fuel' graph tools h' cur' st' lg'
          end
      end
  | _ => (h, Some (Returned (st, lg)))
  end.

(** The passes of the loop as a relation, as in [core]. *)
Inductive passes (graph : GraphDefinition) (tools : ToolRegistry)
  : nat → Store * option string * Value * list LogEntry
        → Store * option string * Value * list LogEntry → Prop :=
  | passes_O ls : passes graph tools 0 ls ls
  | passes_S n h name st lg h' cur' st' lg' ls'' :
      name ≠ "" →
      loop_body graph tools h name st lg = (h', Returned (cur', st', lg')) →
      passes graph tools n (h', cur', st', lg') ls'' →
      passes graph tools (S n) (h, Some name, st, lg) ls''.

(** [_execute]: [current_state = dict(state)], then the loop. *)
Definition _execute (fuel : nat) (self : GraphEngine) (graph : GraphDefinition)
    (h : Store) (state : Value) : Store * option (Exc (Value * list LogEntry)) :=
  let '(h1, current_state) := dict_copy h state in
  _execute_loop fuel graph (_tool_registry self) h1 (Some (start_node graph)) current_state [].

Definition store_run (self : GraphEngine) (run : GraphRunRecord) : GraphEngine :=
  mkEngine (_graphs self) (<[run_id run := run]> (_runs self))
           (_node_library self) (_tool_registry self).

(** The record [run_graph] creates; [copy] is [dict(initial_state)]. *)
Definition new_run (uuid gid : string) (copy : Value) : GraphRunRecord :=
  mkRun uuid gid copy "running" [] None None.

(** The first critical section of [run_graph]. *)
Definition run_graph_begin (self : GraphEngine) (h : Store) (uuid gid : string)
    (initial_state : Value) : Exc (GraphEngine * Store * GraphRunRecord * GraphDefinition) :=
  match _graphs self !! gid with
  | None => raise KeyError ("Graph '" +:+ gid +:+ "' not found")
  | Some graph =>
      let '(h1, copy) := dict_copy h initial_state in
      let run := new_run uuid gid copy in
      Returned (store_run self run, h1, run, graph)
  end.

(** The second critical section: the [try] branch on success, the [except]
    branch on an exception. *)
Definition run_graph_settle (self : GraphEngine) (run : GraphRunRecord)
    (outcome : Exc (Value * list LogEntry)) : GraphEngine * Exc GraphRunRecord :=
  match outcome with
  | Returned (final_state, lg) =>
      let run' := mkRun (run_id run) (run_graph_id run) final_state "completed" lg None (error run) in
      (store_run self run', Returned run')
  | Raised exc =>
      let run' := mkRun (run_id run) (run_graph_id run) (current_state run) "failed"
                        (logs run) (current_node run) (Some (exc_str exc)) in
      (store_run self run', Raised exc)
  end.

(** [run_graph]; it returns the store as the call leaves it. *)
Definition run_graph (fuel : nat) (self : GraphEngine) (h : Store) (uuid gid : string)
    (initial_state : Value) : GraphEngine * Store * option (Exc GraphRunRecord) :=
  match run_graph_begin self h uuid gid initial_state with
  | Raised e => (self, h, Some (Raised e))
  | Returned (self1, h1, run, graph) =>
      match _execute fuel self1 graph h1 initial_state with
      | (h2, None) => (self1, h2, None)
      | (h2, Some outcome) =>
          let '(self2, r) := run_graph_settle self1 run outcome in (self2, h2, Some r)
      end
  end.

(** [get_run] *)
Definition get_run (self : GraphEngine) (rid : string) : Exc GraphRunRecord :=
  match _runs self !! rid with
  | None => raise KeyError ("Run '" +:+ rid +:+ "' not found")
  | Some run => Returned run
  end.

(** A value as far as its type goes: what comparisons and error
    messages need of it. *)
Definition shallow (h : Store) (v : Value) : PyVal :=
  match v with
  | PNone => VNone
  | PBool b => VBool b
  | PInt z => VInt z
  | PFloat f => VFloat f
  | PStr s => VStr s
  | PRef l =>
      match h !! l with
      | Some (OList _) => VList []
      | Some (ODict _) => VDict ∅
      | None => VNone
      end
  end.

(** [v.get(key, default)]: only a mapping has the method. *)
Definition get_method (h : Store) (v : Value) (key : string) (dflt : Value) : Exc Value :=
  match v with
  | PRef l =>
      match h !! l with
      | Some (ODict m) => Returned (default dflt (m !! key))
      | _ => raise AttributeError ("'" +:+ type_name (shallow h v)
                                   +:+ "' object has no attribute 'get'")
      end
  | _ => raise AttributeError ("'" +:+ type_name (shallow h v)
                               +:+ "' object has no attribute 'get'")
  end.

(** [suggest_improvements] of app/workflows/code_review.py, with its
    effect on the store: [new_state = dict(state)] is a new mapping, and
    [new_state.setdefault("suggestions", []).extend(suggestions)] extends
    in place the list the state holds, or a new one when it holds none.
    Only the objects that stay reachable are put in the store. *)
Definition suggest_improvements : NodeCallable := λ h st tools,
  let m := entries_at h st in
  let complexity := default (PInt 0) (m !! "complexity_score") in
  match
    too_complex ← gt_num (shallow h complexity) (NFloat 0.7);
    let suggestions :=
      if too_complex : bool then ["Reduce branching or split large functions."] else [] in
    issues ← match m !! "issues" with
             | Some v => get_method h v "issues" (PInt 0)
             | None => Returned (PInt 0)
             end;
    flagged ← gt_num (shallow h issues) (NInt 0);
    let suggestions :=
      if flagged : bool then suggestions ++ ["Address flagged code smells."] else suggestions in
    Returned (match suggestions with
              | [] => ["Looks good, minor refactors only."]
              | _ => suggestions
              end)
  with
  | Raised e => (h, Raised e)
  | Returned suggestions =>
      let '(h1, d) := alloc h (ODict m) in
      let result := RetNodeResult (mkNodeResult (PRef d) None
                      (Some ("Added " +:+ pretty (length suggestions) +:+ " suggestions"))) in
      match m !! "suggestions" with
      | None =>
          let '(h2, l) := alloc h1 (OList (PStr <$> suggestions)) in
          (<[d := ODict (<["suggestions" := PRef l]> m)]> h2, Returned result)
      | Some (PRef l) =>
          match h1 !! l with
          | Some (OList items) =>
              (<[l := OList (items ++ (PStr <$> suggestions))]> h1, Returned result)
          | _ => (h1, raise AttributeError
                        ("'" +:+ type_name (shallow h1 (PRef l))
                         +:+ "' object has no attribute 'extend'"))
          end
      | Some v => (h1, raise AttributeError
                         ("'" +:+ type_name (shallow h1 v)
                          +:+ "' object has no attribute 'extend'"))
      end
  end.

(** What a reader of the store sees behind a value, down to [depth]
    references: the value as the modules above have it.  [None]: a
    reference leads nowhere or lies deeper. *)
Definition read_entries (f : Value → option PyVal) (m : gmap string Value)
  : option (gmap string PyVal) :=
  if decide (map_Forall (λ _ v, is_Some (f v)) m) then Some (omap f m) else None.

Fixpoint read (depth : nat) (h : Store) (v : Value) : option PyVal :=
  match v with
  | PNone => Some VNone
  | PBool b => Some (VBool b)
  | PInt z => Some (VInt z)
  | PFloat f => Some (VFloat f)
  | PStr s => Some (VStr s)
  | PRef l =>
      match depth with
      | O => None
      | S d =>
          match h !! l with
          | Some (OList items) => VList <$> mapM (read d h) items
          | Some (ODict m) => VDict <$> read_entries (read d h) m
          | None => None
          end
      end
  end.

End shared.

(** * Vocabulary of the statements *)

Import Py core code_review.

(** [sub] occurs in [s]. *)
Definition substring (sub s : string) : Prop := ∃ pre post, s = pre +:+ sub +:+ post.

(** The state a visiting node returns: its input with its own name appended
    to the list under [visited] (a missing list counts as empty). *)
Definition visit (name : string) (st : State) : State :=
  <["visited" := VList (match st !! "visited" with Some (VList l) => l | _ => [] end
                        ++ [VStr name])]> st.

(** [fn] returns its input state with [name] appended to [visited] and
    supplies no [next_node]: as a [NodeResult] with any log line, or as a
    plain mapping. *)
Definition appends_name (name : string) (fn : NodeCallable) : Prop :=
  ∀ st tools,
    (∃ line, fn st tools = Returned (RetNodeResult (mkNodeResult (visit name st) None line)))
    ∨ fn st tools = Returned (RetValue (VDict (visit name st))).

Definition visited (names : list string) : State :=
  {["visited" := VList (VStr <$> names)]}.

(** [graph] with its static edges replaced by [es]. *)
Definition with_edges (graph : GraphDefinition) (es : gmap string (list string)) : GraphDefinition :=
  mkGraph (graph_id graph) (nodes graph) es (start_node graph) (description graph).

(** The loop entering its body at node [name]: one pass there, then the
    loop goes on from what the pass leaves. *)
Definition pass_at (fuel : nat) (graph : GraphDefinition) (tools : ToolRegistry)
    (name : string) (st : State) (lg : list LogEntry) : option (Exc (State * list LogEntry)) :=
  match fuel with
  | O => None
  | S fuel' =>
      match loop_body graph tools name st lg with
      | Raised e => Some (Raised e)
      | Returned (cur', st', lg') => _execute_loop fuel' graph tools cur' st' lg'
      end
  end.

(** The score [check_quality] computes never reaches the threshold: the
    score is computed and [quality_score >= threshold] is false. *)
Definition below_threshold (st : State) : Prop :=
  ∃ score, quality_score st = Returned score
           ∧ num_ge_val (NFloat score) (default (VFloat 0.7) (st !! "quality_threshold"))
             = Returned false.

(** [suggestions] is absent or a list, so that [extend] applies. *)
Definition suggestions_ok (st : State) : Prop :=
  ∃ l, default (VList []) (st !! "suggestions") = VList l.

(** The number of executions of node [name] a log records. *)
Definition executions (name : string) (lg : list LogEntry) : nat :=
  length (filter (λ e, node e = name) lg).

(** The nodes run from an execution of [check_quality] that is followed by
    [k] more rounds. *)
Fixpoint gate_rounds (k : nat) : list string :=
  match k with
  | O => ["check_quality"]
  | S k' => "check_quality" :: "suggest_improvements" :: gate_rounds k'
  end.

(** [name] is an identifier: a character of [a-zA-Z_], then characters
    of [a-zA-Z0-9_]. *)
Definition is_identifier (name : string) : bool :=
  match name with
  | EmptyString => false
  | String c rest =>
      Text.is_ident_start c && forallb Text.is_ident_char (list_ascii_of_string rest)
  end.

(** The mapping [detect_smells_tool] returns for the two counts. *)
Definition smells (long_lines todos : nat) : PyVal :=
  VDict (<["todos" := VInt (Z.of_nat todos)]>
           (<["long_lines" := VInt (Z.of_nat long_lines)]>
              (<["issues" := VInt (Z.of_nat (long_lines + todos))]> ∅))).

(** Every object of the store [h] is in [h'] as it was: what led from [h]
    to [h'] changed no object in place; it may have created some. *)
Definition unchanged (h h' : shared.Store) : Prop :=
  ∀ l o, h !! l = Some o → h' !! l = Some o.





(** * Example nodes, graphs and engines *)

(** Example nodes and engines. *)
Definition no_tools : ToolRegistry := mkTools ∅.

(** A node that returns the plain mapping [visit name st]. *)
Definition visit_node (name : string) : NodeCallable :=
  λ st _, Returned (RetValue (VDict (visit name st))).

(** A node that visits and names [target] as [next_node]. *)
Definition goto_node (name target : string) : NodeCallable :=
  λ st _, Returned (RetNodeResult (mkNodeResult (visit name st) (Some target) None)).

(** A node that returns an integer. *)
Definition int_node : NodeCallable := λ _ _, Returned (RetValue (VInt 7)).

Definition abc_library : gmap string NodeCallable :=
  <["C" := visit_node "C"]> (<["B" := visit_node "B"]> (<["A" := visit_node "A"]> ∅)).

Definition abc_edges : gmap string EdgeValue :=
  <["A" := NameList ["B"]]> (<["B" := NameList ["C"]]> (<["C" := NameList []]> ∅)).

Definition abc_engine : GraphEngine :=
  (register_graph (__init__ abc_library no_tools) "graph-1" ["A"; "B"; "C"] abc_edges "A" None).1.

Definition abc_graph : GraphDefinition :=
  mkGraph "graph-1" abc_library (normalize_edge <$> abc_edges) "A" None.

(** A graph whose node A has the static edge list [["B"]] and answers with
    [next_node = "C"]. *)
Definition override_graph : GraphDefinition :=
  mkGraph "graph-2"
    (<["C" := visit_node "C"]> (<["B" := visit_node "B"]> (<["A" := goto_node "A" "C"]> ∅)))
    ∅ "A" None.

(** A graph whose node A answers with the empty string as [next_node],
    and that has a node registered under the empty name. *)
Definition empty_name_library : gmap string NodeCallable :=
  <["" := visit_node ""]> (<["A" := goto_node "A" ""]> ∅).

Definition empty_name_engine : GraphEngine :=
  (register_graph (__init__ empty_name_library no_tools) "graph-3" ["A"; ""]
     {["A" := NameList ["B"]]} "A" None).1.

Definition empty_name_graph : GraphDefinition :=
  mkGraph "graph-3" empty_name_library {["A" := ["B"]]} "A" None.

(** A then B, where B has the two static edges A and C and names no
    [next_node]. *)
Definition fork_edges : gmap string EdgeValue :=
  <["B" := NameList ["A"; "C"]]> (<["A" := OneName "B"]> ∅).

Definition fork_engine : GraphEngine :=
  (register_graph (__init__ abc_library no_tools) "graph-4" ["A"; "B"; "C"] fork_edges "A" None).1.

Definition fork_graph : GraphDefinition :=
  mkGraph "graph-4" abc_library (normalize_edge <$> fork_edges) "A" None.

(** A then B, where B returns an integer. *)
Definition int_library : gmap string NodeCallable :=
  <["B" := int_node]> (<["A" := visit_node "A"]> ∅).

Definition int_engine : GraphEngine :=
  (register_graph (__init__ int_library no_tools) "graph-5" ["A"; "B"]
     {["A" := NameList ["B"]]} "A" None).1.

Definition int_graph : GraphDefinition :=
  mkGraph "graph-5" int_library {["A" := ["B"]]} "A" None.

(** A library whose only node A names Z, which no graph node is called, as
    [next_node]. *)
Definition stray_library : gmap string NodeCallable := {["A" := goto_node "A" "Z"]}.

Definition stray_engine : GraphEngine :=
  (register_graph (__init__ stray_library no_tools) "graph-6" ["A"] ∅ "A" None).1.

Definition stray_graph : GraphDefinition := mkGraph "graph-6" stray_library ∅ "A" None.

(** The gate on a concrete state: two issues and complexity 0.5 give the
    score 0.45, below the default threshold 0.7.  [repr_example] stands
    for [repr] on the one float the run formats. *)
Definition repr_example : float → string := λ _, "0.45".

Definition gate_library : gmap string NodeCallable :=
  <["check_quality" := check_quality repr_example]>
    (<["suggest_improvements" := suggest_improvements]> ∅).

Definition gate_edges : gmap string EdgeValue :=
  <["suggest_improvements" := OneName "check_quality"]> (<["check_quality" := NameList []]> ∅).

Definition gate_engine : GraphEngine :=
  (register_graph (__init__ gate_library no_tools) "graph-9"
     ["suggest_improvements"; "check_quality"] gate_edges "suggest_improvements" None).1.

Definition gate_graph : GraphDefinition :=
  mkGraph "graph-9" gate_library (normalize_edge <$> gate_edges) "suggest_improvements" None.

Definition gate_state : State :=
  <["max_iterations" := VInt 3]>
    (<["issues" := VDict {["issues" := VInt 2]}]> (<["complexity_score" := VFloat 0.5]> ∅)).

(** Registering the edges [{"a": "b"}]. *)
Definition ab_library : gmap string NodeCallable :=
  <["b" := visit_node "b"]> (<["a" := visit_node "a"]> ∅).

(** The record of the run of [abc_engine] from the empty state. *)
Definition abc_run : GraphRunRecord :=
  mkRun "run-1" "graph-1" (visited ["A"; "B"; "C"]) "completed"
    [mkLog "A" None (visited ["A"]); mkLog "B" None (visited ["A"; "B"]);
     mkLog "C" None (visited ["A"; "B"; "C"])] None None.

(** One node A whose static edge leads back to A. *)
Definition cycle_engine : GraphEngine :=
  (register_graph (__init__ abc_library no_tools) "graph-10" ["A"]
     {["A" := OneName "A"]} "A" None).1.

Definition cycle_graph : GraphDefinition :=
  mkGraph "graph-10" {["A" := visit_node "A"]} {["A" := ["A"]]} "A" None.

(** A then the static edge to Z, a name outside the nodes. *)
Definition dangling_engine : GraphEngine :=
  (register_graph (__init__ abc_library no_tools) "graph-11" ["A"]
     {["A" := OneName "Z"]} "A" None).1.

Definition dangling_graph : GraphDefinition :=
  mkGraph "graph-11" {["A" := visit_node "A"]} {["A" := ["Z"]]} "A" None.

(** The gate entered at [check_quality], with a cap of five and two
    iterations already counted. *)
Definition gate_engine_at_check : GraphEngine :=
  (register_graph (__init__ gate_library no_tools) "graph-12"
     ["suggest_improvements"; "check_quality"] gate_edges "check_quality" None).1.

Definition gate_graph_at_check : GraphDefinition :=
  mkGraph "graph-12" gate_library (normalize_edge <$> gate_edges) "check_quality" None.

Definition gate_state_late : State :=
  <["iterations" := VInt 2]> (<["max_iterations" := VInt 5]> gate_state).

(** The review nodes with example parameters, in an engine without any
    tool, and a graph of the one node [detect_issues]. *)
Definition example_library : gmap string NodeCallable :=
  NODE_LIBRARY repr_example (λ _, []) (λ _, "").

Definition toolless_engine : GraphEngine :=
  (register_graph (__init__ example_library no_tools) "graph-13" ["detect_issues"]
     ∅ "detect_issues" None).1.

Definition toolless_graph : GraphDefinition :=
  mkGraph "graph-13" {["detect_issues" := detect_issues repr_example (λ _, "")]} ∅
    "detect_issues" None.

(** [repr] of the message of the [KeyError] that [ToolRegistry.get] raises
    for [detect_smells]: the message has single quotes, so [repr] wraps it
    in double quotes. *)
Definition missing_tool_detail : string :=
  String dquote ("Tool 'detect_smells' is not registered" +:+ String dquote "").

(** The graph [_ensure_default_graph] registers under the id [gid]. *)
Definition default_graph (float_repr : float → string)
    (key_order : gmap string PyVal → list string) (container_str : PyVal → string)
    (gid : string) : GraphDefinition :=
  mkGraph gid (NODE_LIBRARY float_repr key_order container_str)
    (normalize_edge <$> main.default_edges) "extract_functions" (Some "Code review loop").

(** The state after [extract_functions], [check_complexity] and
    [detect_issues] on a code in which no function is found and the tool
    counts [long_lines] and [todos]. *)
Definition analysed (code : string) (long_lines todos : nat) : State :=
  <["issues" := smells long_lines todos]>
    (<["complexity_score" := VFloat 0.1]>
       (<["function_count" := VInt 0]>
          (<["functions" := VList []]> {["code" := VStr code]}))).

(** The suggestion [suggest_improvements] adds at complexity 0.1 for [n]
    issues, and the score [check_quality] stores there when [float(n)] is
    [g]. *)
Definition advice (n : nat) : string :=
  if (0 <? n)%nat then "Address flagged code smells." else "Looks good, minor refactors only.".

Definition review_score (g : float) : float :=
  round2 (float_max 0 (1 - 0.2 * g - 0.3 * 0.1)).

(** The state after [k] rounds of [suggest_improvements] and
    [check_quality] from there. *)
Fixpoint reviewed (k : nat) (code : string) (long_lines todos : nat) (g : float) : State :=
  match k with
  | O => analysed code long_lines todos
  | S k' =>
      <["iterations" := VInt (Z.of_nat k)]>
        (<["quality_score" := VFloat (review_score g)]>
           (<["suggestions" := VList (replicate k (VStr (advice (long_lines + todos))))]>
              (reviewed k' code long_lines todos g)))
  end.

(** The executions of [check_quality] in the default review: one when the
    score reaches the default threshold 0.7, three, the default cap,
    otherwise. *)
Definition rounds (g : float) : nat :=
  if num_ge (NFloat (review_score g)) (NFloat 0.7) then 1%nat else 3%nat.

(** The engine of the application with example parameters, after the
    default graph is registered; a code of two lines with TODO in each,
    and a code with nothing to flag. *)
Definition review_engine : GraphEngine :=
  (register_graph (main.engine repr_example (λ _, []) (λ _, "")) "graph-14"
     main.default_nodes main.default_edges "extract_functions" (Some "Code review loop")).1.

Definition todo_code : string := "# TODO" +:+ String (ascii_of_N 10) "# TODO".

Definition clean_code : string := "def main(): pass".

(** The engines that calls of [register_graph] and [run_graph] lead to
    from a fresh one.  A run whose loop is still going counts with its
    record as published. *)
Inductive reachable (library : gmap string NodeCallable) (tools : ToolRegistry)
  : GraphEngine → Prop :=
  | reachable_init : reachable library tools (__init__ library tools)
  | reachable_register eng uuid names es start descr :
      reachable library tools eng →
      reachable library tools (register_graph eng uuid names es start descr).1
  | reachable_run eng fuel uuid gid st0 :
      reachable library tools eng →
      reachable library tools (run_graph fuel eng uuid gid st0).1.

(** A graph stored under [gid]: it carries that id, its start node is one
    of its nodes, and its nodes are nodes of the library under the same
    names. *)
Definition graph_ok (library : gmap string NodeCallable) (gid : string)
    (graph : GraphDefinition) : Prop :=
  graph_id graph = gid
  ∧ is_Some (nodes graph !! start_node graph)
  ∧ ∀ name fn, nodes graph !! name = Some fn → library !! name = Some fn.

(** A record stored under [rid]: it carries that id, names a registered
    graph and never a current node; it is running or failed with no logs,
    or completed; it has an error exactly when it failed. *)
Definition run_ok (eng : GraphEngine) (rid : string) (run : GraphRunRecord) : Prop :=
  run_id run = rid
  ∧ is_Some (_graphs eng !! run_graph_id run)
  ∧ current_node run = None
  ∧ ((status run = "running" ∧ logs run = [] ∧ error run = None)
     ∨ (status run = "completed" ∧ error run = None)
     ∨ (status run = "failed" ∧ logs run = [] ∧ is_Some (error run))).


(** The second extends the list there is, as [suggest_improvements] does:
    [new = dict(state); new.setdefault("visited", []).append(name); return new]. *)
Definition visit_in_place (name : string) : shared.NodeCallable := λ h st _,
  let m := shared.entries_at h st in
  match m !! "visited" with
  | None =>
      let '(h1, l) := shared.alloc h (shared.OList [shared.PStr name]) in
      let '(h2, d) := shared.alloc h1 (shared.ODict (<["visited" := shared.PRef l]> m)) in
      (h2, Returned (shared.RetValue (shared.PRef d)))
  | Some (shared.PRef l) =>
      match h !! l with
      | Some (shared.OList items) =>
          let h1 := <[l := shared.OList (items ++ [shared.PStr name])]> h in
          let '(h2, d) := shared.alloc h1 (shared.ODict m) in
          (h2, Returned (shared.RetValue (shared.PRef d)))
      | _ => (h, raise AttributeError "'dict' object has no attribute 'append'")
      end
  | Some _ => (h, raise AttributeError "object has no attribute 'append'")
  end.

(** A node that returns an integer. *)
Definition int_result : shared.NodeCallable :=
  λ h _ _, (h, Returned (shared.RetValue (shared.PInt 7))).

(** The linear graph A → B → C over three nodes, and A → B. *)
Definition linear_graph (gid : string) (fA fB fC : shared.NodeCallable)
  : shared.GraphDefinition :=
  shared.mkGraph gid (<["C" := fC]> (<["B" := fB]> (<["A" := fA]> ∅)))
    (<["C" := []]> (<["B" := ["C"]]> (<["A" := ["B"]]> ∅))) "A" None.

Definition two_node_graph (gid : string) (fA fB : shared.NodeCallable)
  : shared.GraphDefinition :=
  shared.mkGraph gid (<["B" := fB]> (<["A" := fA]> ∅)) (<["A" := ["B"]]> ∅) "A" None.

Definition engine_of (graph : shared.GraphDefinition) : shared.GraphEngine :=
  shared.mkEngine {[shared.graph_id graph := graph]} ∅ (shared.nodes graph) no_tools.

(** A store that holds the empty state, and one that holds the state
    [{"visited": []}], its list at 0 and the mapping at 1. *)
Definition empty_state_store : shared.Store := [shared.ODict ∅].

Definition empty_list_store : shared.Store :=
  [shared.OList []; shared.ODict {["visited" := shared.PRef 0%nat]}].


Definition in_place_graph : shared.GraphDefinition :=
  linear_graph "graph-2" (visit_in_place "A") (visit_in_place "B") (visit_in_place "C").

(** The run of the in-place nodes from the empty state, and the stores in
    which its three nodes are called: after the two copies [run_graph]
    makes, after A, and after B. *)
Definition in_place_run : shared.GraphEngine * shared.Store * option (Exc shared.GraphRunRecord) :=
  shared.run_graph 3 (engine_of in_place_graph) empty_state_store "run-2" "graph-2"
    (shared.PRef 0%nat).





Definition in_place_then_int : shared.GraphDefinition :=
  two_node_graph "graph-4" (visit_in_place "A") int_result.


Definition failing_run_in_place
  : shared.GraphEngine * shared.Store * option (Exc shared.GraphRunRecord) :=
  shared.run_graph 2 (engine_of in_place_then_int) empty_list_store "run-4" "graph-4"
    (shared.PRef 1%nat).

(** [suggest_improvements] followed by the node that returns an integer,
    run from the state [{"suggestions": []}]. *)
Definition suggest_then_int : shared.GraphDefinition :=
  shared.mkGraph "graph-15"
    (<["B" := int_result]> (<["suggest_improvements" := shared.suggest_improvements]> ∅))
    (<["suggest_improvements" := ["B"]]> ∅) "suggest_improvements" None.

Definition no_suggestions_store : shared.Store :=
  [shared.OList []; shared.ODict {["suggestions" := shared.PRef 0%nat]}].

Definition failing_review : shared.GraphEngine * shared.Store * option (Exc shared.GraphRunRecord) :=
  shared.run_graph 2 (engine_of suggest_then_int) no_suggestions_store "run-15" "graph-15"
    (shared.PRef 1%nat).


(** The store in which the failing node of [failing_run_in_place] is
    called: after the two copies and the in-place node A. *)
Definition in_place_store_at_B : shared.Store :=
  (visit_in_place "A"
     (shared.dict_copy (shared.dict_copy empty_list_store (shared.PRef 1%nat)).1
        (shared.PRef 1%nat)).1
     (shared.PRef 3%nat) no_tools).1.

(** A second run of the in-place nodes, started from the state object the
    first run ended with. *)
Definition second_run : shared.GraphEngine * shared.Store * option (Exc shared.GraphRunRecord) :=
  shared.run_graph 3 in_place_run.1.1 in_place_run.1.2 "run-5" "graph-2" (shared.PRef 6%nat).

(** * Properties of the engine *)

(** ** The model on concrete inputs *)

Example repr_str_quotes :
  repr_str "abc" = "'abc'"
  ∧ repr_str (String squote "s") = String dquote (String squote ("s" +:+ String dquote ""))
  ∧ repr_str (String (ascii_of_N 10) "") = String squote (String backslash ("n" +:+ String squote "")).
Proof. repeat split. Qed.

Example exc_str_key_error :
  exc_str (mkExc KeyError "Z") = "'Z'"
  ∧ exc_str (mkExc ValueError "Start node 'x' must be in nodes list")
    = "Start node 'x' must be in nodes list".
Proof. split; reflexivity. Qed.

Example unknown_node_message_abc :
  unknown_node_message abc_library "nope"
  = "Unknown node 'nope'. Available: ['A', 'B', 'C']".
Proof. reflexivity. Qed.

Example round2_examples :
  round2 2.675 = 2.67%float ∧ round2 0.125 = 0.12%float ∧ round2 1.005 = 1%float
  ∧ round2 (-0.001) = (-0)%float ∧ round2 infinity = infinity.
Proof. repeat split; vm_compute; reflexivity. Qed.

Example float_of_Z_examples :
  float_of_Z (2 ^ 53 + 1) = Returned 9007199254740992%float
  ∧ float_of_Z (10 ^ 400) = raise OverflowError "int too large to convert to float".
Proof. split; vm_compute; reflexivity. Qed.

Example mixed_comparison_is_exact :
  num_gt (NInt (2 ^ 53 + 1)) (NFloat 9007199254740992) = true
  ∧ num_ge (NFloat 9007199254740992) (NInt (2 ^ 53 + 1)) = false
  ∧ num_ge (NFloat nan) (NInt 0) = false.
Proof. repeat split; vm_compute; reflexivity. Qed.

Example quality_score_gate_state : quality_score gate_state = Returned 0.45%float.
Proof. vm_compute. reflexivity. Qed.

Example check_quality_type_error :
  check_quality repr_example (<["iterations" := VNone]> gate_state) no_tools
  = Raised (mkExc TypeError "unsupported operand type(s) for +: 'NoneType' and 'int'").
Proof. reflexivity. Qed.

Example gate_run_nodes :
  (λ r, match r with
        | Some (Returned run) => Some (status run, node <$> logs run, entry_log <$> logs run)
        | _ => None
        end) (run_graph 6 gate_engine "run-9" "graph-9" gate_state).2
  = Some ("completed",
          ["suggest_improvements"; "check_quality"; "suggest_improvements"; "check_quality";
           "suggest_improvements"; "check_quality"],
          [Some "Added 1 suggestions"; Some "Quality score 0.45 (iteration 1) -> continue";
           Some "Added 1 suggestions"; Some "Quality score 0.45 (iteration 2) -> continue";
           Some "Added 1 suggestions"; Some "Quality score 0.45 (iteration 3) -> stop"]).
Proof. vm_compute. reflexivity. Qed.

Example gate_needs_fuel :
  (run_graph 5 gate_engine "run-9" "graph-9" gate_state).2 = None.
Proof. vm_compute. reflexivity. Qed.

(** ** The execution loop *)
Section loop_facts.
Context (graph : GraphDefinition) (tools : ToolRegistry).

Lemma execute_loop_falsy fuel cur st lg :
  cur = None ∨ cur = Some "" →
  _execute_loop fuel graph tools cur st lg = Some (Returned (st, lg)).
Proof. intros [-> | ->]; by destruct fuel. Qed.

Lemma execute_loop_pass fuel name st lg cur' st' lg' :
  name ≠ "" →
  loop_body graph tools name st lg = Returned (cur', st', lg') →
  _execute_loop (S fuel) graph tools (Some name) st lg
  = _execute_loop fuel graph tools cur' st' lg'.
Proof. intros Hne Hbody. destruct name; [done|]. simpl. by rewrite Hbody. Qed.

Lemma execute_loop_raise fuel name st lg e :
  name ≠ "" →
  loop_body graph tools name st lg = Raised e →
  _execute_loop (S fuel) graph tools (Some name) st lg = Some (Raised e).
Proof. intros Hne Hbody. destruct name; [done|]. simpl. by rewrite Hbody. Qed.

Lemma execute_loop_passes n fuel cur st lg cur' st' lg' :
  passes graph tools n (cur, st, lg) (cur', st', lg') →
  _execute_loop (n + fuel) graph tools cur st lg
  = _execute_loop fuel graph tools cur' st' lg'.
Proof.
  intros Hp. remember (cur, st, lg) as ls eqn:E. remember (cur', st', lg') as ls' eqn:E'.
  revert cur st lg E. induction Hp as [ls|n name st0 lg0 [[c1 s1] l1] ls'' Hne Hbody Hp IH];
    intros cur st lg E.
  - subst. by simplify_eq.
  - simplify_eq. rewrite Nat.add_succ_l, (execute_loop_pass _ _ _ _ c1 s1 l1) by done.
    by apply IH.
Qed.

(** More fuel never changes an outcome that was reached. *)
Lemma execute_loop_mono fuel fuel' cur st lg r :
  _execute_loop fuel graph tools cur st lg = Some r →
  (fuel ≤ fuel')%nat →
  _execute_loop fuel' graph tools cur st lg = Some r.
Proof.
  revert fuel' cur st lg. induction fuel as [|fuel IH]; intros fuel' cur st lg Hr Hle.
  - destruct cur as [[|a name]|]; simpl in Hr; [|done|].
    + by rewrite execute_loop_falsy by auto.
    + by rewrite execute_loop_falsy by auto.
  - destruct fuel' as [|fuel']; [lia|].
    destruct cur as [[|a name]|]; simpl in *; [done| |done].
    destruct (loop_body graph tools (String a name) st lg) as [[[c s] l]|e]; [|done].
    apply IH; [done|lia].
Qed.

End loop_facts.

(** ** One pass of the loop, case by case *)
Section body_facts.
Context (graph : GraphDefinition) (tools : ToolRegistry).

Lemma loop_body_unknown cur st lg :
  nodes graph !! cur = None →
  loop_body graph tools cur st lg = raise KeyError cur.
Proof. intros H. unfold loop_body. by rewrite H. Qed.

Lemma loop_body_node_raises cur fn st lg e :
  nodes graph !! cur = Some fn →
  _run_node tools fn st = Raised e →
  loop_body graph tools cur st lg = Raised e.
Proof. intros Hfn Hr. unfold loop_body. by rewrite Hfn, Hr. Qed.

Lemma loop_body_dynamic cur fn st lg r n :
  nodes graph !! cur = Some fn →
  _run_node tools fn st = Returned r →
  next_node r = Some n →
  loop_body graph tools cur st lg
  = Returned (Some n, state r, lg ++ [mkLog cur (log r) (state r)]).
Proof. intros Hfn Hr Hn. unfold loop_body. rewrite Hfn, Hr. simpl. by rewrite Hn. Qed.

Lemma loop_body_static cur fn st lg r :
  nodes graph !! cur = Some fn →
  _run_node tools fn st = Returned r →
  next_node r = None →
  (length (default [] (edges graph !! cur)) ≤ 1)%nat →
  loop_body graph tools cur st lg
  = Returned (head (default [] (edges graph !! cur)), state r,
              lg ++ [mkLog cur (log r) (state r)]).
Proof.
  intros Hfn Hr Hn Hlen. unfold loop_body. rewrite Hfn, Hr. simpl. rewrite Hn.
  destruct (Nat.ltb_spec 1 (length (default [] (edges graph !! cur)))); [lia|done].
Qed.

Lemma loop_body_ambiguous cur fn st lg r :
  nodes graph !! cur = Some fn →
  _run_node tools fn st = Returned r →
  next_node r = None →
  (1 < length (default [] (edges graph !! cur)))%nat →
  loop_body graph tools cur st lg
  = raise ValueError ("Node '" +:+ cur
      +:+ "' has multiple edges but no next_node provided by the node logic").
Proof.
  intros Hfn Hr Hn Hlen. unfold loop_body. rewrite Hfn, Hr. simpl. rewrite Hn.
  destruct (Nat.ltb_spec 1 (length (default [] (edges graph !! cur)))); [done|lia].
Qed.

End body_facts.

(** ** [run_graph] around the loop *)
Section run_facts.
Context (self : GraphEngine) (uuid gid : string) (graph : GraphDefinition) (st0 : State).
Hypothesis Hgraph : _graphs self !! gid = Some graph.

Lemma run_graph_begin_ok :
  run_graph_begin self uuid gid st0
  = Returned (store_run self (new_run uuid gid st0), new_run uuid gid st0, graph).
Proof. unfold run_graph_begin. by rewrite Hgraph. Qed.

Lemma run_graph_completed fuel final lg :
  _execute_loop fuel graph (_tool_registry self) (Some (start_node graph)) st0 []
  = Some (Returned (final, lg)) →
  run_graph fuel self uuid gid st0
  = (store_run (store_run self (new_run uuid gid st0))
       (mkRun uuid gid final "completed" lg None None),
     Some (Returned (mkRun uuid gid final "completed" lg None None))).
Proof.
  intros H. unfold run_graph. rewrite run_graph_begin_ok. unfold _execute. simpl.
  by rewrite H.
Qed.

Lemma run_graph_failed fuel e :
  _execute_loop fuel graph (_tool_registry self) (Some (start_node graph)) st0 []
  = Some (Raised e) →
  run_graph fuel self uuid gid st0
  = (store_run (store_run self (new_run uuid gid st0))
       (mkRun uuid gid st0 "failed" [] None (Some (exc_str e))),
     Some (Raised e)).
Proof.
  intros H. unfold run_graph. rewrite run_graph_begin_ok. unfold _execute. simpl.
  by rewrite H.
Qed.

Lemma get_run_stored (eng : GraphEngine) (run : GraphRunRecord) :
  get_run (store_run eng run) (run_id run) = Returned run.
Proof. unfold get_run, store_run. simpl. by rewrite lookup_insert_eq. Qed.

End run_facts.

(** ** C2: a [next_node] in the result overrides the static edges *)

Lemma execute_loop_pass_at fuel graph tools name st lg :
  name ≠ "" →
  _execute_loop fuel graph tools (Some name) st lg = pass_at fuel graph tools name st lg.
Proof. intros Hne. destruct name; [done|]. by destruct fuel. Qed.

(** C2 (amended).  When the node's result carries a [next_node] that is
    neither null nor the empty string, the pass hands over to that node
    whatever the static edges [es] are, and the loop's next pass is the body
    at that node. *)
Theorem next_node_overrides_static_edges
    (graph : GraphDefinition) (tools : ToolRegistry) (es : gmap string (list string))
    (cur : string) (fn : NodeCallable) (st : State) (lg : list LogEntry)
    (r : NodeResult) (n : string) (fuel : nat) :
  cur ≠ "" →
  nodes graph !! cur = Some fn →
  _run_node tools fn st = Returned r →
  next_node r = Some n →
  n ≠ "" →
  loop_body (with_edges graph es) tools cur st lg
  = Returned (Some n, state r, lg ++ [mkLog cur (log r) (state r)])
  ∧ _execute_loop (S fuel) (with_edges graph es) tools (Some cur) st lg
    = pass_at fuel (with_edges graph es) tools n (state r) (lg ++ [mkLog cur (log r) (state r)]).
Proof.
  intros Hcur Hfn Hr Hn Hne.
  assert (Hbody : loop_body (with_edges graph es) tools cur st lg
                  = Returned (Some n, state r, lg ++ [mkLog cur (log r) (state r)])).
  { by apply (loop_body_dynamic (with_edges graph es) tools cur fn). }
  split; [done|].
  rewrite (execute_loop_pass _ _ _ _ _ _ _ _ _ Hcur Hbody).
  by apply execute_loop_pass_at.
Qed.

(** At that graph the run goes A, C: B is never entered. *)
Lemma next_node_overrides_witness :
  (loop_body (with_edges override_graph {["A" := ["B"]]}) no_tools "A" ∅ []
   = Returned (Some "C", visited ["A"], [mkLog "A" None (visited ["A"])])
   ∧ _execute_loop 3 (with_edges override_graph {["A" := ["B"]]}) no_tools (Some "A") ∅ []
     = pass_at 2 (with_edges override_graph {["A" := ["B"]]}) no_tools "C"
         (visited ["A"]) [mkLog "A" None (visited ["A"])])
  ∧ _execute_loop 3 (with_edges override_graph {["A" := ["B"]]}) no_tools (Some "A") ∅ []
    = Some (Returned (visited ["A"; "C"],
                      [mkLog "A" None (visited ["A"]); mkLog "C" None (visited ["A"; "C"])])).
Proof.
  split; [|reflexivity].
  apply (next_node_overrides_static_edges override_graph no_tools {["A" := ["B"]]} "A"
           (goto_node "A" "C") ∅ [] (mkNodeResult (visited ["A"]) (Some "C") None) "C" 2);
    [discriminate | reflexivity | reflexivity | reflexivity | discriminate].
Defined.

(** C2 as stated fails at the non-null [next_node] [""]: the loop ends
    after A and the run completes with one log entry, where a pass at the
    named node would have run it and logged a second entry. *)
Lemma empty_next_node_ends_the_loop :
  _graphs empty_name_engine !! "graph-3" = Some empty_name_graph
  ∧ (run_graph 5 empty_name_engine "run-3" "graph-3" ∅).2
    = Some (Returned (mkRun "run-3" "graph-3" (visited ["A"]) "completed"
                        [mkLog "A" None (visited ["A"])] None None))
  ∧ nodes empty_name_graph !! "A" = Some (goto_node "A" "")
  ∧ _run_node no_tools (goto_node "A" "") ∅
    = Returned (mkNodeResult (visited ["A"]) (Some "") None)
  ∧ _execute_loop 2 empty_name_graph no_tools (Some "A") ∅ []
    = Some (Returned (visited ["A"], [mkLog "A" None (visited ["A"])]))
  ∧ pass_at 1 empty_name_graph no_tools "" (visited ["A"]) [mkLog "A" None (visited ["A"])]
    = Some (Returned (visited ["A"; ""],
                      [mkLog "A" None (visited ["A"]); mkLog "" None (visited ["A"; ""])]))
  ∧ _execute_loop 2 empty_name_graph no_tools (Some "A") ∅ []
    ≠ pass_at 1 empty_name_graph no_tools "" (visited ["A"]) [mkLog "A" None (visited ["A"])].
Proof.
  do 6 (split; [reflexivity|]).
  intros H. apply (f_equal (λ o, match o with
                                 | Some (Returned (_, l)) => length l
                                 | _ => O
                                 end)) in H.
  vm_compute in H. discriminate H.
Qed.

(** ** Failing runs *)

Lemma substring_intro pre sub post : substring sub (pre +:+ sub +:+ post).
Proof. by exists pre, post. Qed.

Lemma string_app_assoc (a b c : string) : (a +:+ b) +:+ c = a +:+ b +:+ c.
Proof.
  induction a as [|x a IH]; [done|].
  change (String x ((a +:+ b) +:+ c) = String x (a +:+ b +:+ c)). by rewrite IH.
Qed.

Section failing_run.
Context (self : GraphEngine) (uuid gid : string) (graph : GraphDefinition) (st0 : State).
Hypothesis Hgraph : _graphs self !! gid = Some graph.

(** A run whose loop, after [n] good passes, raises [e] in the next one
    ends with [e] raised to the caller and the record marked failed. *)
Lemma run_graph_fails_after n cur st lg e fuel :
  passes graph (_tool_registry self) n (Some (start_node graph), st0, []) (Some cur, st, lg) →
  cur ≠ "" →
  loop_body graph (_tool_registry self) cur st lg = Raised e →
  (n < fuel)%nat →
  run_graph fuel self uuid gid st0
  = (store_run (store_run self (new_run uuid gid st0))
       (mkRun uuid gid st0 "failed" [] None (Some (exc_str e))),
     Some (Raised e)).
Proof.
  intros Hp Hcur Hbody Hfuel. apply (run_graph_failed self uuid gid graph st0 Hgraph).
  replace fuel with (n + S (fuel - S n))%nat by lia.
  rewrite (execute_loop_passes _ _ _ _ _ _ _ _ _ _ Hp).
  by apply execute_loop_raise.
Qed.

End failing_run.

(** C3.  When a run reaches a node that has more than one static outgoing
    edge and whose result supplies no [next_node], [run_graph] raises a
    [ValueError] whose message names the node and contains
    "has multiple edges but no next_node provided", and the stored record has
    status "failed" with that message as its error. *)
Theorem ambiguous_edges_fail_the_run
    (self : GraphEngine) (uuid gid : string) (graph : GraphDefinition) (st0 : State)
    (n : nat) (cur : string) (st : State) (lg : list LogEntry)
    (fn : NodeCallable) (r : NodeResult) (fuel : nat) :
  _graphs self !! gid = Some graph →
  passes graph (_tool_registry self) n (Some (start_node graph), st0, []) (Some cur, st, lg) →
  cur ≠ "" →
  nodes graph !! cur = Some fn →
  _run_node (_tool_registry self) fn st = Returned r →
  next_node r = None →
  (1 < length (default [] (edges graph !! cur)))%nat →
  (n < fuel)%nat →
  ∃ msg run,
    (run_graph fuel self uuid gid st0).2 = Some (Raised (mkExc ValueError msg))
    ∧ get_run (run_graph fuel self uuid gid st0).1 uuid = Returned run
    ∧ status run = "failed"
    ∧ error run = Some msg
    ∧ msg = "Node '" +:+ cur +:+ "' has multiple edges but no next_node provided by the node logic"
    ∧ substring ("Node '" +:+ cur +:+ "'") msg
    ∧ substring "has multiple edges but no next_node provided" msg.
Proof.
  intros Hgraph Hp Hcur Hfn Hr Hn Hlen Hfuel.
  pose proof (loop_body_ambiguous graph _ cur fn st lg r Hfn Hr Hn Hlen) as Hbody.
  rewrite (run_graph_fails_after self uuid gid graph st0 Hgraph n cur st lg _ fuel Hp Hcur Hbody Hfuel).
  eexists _, _. simpl. split; [done|].
  split; [apply (get_run_stored _ (mkRun uuid gid st0 "failed" [] None _))|].
  split; [done|]. split; [done|]. split; [done|]. split.
  - exists "", " has multiple edges but no next_node provided by the node logic".
    by rewrite !string_app_assoc.
  - exists ("Node '" +:+ cur +:+ "' "), " by the node logic".
    by rewrite !string_app_assoc.
Qed.

Lemma fork_graph_passes :
  passes fork_graph no_tools 1%nat (Some "A", ∅, [])
    (Some "B", visited ["A"], [mkLog "A" None (visited ["A"])]).
Proof.
  apply (passes_S _ _ 0%nat "A" ∅ [] (Some "B", visited ["A"], [mkLog "A" None (visited ["A"])]));
    [discriminate | reflexivity | apply passes_O].
Qed.

Lemma ambiguous_edges_witness :
  ∃ msg run,
    (run_graph 2 fork_engine "run-4" "graph-4" ∅).2 = Some (Raised (mkExc ValueError msg))
    ∧ get_run (run_graph 2 fork_engine "run-4" "graph-4" ∅).1 "run-4" = Returned run
    ∧ status run = "failed"
    ∧ error run = Some msg
    ∧ msg = "Node '" +:+ "B" +:+ "' has multiple edges but no next_node provided by the node logic"
    ∧ substring ("Node '" +:+ "B" +:+ "'") msg
    ∧ substring "has multiple edges but no next_node provided" msg.
Proof.
  apply (ambiguous_edges_fail_the_run fork_engine "run-4" "graph-4" fork_graph ∅ 1%nat "B"
           (visited ["A"]) [mkLog "A" None (visited ["A"])] (visit_node "B")
           (mkNodeResult (visited ["A"; "B"]) None None) 2%nat);
    [reflexivity | apply fork_graph_passes | discriminate | reflexivity | reflexivity
    | reflexivity | apply Nat.lt_succ_diag_r | apply Nat.lt_succ_diag_r].
Defined.

(** ** C6: what a node may return *)

(** C6.  A [NodeResult] is used as it is; a plain mapping is wrapped with
    null [next_node] and [log]; any other value makes [_run_node] raise a
    [TypeError], and a run that reaches such a node fails with it, its
    record marked "failed". *)
Theorem run_node_contract :
  (∀ tools fn st r,
     fn st tools = Returned (RetNodeResult r) → _run_node tools fn st = Returned r)
  ∧ (∀ tools fn st d,
       fn st tools = Returned (RetValue (VDict d)) →
       _run_node tools fn st = Returned (mkNodeResult d None None))
  ∧ (∀ self uuid gid graph st0 n cur st lg fn v fuel,
       _graphs self !! gid = Some graph →
       passes graph (_tool_registry self) n (Some (start_node graph), st0, []) (Some cur, st, lg) →
       cur ≠ "" →
       nodes graph !! cur = Some fn →
       fn st (_tool_registry self) = Returned (RetValue v) →
       (∀ d, v ≠ VDict d) →
       (n < fuel)%nat →
       _run_node (_tool_registry self) fn st = raise TypeError "Node must return NodeResult or dict"
       ∧ ∃ run,
           (run_graph fuel self uuid gid st0).2
           = Some (raise TypeError "Node must return NodeResult or dict")
           ∧ get_run (run_graph fuel self uuid gid st0).1 uuid = Returned run
           ∧ status run = "failed"
           ∧ error run = Some "Node must return NodeResult or dict").
Proof.
  split; [|split].
  - intros tools fn st r H. unfold _run_node. by rewrite H.
  - intros tools fn st d H. unfold _run_node. by rewrite H.
  - intros self uuid gid graph st0 n cur st lg fn v fuel Hgraph Hp Hcur Hfn Hv Hnd Hfuel.
    assert (Hrun : _run_node (_tool_registry self) fn st
                   = raise TypeError "Node must return NodeResult or dict").
    { unfold _run_node. rewrite Hv. simpl. destruct v; try done. by destruct (Hnd d). }
    split; [done|].
    pose proof (loop_body_node_raises graph _ cur fn st lg _ Hfn Hrun) as Hbody.
    rewrite (run_graph_fails_after self uuid gid graph st0 Hgraph n cur st lg _ fuel
               Hp Hcur Hbody Hfuel).
    eexists. simpl. split; [done|].
    split; [apply (get_run_stored _ (mkRun uuid gid st0 "failed" [] None _))|]. done.
Qed.

Lemma int_graph_passes :
  passes int_graph no_tools 1%nat (Some "A", ∅, [])
    (Some "B", visited ["A"], [mkLog "A" None (visited ["A"])]).
Proof.
  apply (passes_S _ _ 0%nat "A" ∅ [] (Some "B", visited ["A"], [mkLog "A" None (visited ["A"])]));
    [discriminate | reflexivity | apply passes_O].
Qed.

Lemma run_node_contract_witness :
  _run_node no_tools int_node (visited ["A"]) = raise TypeError "Node must return NodeResult or dict"
  ∧ ∃ run,
      (run_graph 2 int_engine "run-5" "graph-5" ∅).2
      = Some (raise TypeError "Node must return NodeResult or dict")
      ∧ get_run (run_graph 2 int_engine "run-5" "graph-5" ∅).1 "run-5" = Returned run
      ∧ status run = "failed"
      ∧ error run = Some "Node must return NodeResult or dict".
Proof.
  apply (proj2 (proj2 run_node_contract) int_engine "run-5" "graph-5" int_graph ∅ 1%nat "B"
           (visited ["A"]) [mkLog "A" None (visited ["A"])] int_node (VInt 7) 2%nat);
    [reflexivity | apply int_graph_passes | discriminate | reflexivity | reflexivity
    | discriminate | apply Nat.lt_succ_diag_r].
Defined.

(** ** C10: the record of a failed run *)

(** C10.  When the execution of a run raises, the record [get_run] shows
    has [logs] empty and [current_node] null, however many passes went well
    before; it is the published record with only [status] and [error]
    changed. *)
Theorem failed_run_record_shows_no_progress
    (self : GraphEngine) (uuid gid : string) (graph : GraphDefinition) (st0 : State)
    (e : PyExc) (fuel : nat) :
  _graphs self !! gid = Some graph →
  _execute fuel (store_run self (new_run uuid gid st0)) graph st0 = Some (Raised e) →
  ∃ run,
    (run_graph fuel self uuid gid st0).2 = Some (Raised e)
    ∧ get_run (run_graph fuel self uuid gid st0).1 uuid = Returned run
    ∧ logs run = []
    ∧ current_node run = None
    ∧ run = mkRun (run_id (new_run uuid gid st0)) (run_graph_id (new_run uuid gid st0))
              (current_state (new_run uuid gid st0)) "failed"
              (logs (new_run uuid gid st0)) (current_node (new_run uuid gid st0))
              (Some (exc_str e)).
Proof.
  intros Hgraph Hexec.
  rewrite (run_graph_failed self uuid gid graph st0 Hgraph fuel e Hexec).
  eexists. simpl.
  split; [done|].
  split; [apply (get_run_stored _ (mkRun uuid gid st0 "failed" [] None _))|]. done.
Qed.

Lemma failed_run_record_witness :
  ∃ run,
    (run_graph 2 int_engine "run-5" "graph-5" ∅).2
    = Some (Raised (mkExc TypeError "Node must return NodeResult or dict"))
    ∧ get_run (run_graph 2 int_engine "run-5" "graph-5" ∅).1 "run-5" = Returned run
    ∧ logs run = []
    ∧ current_node run = None
    ∧ run = mkRun "run-5" "graph-5" ∅ "failed" [] None
              (Some "Node must return NodeResult or dict").
Proof.
  apply (failed_run_record_shows_no_progress int_engine "run-5" "graph-5" int_graph ∅
           (mkExc TypeError "Node must return NodeResult or dict") 2%nat);
    reflexivity.
Defined.

(** ** Registration *)

Lemma string_app_nil_r (a : string) : a +:+ "" = a.
Proof.
  induction a as [|x a IH]; [done|].
  change (String x (a +:+ "") = String x a). by rewrite IH.
Qed.

Lemma substring_refl s : substring s s.
Proof. exists "", "". by rewrite string_app_nil_r. Qed.

Lemma substring_app sub s pre post : substring sub s → substring sub (pre +:+ s +:+ post).
Proof.
  intros (p & q & ->). exists (pre +:+ p), (q +:+ post). by rewrite !string_app_assoc.
Qed.

Lemma join_substring sep (x : string) (l : list string) : x ∈ l → substring x (join sep l).
Proof.
  induction l as [|y l IH]; intros Hx; [by apply elem_of_nil in Hx|].
  destruct l as [|z l].
  - apply list_elem_of_singleton in Hx as ->. apply substring_refl.
  - change (join sep (y :: z :: l)) with (y +:+ sep +:+ join sep (z :: l)).
    apply elem_of_cons in Hx as [-> | Hx].
    + exists "", (sep +:+ join sep (z :: l)). done.
    + destruct (IH Hx) as (p & q & ->). exists (y +:+ sep +:+ p), q.
      by rewrite !string_app_assoc.
Qed.

Section node_map.
Context (library : gmap string NodeCallable).

Lemma build_node_map_lookup names acc node_map :
  build_node_map library names acc = Returned node_map →
  ∀ k, node_map !! k = if decide (k ∈ names) then library !! k else acc !! k.
Proof.
  revert acc. induction names as [|name rest IH]; intros acc H k; simpl in H.
  - simplify_eq. by rewrite decide_False by apply not_elem_of_nil.
  - destruct (library !! name) as [fn|] eqn:Hfn; [|done].
    rewrite (IH _ H k). destruct (decide (k ∈ rest)) as [Hin|Hnin].
    + by rewrite decide_True by (by apply list_elem_of_further).
    + destruct (decide (k = name)) as [->|Hne].
      * rewrite lookup_insert_eq, decide_True by apply list_elem_of_here. done.
      * rewrite lookup_insert_ne by done.
        rewrite decide_False; [done|]. intros [?|?]%elem_of_cons; done.
Qed.

Lemma build_node_map_known names acc node_map :
  build_node_map library names acc = Returned node_map →
  ∀ k, k ∈ names → is_Some (library !! k).
Proof.
  revert acc. induction names as [|name rest IH]; intros acc H k Hk; simpl in H.
  - by apply elem_of_nil in Hk.
  - destruct (library !! name) as [fn|] eqn:Hfn; [|done].
    apply elem_of_cons in Hk as [-> | Hk]; [by rewrite Hfn|]. by eapply IH.
Qed.

Lemma build_node_map_unknown names acc :
  (∃ name, name ∈ names ∧ library !! name = None) →
  ∃ bad, bad ∈ names ∧ library !! bad = None
         ∧ build_node_map library names acc = raise ValueError (unknown_node_message library bad).
Proof.
  revert acc. induction names as [|name rest IH]; intros acc (x & Hx & Hnone).
  - by apply elem_of_nil in Hx.
  - simpl. destruct (library !! name) as [fn|] eqn:Hfn.
    + apply elem_of_cons in Hx as [-> | Hx]; [congruence|].
      destruct (IH (<[name := fn]> acc)) as (bad & Hbad & Hlib & Hbuild); [by eauto|].
      exists bad. split; [by apply list_elem_of_further|]. done.
    + exists name. split; [apply list_elem_of_here|]. done.
Qed.

Lemma build_node_map_all_known names acc :
  (∀ k, k ∈ names → is_Some (library !! k)) →
  ∃ node_map, build_node_map library names acc = Returned node_map.
Proof.
  revert acc. induction names as [|name rest IH]; intros acc Hall; simpl; [by eauto|].
  destruct (Hall name) as [fn ->]; [apply list_elem_of_here|].
  apply IH. intros k Hk. apply Hall. by apply list_elem_of_further.
Qed.

(** The message lists every name of the library. *)
Lemma unknown_node_message_lists name k :
  k ∈ dom library → substring (repr_str k) (unknown_node_message library name).
Proof.
  intros Hk.
  destruct (join_substring ", " (repr_str k) (repr_str <$> sorted (elements (dom library))))
    as (p & q & Hjoin).
  { apply list_elem_of_fmap. exists k. split; [done|].
    unfold sorted. rewrite merge_sort_Permutation. by apply elem_of_elements. }
  exists ("Unknown node '" +:+ name +:+ "'. Available: " +:+ "[" +:+ p), (q +:+ "]").
  unfold unknown_node_message, repr_str_list. rewrite Hjoin.
  by rewrite !string_app_assoc.
Qed.

End node_map.

(** C5 (amended).  A graph accepted by [register_graph] is stored under the
    drawn id with the start node given; its start node is a key of its
    [nodes], so the lookup of the first pass succeeds; the keys of [nodes]
    are the names supplied, each bound to its function of the Node Library.
    The names later passes reach are not checked, neither a [next_node] nor
    the target of a static edge: when a pass hands over to a name that is
    not the empty string and is none of the names supplied, the lookup of
    the next pass raises [KeyError] on it and the run fails, its record
    marked failed with the [repr] of the name as error. *)
Theorem accepted_graph_checks_only_its_nodes
    (self self' : GraphEngine) (uuid gid : string) (names : list string)
    (es : gmap string EdgeValue) (start : string) (descr : option string) :
  register_graph self uuid names es start descr = (self', Returned gid) →
  ∃ graph,
    gid = uuid
    ∧ _graphs self' !! gid = Some graph
    ∧ start_node graph = start
    ∧ is_Some (nodes graph !! start_node graph)
    ∧ (∀ k, is_Some (nodes graph !! k) ↔ k ∈ names)
    ∧ (∀ k fn, nodes graph !! k = Some fn → _node_library self !! k = Some fn)
    ∧ (∀ fuel rid st0 n name st lg,
         passes graph (_tool_registry self') n (Some (start_node graph), st0, [])
           (Some name, st, lg) →
         name ≠ "" →
         name ∉ names →
         (n < fuel)%nat →
         loop_body graph (_tool_registry self') name st lg = raise KeyError name
         ∧ ∃ run,
             (run_graph fuel self' rid gid st0).2 = Some (raise KeyError name)
             ∧ get_run (run_graph fuel self' rid gid st0).1 rid = Returned run
             ∧ status run = "failed"
             ∧ error run = Some (repr_str name)).
Proof.
  unfold register_graph. intros H.
  destruct (build_node_map (_node_library self) names ∅) as [node_map|e] eqn:Hbuild; [|done].
  destruct (node_map !! start) as [fn0|] eqn:Hstart; [|done].
  simplify_eq. eexists. split; [done|]. simpl. rewrite lookup_insert_eq.
  split; [done|]. simpl. split; [done|]. split; [by rewrite Hstart|].
  pose proof (build_node_map_lookup _ _ _ _ Hbuild) as Hlk.
  split; [|split].
  - intros k. rewrite Hlk. destruct (decide (k ∈ names)) as [Hin|Hnin].
    + split; [done|]. intros _. by eapply build_node_map_known.
    + rewrite lookup_empty. split; [by intros [? ?]|done].
  - intros k fn. rewrite Hlk. destruct (decide (k ∈ names)); [done|].
    by rewrite lookup_empty.
  - intros fuel rid st0 n name st lg Hp Hne Hout Hfuel.
    set (graph := mkGraph gid node_map (normalize_edge <$> es) start descr) in *.
    set (eng := mkEngine (<[gid := graph]> (_graphs self)) (_runs self) (_node_library self)
                         (_tool_registry self)) in *.
    assert (Hnone : nodes graph !! name = None).
    { simpl. by rewrite Hlk, decide_False, lookup_empty. }
    pose proof (loop_body_unknown graph (_tool_registry eng) name st lg Hnone) as Hbody.
    split; [done|].
    assert (Hg : _graphs eng !! gid = Some graph) by (simpl; by rewrite lookup_insert_eq).
    rewrite (run_graph_fails_after eng rid gid graph st0 Hg n name st lg _ fuel
               Hp Hne Hbody Hfuel).
    eexists. split; [done|].
    split; [apply (get_run_stored _ (mkRun rid gid st0 "failed" [] None _))|]. done.
Qed.

Lemma accepted_graph_witness :
  ∃ graph,
    "graph-6" = "graph-6"
    ∧ _graphs stray_engine !! "graph-6" = Some graph
    ∧ start_node graph = "A"
    ∧ is_Some (nodes graph !! start_node graph)
    ∧ (∀ k, is_Some (nodes graph !! k) ↔ k ∈ ["A"])
    ∧ (∀ k fn, nodes graph !! k = Some fn
               → _node_library (__init__ stray_library no_tools) !! k = Some fn)
    ∧ (∀ fuel rid st0 n name st lg,
         passes graph (_tool_registry stray_engine) n (Some (start_node graph), st0, [])
           (Some name, st, lg) →
         name ≠ "" →
         name ∉ ["A"] →
         (n < fuel)%nat →
         loop_body graph (_tool_registry stray_engine) name st lg = raise KeyError name
         ∧ ∃ run,
             (run_graph fuel stray_engine rid "graph-6" st0).2 = Some (raise KeyError name)
             ∧ get_run (run_graph fuel stray_engine rid "graph-6" st0).1 rid = Returned run
             ∧ status run = "failed"
             ∧ error run = Some (repr_str name)).
Proof.
  apply (accepted_graph_checks_only_its_nodes (__init__ stray_library no_tools) stray_engine
           "graph-6" "graph-6" ["A"] ∅ "A" None).
  reflexivity.
Defined.

(** C5 as stated fails: the graph is accepted, A's [next_node] leads the
    loop to Z, Z is no key of [nodes], and the lookup raises [KeyError]. *)
Lemma next_node_outside_nodes_fails_lookup :
  register_graph (__init__ stray_library no_tools) "graph-6" ["A"] ∅ "A" None
  = (stray_engine, Returned "graph-6")
  ∧ _graphs stray_engine !! "graph-6" = Some stray_graph
  ∧ passes stray_graph no_tools 1%nat (Some "A", ∅, [])
      (Some "Z", visited ["A"], [mkLog "A" None (visited ["A"])])
  ∧ nodes stray_graph !! "Z" = None
  ∧ loop_body stray_graph no_tools "Z" (visited ["A"]) [mkLog "A" None (visited ["A"])]
    = raise KeyError "Z"
  ∧ (run_graph 2 stray_engine "run-6" "graph-6" ∅).2 = Some (raise KeyError "Z")
  ∧ get_run (run_graph 2 stray_engine "run-6" "graph-6" ∅).1 "run-6"
    = Returned (mkRun "run-6" "graph-6" ∅ "failed" [] None (Some "'Z'")).
Proof.
  split; [reflexivity|]. split; [reflexivity|]. split.
  { apply (passes_S _ _ 0%nat "A" ∅ [] (Some "Z", visited ["A"], [mkLog "A" None (visited ["A"])]));
      [discriminate | reflexivity | apply passes_O]. }
  split; [reflexivity|]. split; [reflexivity|]. split; reflexivity.
Qed.

(** C7.  A [register_graph] call that names a node absent from the Node
    Library, or whose start node is not among the names supplied, raises a
    [ValueError] and leaves the engine, graph table included, as it was; in
    the first case the message names the first absent node and lists every
    name of the library. *)
Theorem rejected_graph_is_not_registered
    (self : GraphEngine) (uuid : string) (names : list string)
    (es : gmap string EdgeValue) (start : string) (descr : option string) :
  (∃ name, name ∈ names ∧ _node_library self !! name = None) ∨ start ∉ names →
  ∃ msg,
    register_graph self uuid names es start descr = (self, raise ValueError msg)
    ∧ _graphs (register_graph self uuid names es start descr).1 = _graphs self
    ∧ ((∃ name, name ∈ names ∧ _node_library self !! name = None) →
       ∃ bad, bad ∈ names ∧ _node_library self !! bad = None
              ∧ msg = unknown_node_message (_node_library self) bad
              ∧ ∀ k, k ∈ dom (_node_library self) → substring (repr_str k) msg)
    ∧ ((∀ name, name ∈ names → is_Some (_node_library self !! name)) →
       msg = "Start node '" +:+ start +:+ "' must be in nodes list").
Proof.
  intros Hbad. unfold register_graph.
  destruct (build_node_map (_node_library self) names ∅) as [node_map|e] eqn:Hbuild.
  - assert (Hall : ∀ name, name ∈ names → is_Some (_node_library self !! name))
      by (by eapply build_node_map_known).
    destruct Hbad as [(x & Hx & Hnone) | Hstart].
    { destruct (Hall x Hx) as [? ?]. congruence. }
    rewrite (build_node_map_lookup _ _ _ _ Hbuild start), decide_False, lookup_empty by done.
    eexists. split; [done|]. split; [done|]. split; [|done].
    intros (x & Hx & Hnone). destruct (Hall x Hx) as [? ?]. congruence.
  - assert (Hex : ∃ name, name ∈ names ∧ _node_library self !! name = None).
    { destruct Hbad as [?|Hstart]; [done|].
      destruct (decide (Forall (λ k, is_Some (_node_library self !! k)) names)) as [Hall|Hnot].
      - rewrite Forall_forall in Hall.
        destruct (build_node_map_all_known (_node_library self) names ∅) as [m Hm].
        { intros k Hk. by apply Hall. } congruence.
      - apply not_Forall_Exists in Hnot; [|apply _].
        apply Exists_exists in Hnot as (x & Hx & Hx').
        exists x. split; [done|]. by apply eq_None_not_Some. }
    destruct (build_node_map_unknown (_node_library self) names ∅ Hex) as (bad & Hin & Hlib & Hb).
    rewrite Hbuild in Hb. unfold raise in Hb. simplify_eq.
    eexists. split; [done|]. split; [done|]. split.
    + intros _. exists bad. split; [done|]. split; [done|]. split; [done|].
      intros k Hk. by apply unknown_node_message_lists.
    + intros Hall. destruct (Hall bad Hin) as [? ?]. congruence.
Qed.

Lemma rejected_graph_witness :
  ∃ msg,
    register_graph abc_engine "graph-7" ["A"; "nope"] ∅ "A" None = (abc_engine, raise ValueError msg)
    ∧ _graphs (register_graph abc_engine "graph-7" ["A"; "nope"] ∅ "A" None).1 = _graphs abc_engine
    ∧ ((∃ name, name ∈ ["A"; "nope"] ∧ _node_library abc_engine !! name = None) →
       ∃ bad, bad ∈ ["A"; "nope"] ∧ _node_library abc_engine !! bad = None
              ∧ msg = unknown_node_message (_node_library abc_engine) bad
              ∧ ∀ k, k ∈ dom (_node_library abc_engine) → substring (repr_str k) msg)
    ∧ ((∀ name, name ∈ ["A"; "nope"] → is_Some (_node_library abc_engine !! name)) →
       msg = "Start node '" +:+ "A" +:+ "' must be in nodes list").
Proof.
  apply (rejected_graph_is_not_registered abc_engine "graph-7" ["A"; "nope"] ∅ "A" None).
  left. exists "nope". split; [|reflexivity].
  apply list_elem_of_further, list_elem_of_here.
Defined.

(** The loop reads a graph through its [nodes] and [edges] only. *)
Lemma loop_body_ext g1 g2 tools cur st lg :
  nodes g1 = nodes g2 → edges g1 = edges g2 →
  loop_body g1 tools cur st lg = loop_body g2 tools cur st lg.
Proof. intros Hn He. unfold loop_body. by rewrite Hn, He. Qed.

Lemma execute_loop_ext fuel g1 g2 tools cur st lg :
  nodes g1 = nodes g2 → edges g1 = edges g2 →
  _execute_loop fuel g1 tools cur st lg = _execute_loop fuel g2 tools cur st lg.
Proof.
  intros Hn He. revert cur st lg. induction fuel as [|fuel IH]; intros cur st lg.
  - by destruct cur as [[|? ?]|].
  - destruct cur as [[|c name]|]; [done| |done]. simpl.
    rewrite (loop_body_ext g1 g2) by done.
    destruct (loop_body g2 tools (String c name) st lg) as [[[c' s'] l']|e]; [|done].
    apply IH.
Qed.

(** C9.  Registering with the single name [b] as the edge value of [a] is
    the same as registering with the one-element list [[b]]: under the same
    drawn id the two calls give equal engines and so equal runs; under any
    two drawn ids both calls are rejected with the same error, or both are
    accepted and store graphs with the same nodes, the same edges (the list
    [[b]] under [a]) and the same start node, on which every execution
    coincides.  And when the names are in the Node Library and the start
    node is among them, both calls are accepted: each stores a graph whose
    edge value under [a] is the list [[b]], and on either graph a pass at
    [a] that supplies no [next_node] hands over to [b]. *)
Theorem single_name_edge_is_one_element_list :
  (∀ self uuid names es a b start descr,
     register_graph self uuid names (<[a := OneName b]> es) start descr
     = register_graph self uuid names (<[a := NameList [b]]> es) start descr)
  ∧ (∀ self uuid names es a b start descr fuel rid gid st,
       run_graph fuel (register_graph self uuid names (<[a := OneName b]> es) start descr).1
         rid gid st
       = run_graph fuel (register_graph self uuid names (<[a := NameList [b]]> es) start descr).1
           rid gid st)
  ∧ (∀ self u1 u2 names es a b start descr,
       let one := register_graph self u1 names (<[a := OneName b]> es) start descr in
       let many := register_graph self u2 names (<[a := NameList [b]]> es) start descr in
       match one.2 with
       | Raised e => one = (self, Raised e) ∧ many = (self, Raised e)
       | Returned id1 =>
           ∃ g1 g2,
             id1 = u1 ∧ many.2 = Returned u2
             ∧ _graphs one.1 !! u1 = Some g1 ∧ _graphs many.1 !! u2 = Some g2
             ∧ edges g1 !! a = Some [b]
             ∧ nodes g1 = nodes g2 ∧ edges g1 = edges g2 ∧ start_node g1 = start_node g2
             ∧ ∀ fuel st, _execute fuel one.1 g1 st = _execute fuel many.1 g2 st
       end)
  ∧ (∀ self u1 u2 names es a b start descr,
       (∀ n, n ∈ names → is_Some (_node_library self !! n)) →
       start ∈ names →
       ∃ g1 g2,
         (register_graph self u1 names (<[a := OneName b]> es) start descr).2 = Returned u1
         ∧ (register_graph self u2 names (<[a := NameList [b]]> es) start descr).2 = Returned u2
         ∧ _graphs (register_graph self u1 names (<[a := OneName b]> es) start descr).1 !! u1
           = Some g1
         ∧ _graphs (register_graph self u2 names (<[a := NameList [b]]> es) start descr).1 !! u2
           = Some g2
         ∧ edges g1 !! a = Some [b] ∧ edges g2 !! a = Some [b]
         ∧ (∀ k, is_Some (nodes g1 !! k) ↔ k ∈ names)
         ∧ nodes g1 = nodes g2 ∧ edges g1 = edges g2
         ∧ start_node g1 = start ∧ start_node g2 = start
         ∧ ∀ tools fn st lg r,
             nodes g1 !! a = Some fn →
             _run_node tools fn st = Returned r →
             next_node r = None →
             loop_body g1 tools a st lg
             = Returned (Some b, state r, lg ++ [mkLog a (log r) (state r)])
             ∧ loop_body g2 tools a st lg
               = Returned (Some b, state r, lg ++ [mkLog a (log r) (state r)])).
Proof.
  assert (Heq : ∀ self uuid names es a b start descr,
     register_graph self uuid names (<[a := OneName b]> es) start descr
     = register_graph self uuid names (<[a := NameList [b]]> es) start descr).
  { intros. unfold register_graph. by rewrite !fmap_insert. }
  split; [done|]. split; [|split].
  - intros. by rewrite Heq.
  - intros self u1 u2 names es a b start descr. unfold register_graph.
    destruct (build_node_map (_node_library self) names ∅) as [node_map|e]; [|done].
    destruct (node_map !! start); [|done].
    simpl. rewrite !fmap_insert. simpl. eexists _, _.
    split; [done|]. split; [done|]. rewrite !lookup_insert_eq.
    split; [done|]. split; [done|]. simpl. rewrite lookup_insert_eq.
    split; [done|]. split; [done|]. split; [done|]. split; [done|].
    intros fuel st. unfold _execute. simpl. by apply execute_loop_ext.
  - intros self u1 u2 names es a b start descr Hall Hstart. unfold register_graph.
    destruct (build_node_map_all_known (_node_library self) names ∅ Hall) as [node_map Hbuild].
    rewrite Hbuild. pose proof (build_node_map_lookup _ _ _ _ Hbuild) as Hlk.
    destruct (node_map !! start) as [fn0|] eqn:Hfn0.
    2:{ rewrite Hlk, decide_True in Hfn0 by done. destruct (Hall start Hstart) as [? ?].
        congruence. }
    simpl. rewrite !fmap_insert, !lookup_insert_eq. simpl. eexists _, _.
    split; [done|]. split; [done|]. split; [done|]. split; [done|]. simpl.
    rewrite !lookup_insert_eq.
    split; [done|]. split; [done|]. split.
    { intros k. rewrite Hlk. destruct (decide (k ∈ names)) as [Hin|Hnin].
      - split; [done|]. intros _. by apply Hall.
      - rewrite lookup_empty. split; [by intros [? ?]|done]. }
    split; [done|]. split; [done|]. split; [done|]. split; [done|].
    intros tools fn st lg r Hfn Hr Hnone.
    split; unfold loop_body; simpl; rewrite Hfn, Hr; simpl;
      by rewrite Hnone, lookup_insert_eq.
Qed.

Lemma single_name_edge_witness :
  ∃ g1 g2,
    (register_graph (__init__ ab_library no_tools) "graph-7" ["a"; "b"]
       (<["a" := OneName "b"]> ∅) "a" None).2 = Returned "graph-7"
    ∧ (register_graph (__init__ ab_library no_tools) "graph-8" ["a"; "b"]
         (<["a" := NameList ["b"]]> ∅) "a" None).2 = Returned "graph-8"
    ∧ _graphs (register_graph (__init__ ab_library no_tools) "graph-7" ["a"; "b"]
                 (<["a" := OneName "b"]> ∅) "a" None).1 !! "graph-7" = Some g1
    ∧ _graphs (register_graph (__init__ ab_library no_tools) "graph-8" ["a"; "b"]
                 (<["a" := NameList ["b"]]> ∅) "a" None).1 !! "graph-8" = Some g2
    ∧ edges g1 !! "a" = Some ["b"] ∧ edges g2 !! "a" = Some ["b"]
    ∧ (∀ k, is_Some (nodes g1 !! k) ↔ k ∈ ["a"; "b"])
    ∧ nodes g1 = nodes g2 ∧ edges g1 = edges g2
    ∧ start_node g1 = "a" ∧ start_node g2 = "a"
    ∧ ∀ tools fn st lg r,
        nodes g1 !! "a" = Some fn →
        _run_node tools fn st = Returned r →
        next_node r = None →
        loop_body g1 tools "a" st lg
        = Returned (Some "b", state r, lg ++ [mkLog "a" (log r) (state r)])
        ∧ loop_body g2 tools "a" st lg
          = Returned (Some "b", state r, lg ++ [mkLog "a" (log r) (state r)]).
Proof.
  apply (proj2 (proj2 (proj2 single_name_edge_is_one_element_list))
           (__init__ ab_library no_tools) "graph-7" "graph-8" ["a"; "b"] ∅ "a" "b" "a" None).
  - intros n [->|[->|[]%elem_of_nil]%elem_of_cons]%elem_of_cons; by eexists.
  - apply list_elem_of_here.
Defined.

(** ** C8: the quality gate *)

Lemma executions_nodes name lg :
  executions name lg = length (filter (λ n, n = name) (node <$> lg)).
Proof.
  unfold executions. induction lg as [|e lg IH]; [done|].
  rewrite fmap_cons, !filter_cons. destruct (decide (node e = name)); simpl; by rewrite IH.
Qed.

Lemma float_mul_is_num f v g : float_mul f v = Returned g → is_Some (as_num v).
Proof.
  destruct v; simpl; try done; intros _; eauto.
Qed.

Lemma gt_num_returns v y : is_Some (as_num v) → ∃ b, gt_num v y = Returned b.
Proof. intros [x Hx]. unfold gt_num. rewrite Hx. eauto. Qed.

Lemma quality_score_insert k v st :
  k ≠ "issues" → k ≠ "complexity_score" →
  quality_score (<[k := v]> st) = quality_score st.
Proof. intros H1 H2. unfold quality_score. by rewrite !lookup_insert_ne. Qed.

Lemma below_threshold_insert k v st :
  k ≠ "issues" → k ≠ "complexity_score" → k ≠ "quality_threshold" →
  below_threshold st → below_threshold (<[k := v]> st).
Proof.
  intros H1 H2 H3 (score & Hs & Hge). exists score.
  by rewrite quality_score_insert, lookup_insert_ne.
Qed.

Lemma suggestions_ok_insert k v st :
  k ≠ "suggestions" → suggestions_ok st → suggestions_ok (<[k := v]> st).
Proof. intros H1 [l Hl]. exists l. by rewrite lookup_insert_ne. Qed.

Section quality_gate.
Context (float_repr : float → string) (tools : ToolRegistry).

(** [check_quality] below the threshold: the iteration count goes up by one
    and decides alone between stopping and going round again. *)
Lemma check_quality_below st (i m : Z) :
  st !! "max_iterations" = Some (VInt m) →
  default (VInt 0) (st !! "iterations") = VInt i →
  below_threshold st →
  ∃ score line,
    check_quality float_repr st tools
    = Returned (RetNodeResult (mkNodeResult
        (<["iterations" := VInt (i + 1)]> (<["quality_score" := VFloat score]> st))
        (if m <=? i + 1 then None else Some "suggest_improvements") line)).
Proof.
  intros Hmax Hit (score & Hscore & Hge). exists score. unfold check_quality.
  rewrite Hmax, Hit, Hscore. simpl. rewrite Hge. simpl.
  unfold num_ge. simpl. rewrite Z.leb_compare, (Z.compare_antisym (i + 1) m).
  destruct (i + 1 ?= m); simpl; eauto.
Qed.

(** [suggest_improvements] succeeds wherever the score can be computed and
    [suggestions] can be extended; it only touches [suggestions]. *)
Lemma suggest_improvements_extends st :
  below_threshold st → suggestions_ok st →
  ∃ l added line,
    suggest_improvements st tools
    = Returned (RetNodeResult (mkNodeResult (<["suggestions" := VList (l ++ added)]> st) None line)).
Proof.
  intros (score & Hscore & _) [l Hl]. unfold quality_score in Hscore.
  unfold suggest_improvements.
  destruct (get_method (default (VDict ∅) (st !! "issues")) "issues" (VInt 0))
    as [issues|e] eqn:Hget; [|done].
  simpl in Hscore.
  destruct (float_mul 0.2 issues) as [a|e] eqn:Ha; [|done]. simpl in Hscore.
  destruct (float_mul 0.3 (default (VInt 0) (st !! "complexity_score"))) as [b|e] eqn:Hb; [|done].
  destruct (gt_num_returns _ (NFloat 0.7) (float_mul_is_num _ _ _ Hb)) as [c1 ->].
  destruct (gt_num_returns _ (NInt 0) (float_mul_is_num _ _ _ Ha)) as [c2 Hc2].
  simpl. rewrite Hc2. simpl. rewrite Hl. eauto.
Qed.

End quality_gate.

Section gate_loop.
Context (float_repr : float → string) (graph : GraphDefinition) (tools : ToolRegistry).
Hypothesis Hsugg : nodes graph !! "suggest_improvements" = Some suggest_improvements.
Hypothesis Hcheck : nodes graph !! "check_quality" = Some (check_quality float_repr).
Hypothesis Hback : edges graph !! "suggest_improvements" = Some ["check_quality"].
Hypothesis Hlast : default [] (edges graph !! "check_quality") = [].

(** One pass at [suggest_improvements]: the static edge leads back to
    [check_quality]; the gate's inputs are untouched. *)
Lemma suggest_pass st lg :
  below_threshold st → suggestions_ok st →
  ∃ st' entry,
    loop_body graph tools "suggest_improvements" st lg
    = Returned (Some "check_quality", st', lg ++ [entry])
    ∧ node entry = "suggest_improvements"
    ∧ st' !! "max_iterations" = st !! "max_iterations"
    ∧ st' !! "iterations" = st !! "iterations"
    ∧ below_threshold st' ∧ suggestions_ok st'.
Proof.
  intros Hbelow Hok.
  destruct (suggest_improvements_extends tools st Hbelow Hok) as (l & added & line & Hrun).
  eexists _, _. split.
  - rewrite (loop_body_static graph tools _ _ st lg
               (mkNodeResult (<["suggestions" := VList (l ++ added)]> st) None line) Hsugg).
    + rewrite Hback. done.
    + unfold _run_node. by rewrite Hrun.
    + done.
    + rewrite Hback. simpl. lia.
  - simpl. split; [done|]. rewrite !lookup_insert_ne by done.
    split; [done|]. split; [done|].
    split; [by apply below_threshold_insert|].
    exists (l ++ added). by rewrite lookup_insert_eq.
Qed.

(** One pass at [check_quality] below the threshold. *)
Lemma check_pass st lg (i m : Z) :
  st !! "max_iterations" = Some (VInt m) →
  default (VInt 0) (st !! "iterations") = VInt i →
  below_threshold st → suggestions_ok st →
  ∃ st' entry,
    loop_body graph tools "check_quality" st lg
    = Returned (if m <=? i + 1 then None else Some "suggest_improvements", st', lg ++ [entry])
    ∧ node entry = "check_quality"
    ∧ st' !! "max_iterations" = Some (VInt m)
    ∧ st' !! "iterations" = Some (VInt (i + 1))
    ∧ below_threshold st' ∧ suggestions_ok st'.
Proof.
  intros Hmax Hit Hbelow Hok.
  destruct (check_quality_below float_repr tools st i m Hmax Hit Hbelow) as (score & line & Hrun).
  assert (Hnode : _run_node tools (check_quality float_repr) st
                  = Returned (mkNodeResult
                      (<["iterations" := VInt (i + 1)]> (<["quality_score" := VFloat score]> st))
                      (if m <=? i + 1 then None else Some "suggest_improvements") line)).
  { unfold _run_node. by rewrite Hrun. }
  eexists _, _. split.
  - destruct (m <=? i + 1) eqn:Hstop.
    + rewrite (loop_body_static graph tools _ _ st lg _ Hcheck Hnode); rewrite ?Hlast; simpl;
        [done | done | lia].
    + by rewrite (loop_body_dynamic graph tools _ _ st lg _ "suggest_improvements" Hcheck Hnode).
  - simpl. split; [done|]. rewrite lookup_insert_eq, !lookup_insert_ne by done.
    split; [done|]. split; [done|].
    split; [by repeat (apply below_threshold_insert; [done..|])|].
    by repeat (apply suggestions_ok_insert; [done|]).
Qed.

(** From [check_quality] with [k] more rounds to go before the iteration cap
    [m]: the loop runs [check_quality], then [k] times [suggest_improvements]
    and [check_quality], and ends. *)
Lemma gate_loop_terminates (k : nat) :
  ∀ st lg (i m : Z) fuel,
    st !! "max_iterations" = Some (VInt m) →
    default (VInt 0) (st !! "iterations") = VInt i →
    below_threshold st → suggestions_ok st →
    i + 1 + Z.of_nat k = m →
    ∃ st' lg',
      _execute_loop (2 * k + 1 + fuel) graph tools (Some "check_quality") st lg
      = Some (Returned (st', lg ++ lg'))
      ∧ node <$> lg' = gate_rounds k
      ∧ st' !! "iterations" = Some (VInt m).
Proof.
  induction k as [|k IH]; intros st lg i m fuel Hmax Hit Hbelow Hok Hm.
  - destruct (check_pass st lg i m Hmax Hit Hbelow Hok)
      as (st1 & e1 & Hbody & Hn1 & _ & Hit1 & _ & _).
    rewrite (proj2 (Z.leb_le m (i + 1))) in Hbody by lia.
    exists st1, [e1]. split; [|split].
    + simpl. destruct (loop_body graph tools "check_quality" st lg) as [[[c s] l]|e];
        simplify_eq. by apply execute_loop_falsy; left.
    + simpl. by rewrite Hn1.
    + rewrite Hit1. do 2 f_equal. lia.
  - destruct (check_pass st lg i m Hmax Hit Hbelow Hok)
      as (st1 & e1 & Hbody1 & Hn1 & Hmax1 & Hit1 & Hbelow1 & Hok1).
    rewrite (proj2 (Z.leb_gt m (i + 1))) in Hbody1 by lia.
    destruct (suggest_pass st1 (lg ++ [e1]) Hbelow1 Hok1)
      as (st2 & e2 & Hbody2 & Hn2 & Hmax2 & Hit2 & Hbelow2 & Hok2).
    destruct (IH st2 ((lg ++ [e1]) ++ [e2]) (i + 1) m fuel) as (st' & lg' & Hloop & Hnodes & Hfin).
    { by rewrite Hmax2. } { by rewrite Hit2, Hit1. } { done. } { done. } { lia. }
    exists st', (e1 :: e2 :: lg'). split; [|split].
    + replace (2 * S k + 1 + fuel)%nat with (S (S (2 * k + 1 + fuel))) by lia.
      rewrite (execute_loop_pass graph tools _ "check_quality" _ _ _ _ _ ltac:(done) Hbody1).
      rewrite (execute_loop_pass graph tools _ "suggest_improvements" _ _ _ _ _ ltac:(done) Hbody2).
      rewrite Hloop. by rewrite <- !app_assoc.
    + by rewrite !fmap_cons, Hn1, Hn2, Hnodes.
    + done.
Qed.

End gate_loop.

(** C8.  On the quality-gate loop ([suggest_improvements] with its static
    edge back to [check_quality], [check_quality] terminal in the static
    edges), started at either node with [max_iterations = 3], no
    [iterations], a score below the threshold and [suggestions] absent or a
    list, [run_graph] completes (six passes suffice) after exactly three
    executions of [check_quality]. *)
Theorem quality_gate_stops_after_three
    (float_repr : float → string) (self : GraphEngine) (uuid gid : string)
    (graph : GraphDefinition) (st0 : State) (fuel : nat) :
  _graphs self !! gid = Some graph →
  nodes graph !! "suggest_improvements" = Some suggest_improvements →
  nodes graph !! "check_quality" = Some (check_quality float_repr) →
  edges graph !! "suggest_improvements" = Some ["check_quality"] →
  default [] (edges graph !! "check_quality") = [] →
  start_node graph = "suggest_improvements" ∨ start_node graph = "check_quality" →
  st0 !! "max_iterations" = Some (VInt 3) →
  st0 !! "iterations" = None →
  below_threshold st0 →
  suggestions_ok st0 →
  (6 ≤ fuel)%nat →
  ∃ run,
    (run_graph fuel self uuid gid st0).2 = Some (Returned run)
    ∧ get_run (run_graph fuel self uuid gid st0).1 uuid = Returned run
    ∧ status run = "completed"
    ∧ executions "check_quality" (logs run) = 3%nat
    ∧ current_state run !! "iterations" = Some (VInt 3).
Proof.
  intros Hgraph Hsugg Hcheck Hback Hlast Hstart Hmax Hnone Hbelow Hok Hfuel.
  set (tools := _tool_registry self).
  assert (Hloop : ∃ st' lg',
             _execute_loop fuel graph tools (Some (start_node graph)) st0 []
             = Some (Returned (st', lg'))
             ∧ executions "check_quality" lg' = 3%nat
             ∧ st' !! "iterations" = Some (VInt 3)).
  { destruct Hstart as [-> | ->].
    - destruct (suggest_pass graph tools Hsugg Hback st0 [] Hbelow Hok)
        as (st1 & e1 & Hbody1 & Hn1 & Hmax1 & Hit1 & Hbelow1 & Hok1).
      destruct (gate_loop_terminates float_repr graph tools Hsugg Hcheck Hback Hlast 2
                  st1 ([] ++ [e1]) 0 3 (fuel - 6)) as (st' & lg' & Hl & Hnodes & Hfin).
      { by rewrite Hmax1. } { by rewrite Hit1, Hnone. } { done. } { done. } { done. }
      exists st', (([] ++ [e1]) ++ lg'). split; [|split; [|done]].
      + replace fuel with (S (2 * 2 + 1 + (fuel - 6))) by lia.
        by rewrite (execute_loop_pass graph tools _ "suggest_improvements" _ _ _ _ _
                      ltac:(done) Hbody1).
      + by rewrite executions_nodes, !fmap_app, Hnodes, fmap_cons, Hn1.
    - destruct (gate_loop_terminates float_repr graph tools Hsugg Hcheck Hback Hlast 2
                  st0 [] 0 3 (fuel - 5)) as (st' & lg' & Hl & Hnodes & Hfin).
      { done. } { by rewrite Hnone. } { done. } { done. } { done. }
      exists st', ([] ++ lg'). split; [|split; [|done]].
      + by replace fuel with (2 * 2 + 1 + (fuel - 5))%nat by lia.
      + by rewrite executions_nodes, !fmap_app, Hnodes. }
  destruct Hloop as (st' & lg' & Hl & Hexec & Hfin).
  rewrite (run_graph_completed self uuid gid graph st0 Hgraph fuel st' lg' Hl).
  eexists. simpl. split; [done|].
  split; [apply (get_run_stored _ (mkRun uuid gid st' "completed" lg' None None))|]. done.
Qed.

Lemma quality_gate_witness :
  ∃ run,
    (run_graph 6 gate_engine "run-9" "graph-9" gate_state).2 = Some (Returned run)
    ∧ get_run (run_graph 6 gate_engine "run-9" "graph-9" gate_state).1 "run-9" = Returned run
    ∧ status run = "completed"
    ∧ executions "check_quality" (logs run) = 3%nat
    ∧ current_state run !! "iterations" = Some (VInt 3).
Proof.
  apply (quality_gate_stops_after_three repr_example gate_engine "run-9" "graph-9"
           gate_graph gate_state 6);
    [reflexivity | reflexivity | reflexivity | reflexivity | reflexivity
    | left; reflexivity | reflexivity | reflexivity | | | apply Nat.le_refl].
  - exists 0.45%float. split; vm_compute; reflexivity.
  - exists []. reflexivity.
Defined.

(** * Further properties of the engine *)

(** ** What the log of an execution records *)
Section log_facts.
Context (graph : GraphDefinition) (tools : ToolRegistry).

(** A pass that does not raise ran a node of the graph, appended one entry
    for it, and left that entry's snapshot as the current state. *)
Lemma loop_body_log cur st lg cur' st' lg' :
  loop_body graph tools cur st lg = Returned (cur', st', lg') →
  ∃ entry, lg' = lg ++ [entry] ∧ node entry = cur ∧ state_snapshot entry = st'
           ∧ is_Some (nodes graph !! cur).
Proof.
  unfold loop_body. destruct (nodes graph !! cur) as [fn|]; [|done].
  destruct (_run_node tools fn st) as [r|e]; [|done]. simpl.
  destruct (next_node r).
  - intros H. simplify_eq. eauto.
  - destruct (1 <? length (default [] (edges graph !! cur)))%nat; [done|].
    intros H. simplify_eq. eauto.
Qed.

Lemma execute_loop_log fuel cur st lg final lg' :
  _execute_loop fuel graph tools cur st lg = Some (Returned (final, lg')) →
  ∃ more,
    lg' = lg ++ more
    ∧ final = default st (state_snapshot <$> last more)
    ∧ Forall (λ e, is_Some (nodes graph !! node e)) more
    ∧ (∀ e, head more = Some e → cur = Some (node e))
    ∧ (more = [] ↔ cur = None ∨ cur = Some "").
Proof.
  revert cur st lg. induction fuel as [|fuel IH]; intros cur st lg H.
  - destruct cur as [[|c name]|]; simpl in H; simplify_eq.
    + exists []. rewrite app_nil_r. repeat split; auto. by intros ?.
    + exists []. rewrite app_nil_r. repeat split; auto. by intros ?.
  - destruct cur as [[|c name]|]; simpl in H.
    + simplify_eq. exists []. rewrite app_nil_r. repeat split; auto. by intros ?.
    + destruct (loop_body graph tools (String c name) st lg) as [[[c1 s1] l1]|e] eqn:Hbody;
        [|done].
      destruct (loop_body_log _ _ _ _ _ _ Hbody) as (entry & -> & Hnode & Hsnap & Hin).
      destruct (IH _ _ _ H) as (more & -> & Hfinal & Hall & Hhead & _).
      exists (entry :: more). rewrite <- app_assoc. split; [done|]. split; [|split; [|split]].
      * rewrite last_cons. destruct (last more); simpl in *; congruence.
      * constructor; [by rewrite Hnode|done].
      * intros e [= <-]. by rewrite Hnode.
      * split; [done|]. by intros [?|?].
    + simplify_eq. exists []. rewrite app_nil_r. repeat split; auto. by intros ?.
Qed.

End log_facts.

Lemma run_graph_returned fuel self uuid gid st0 run :
  (run_graph fuel self uuid gid st0).2 = Some (Returned run) →
  ∃ graph final lg,
    _graphs self !! gid = Some graph
    ∧ _execute_loop fuel graph (_tool_registry self) (Some (start_node graph)) st0 []
      = Some (Returned (final, lg))
    ∧ run = mkRun uuid gid final "completed" lg None None.
Proof.
  unfold run_graph, run_graph_begin.
  destruct (_graphs self !! gid) as [graph|] eqn:Hg; [|done].
  unfold _execute. simpl.
  destruct (_execute_loop fuel graph (_tool_registry self) (Some (start_node graph)) st0 [])
    as [[[final lg]|e]|] eqn:Hloop; simpl; [|done..].
  intros [= <-]. by eexists _, _, _.
Qed.

(** X1.  The record of a run that [run_graph] returns is completed, with no
    error and no current node; its state is the snapshot of the last log
    entry, or the initial state when no node ran; [get_run] shows the same
    record. *)
Theorem completed_run_state_is_last_snapshot
    (fuel : nat) (self : GraphEngine) (uuid gid : string) (st0 : State)
    (run : GraphRunRecord) :
  (run_graph fuel self uuid gid st0).2 = Some (Returned run) →
  status run = "completed"
  ∧ error run = None
  ∧ current_node run = None
  ∧ run_id run = uuid
  ∧ run_graph_id run = gid
  ∧ current_state run = default st0 (state_snapshot <$> last (logs run))
  ∧ get_run (run_graph fuel self uuid gid st0).1 uuid = Returned run.
Proof.
  intros H. destruct (run_graph_returned _ _ _ _ _ _ H) as (graph & final & lg & Hg & Hloop & ->).
  destruct (execute_loop_log _ _ _ _ _ _ _ _ Hloop) as (more & Hlg & Hfinal & _).
  simpl in Hlg. subst lg. simpl.
  rewrite (run_graph_completed self uuid gid graph st0 Hg fuel _ _ Hloop).
  repeat (split; [done|]). apply (get_run_stored _ (mkRun uuid gid final "completed" more None None)).
Qed.

Lemma completed_run_witness :
  status abc_run = "completed"
  ∧ error abc_run = None
  ∧ current_node abc_run = None
  ∧ run_id abc_run = "run-1"
  ∧ run_graph_id abc_run = "graph-1"
  ∧ current_state abc_run = default ∅ (state_snapshot <$> last (logs abc_run))
  ∧ get_run (run_graph 3 abc_engine "run-1" "graph-1" ∅).1 "run-1" = Returned abc_run.
Proof.
  apply (completed_run_state_is_last_snapshot 3 abc_engine "run-1" "graph-1" ∅ abc_run).
  reflexivity.
Defined.

(** X2.  In the log of a run that [run_graph] returns, every entry is for a
    node of the graph, the first entry is for the start node, and the log
    is empty exactly when the start node is the empty name. *)
Theorem completed_run_logs_nodes_of_the_graph
    (fuel : nat) (self : GraphEngine) (uuid gid : string) (st0 : State)
    (run : GraphRunRecord) :
  (run_graph fuel self uuid gid st0).2 = Some (Returned run) →
  ∃ graph,
    _graphs self !! gid = Some graph
    ∧ Forall (λ e, is_Some (nodes graph !! node e)) (logs run)
    ∧ (∀ e, head (logs run) = Some e → node e = start_node graph)
    ∧ (logs run = [] ↔ start_node graph = "").
Proof.
  intros H. destruct (run_graph_returned _ _ _ _ _ _ H) as (graph & final & lg & Hg & Hloop & ->).
  destruct (execute_loop_log _ _ _ _ _ _ _ _ Hloop) as (more & Hlg & _ & Hall & Hhead & Hnil).
  simpl in Hlg. subst lg. exists graph. simpl. split; [done|]. split; [done|]. split.
  - intros e He. specialize (Hhead e He). congruence.
  - rewrite Hnil. split; [by intros [?|[= ->]]|intros ->; by right].
Qed.

Lemma completed_run_logs_witness :
  ∃ graph,
    _graphs abc_engine !! "graph-1" = Some graph
    ∧ Forall (λ e, is_Some (nodes graph !! node e)) (logs abc_run)
    ∧ (∀ e, head (logs abc_run) = Some e → node e = start_node graph)
    ∧ (logs abc_run = [] ↔ start_node graph = "").
Proof.
  apply (completed_run_logs_nodes_of_the_graph 3 abc_engine "run-1" "graph-1" ∅ abc_run).
  reflexivity.
Defined.

(** ** Runs that never end *)

(** X3.  The loop has no cycle guard: when every pass at the start node
    hands over to that same node, the run is still going after any number
    of passes, and its record stays as published, "running" with no logs. *)
Theorem cyclic_run_never_returns
    (fuel : nat) (self : GraphEngine) (uuid gid : string) (graph : GraphDefinition)
    (st0 : State) :
  _graphs self !! gid = Some graph →
  start_node graph ≠ "" →
  (∀ st lg, ∃ st' lg',
     loop_body graph (_tool_registry self) (start_node graph) st lg
     = Returned (Some (start_node graph), st', lg')) →
  run_graph fuel self uuid gid st0 = (store_run self (new_run uuid gid st0), None)
  ∧ get_run (run_graph fuel self uuid gid st0).1 uuid = Returned (new_run uuid gid st0)
  ∧ status (new_run uuid gid st0) = "running".
Proof.
  intros Hg Hne Hcycle.
  assert (Hloop : ∀ st lg,
    _execute_loop fuel graph (_tool_registry self) (Some (start_node graph)) st lg = None).
  { induction fuel as [|fuel IH]; intros st lg.
    - destruct (start_node graph); [done|reflexivity].
    - destruct (Hcycle st lg) as (st' & lg' & Hbody).
      rewrite (execute_loop_pass _ _ _ _ _ _ _ _ _ Hne Hbody). apply IH. }
  assert (Hrun : run_graph fuel self uuid gid st0 = (store_run self (new_run uuid gid st0), None)).
  { unfold run_graph. rewrite (run_graph_begin_ok self uuid gid graph st0 Hg).
    unfold _execute. simpl. by rewrite Hloop. }
  rewrite Hrun. split; [done|]. split; [|done].
  apply (get_run_stored self (new_run uuid gid st0)).
Qed.

Lemma cyclic_run_witness :
  run_graph 1000 cycle_engine "run-10" "graph-10" ∅
  = (store_run cycle_engine (new_run "run-10" "graph-10" ∅), None)
  ∧ get_run (run_graph 1000 cycle_engine "run-10" "graph-10" ∅).1 "run-10"
    = Returned (new_run "run-10" "graph-10" ∅)
  ∧ status (new_run "run-10" "graph-10" ∅) = "running".
Proof.
  apply (cyclic_run_never_returns 1000 cycle_engine "run-10" "graph-10" cycle_graph ∅);
    [reflexivity | discriminate |].
  intros st lg. eexists _, _. reflexivity.
Defined.

(** ** Registration, both ways *)

(** X5.  [register_graph] accepts a call exactly when every name supplied
    is in the node library and the start node is among the names; it then
    returns the drawn id and stores under it a graph with that id, the
    normalized edges, the start node and the description.  Accepted or
    not, the runs, the node library, the tools and the graphs under other
    ids are as before. *)
Theorem register_graph_accepts_exactly_known_names
    (self : GraphEngine) (uuid : string) (names : list string)
    (es : gmap string EdgeValue) (start : string) (descr : option string) :
  (((∀ n, n ∈ names → is_Some (_node_library self !! n)) ∧ start ∈ names)
   ↔ (register_graph self uuid names es start descr).2 = Returned uuid)
  ∧ ((register_graph self uuid names es start descr).2 = Returned uuid →
     ∃ graph,
       _graphs (register_graph self uuid names es start descr).1 !! uuid = Some graph
       ∧ graph_id graph = uuid ∧ edges graph = normalize_edge <$> es
       ∧ start_node graph = start ∧ description graph = descr)
  ∧ (∀ g, g ≠ uuid →
     _graphs (register_graph self uuid names es start descr).1 !! g = _graphs self !! g)
  ∧ _runs (register_graph self uuid names es start descr).1 = _runs self
  ∧ _node_library (register_graph self uuid names es start descr).1 = _node_library self
  ∧ _tool_registry (register_graph self uuid names es start descr).1 = _tool_registry self.
Proof.
  unfold register_graph.
  destruct (build_node_map (_node_library self) names ∅) as [node_map|e] eqn:Hbuild.
  - pose proof (build_node_map_lookup _ _ _ _ Hbuild) as Hlk.
    pose proof (build_node_map_known _ _ _ _ Hbuild) as Hknown.
    destruct (node_map !! start) as [fn|] eqn:Hstart; simpl.
    + split; [|split; [|split; [|done]]].
      * split; [done|]. intros _. split; [done|].
        rewrite Hlk in Hstart. destruct (decide (start ∈ names)); [done|].
        by rewrite lookup_empty in Hstart.
      * intros _. eexists. by rewrite lookup_insert_eq.
      * intros g Hg. by rewrite lookup_insert_ne.
    + split; [|done]. split; [|done]. intros [_ Hin].
      rewrite Hlk, decide_True in Hstart by done.
      destruct (Hknown start Hin) as [? ?]. congruence.
  - simpl. split; [|done]. split; [|done]. intros [Hall _].
    destruct (build_node_map_all_known (_node_library self) names ∅ Hall) as [m Hm]. congruence.
Qed.

Lemma register_graph_accepts_witness :
  ∃ graph,
    _graphs (register_graph (__init__ abc_library no_tools) "graph-1" ["A"; "B"; "C"]
               abc_edges "A" None).1 !! "graph-1" = Some graph
    ∧ graph_id graph = "graph-1" ∧ edges graph = normalize_edge <$> abc_edges
    ∧ start_node graph = "A" ∧ description graph = None.
Proof.
  apply (proj1 (proj2 (register_graph_accepts_exactly_known_names
                         (__init__ abc_library no_tools) "graph-1" ["A"; "B"; "C"]
                         abc_edges "A" None))).
  reflexivity.
Defined.

(** X6.  An accepted registration needs only the names: a list with the
    same members, in any order and with any repetitions, is accepted too,
    with the same id, and its graph binds the same names to the same
    functions and has the same edges, start node and description, so that
    every execution on it is the same.  The order of the keys of [nodes],
    which follows the list, is not part of this comparison. *)
Theorem register_graph_needs_only_the_names
    (self : GraphEngine) (uuid : string) (names names' : list string)
    (es : gmap string EdgeValue) (start : string) (descr : option string) :
  (∀ n, n ∈ names ↔ n ∈ names') →
  (register_graph self uuid names es start descr).2 = Returned uuid →
  (register_graph self uuid names' es start descr).2 = Returned uuid
  ∧ ∃ g g',
      _graphs (register_graph self uuid names es start descr).1 !! uuid = Some g
      ∧ _graphs (register_graph self uuid names' es start descr).1 !! uuid = Some g'
      ∧ (∀ k, nodes g' !! k = nodes g !! k)
      ∧ (∀ k, is_Some (nodes g' !! k) ↔ k ∈ names')
      ∧ edges g' = edges g
      ∧ start_node g' = start_node g
      ∧ description g' = description g
      ∧ graph_id g' = graph_id g
      ∧ ∀ fuel st,
          _execute fuel (register_graph self uuid names' es start descr).1 g' st
          = _execute fuel (register_graph self uuid names es start descr).1 g st.
Proof.
  intros Hsame. unfold register_graph.
  destruct (build_node_map (_node_library self) names ∅) as [node_map|e] eqn:Hbuild; [|done].
  destruct (build_node_map_all_known (_node_library self) names' ∅) as [node_map' Hbuild'].
  { intros k Hk. apply (build_node_map_known _ _ _ _ Hbuild). by apply Hsame. }
  rewrite Hbuild'.
  pose proof (build_node_map_lookup _ _ _ _ Hbuild) as Hlk.
  pose proof (build_node_map_lookup _ _ _ _ Hbuild') as Hlk'.
  assert (Hnodes : ∀ k, node_map' !! k = node_map !! k).
  { intros k. rewrite Hlk, Hlk'.
    destruct (decide (k ∈ names)) as [H1|H1], (decide (k ∈ names')) as [H2|H2]; try done.
    - by apply Hsame in H1.
    - by apply Hsame in H2. }
  rewrite Hnodes.
  destruct (node_map !! start) as [fn0|] eqn:Hstart; [|done].
  simpl. intros _. split; [done|]. eexists _, _. rewrite !lookup_insert_eq.
  split; [done|]. split; [done|]. simpl. split; [done|]. split.
  { intros k. rewrite Hlk'. destruct (decide (k ∈ names')) as [Hin|Hnin].
    - split; [done|]. intros _. apply (build_node_map_known _ _ _ _ Hbuild). by apply Hsame.
    - rewrite lookup_empty. split; [by intros [? ?]|done]. }
  split; [done|]. split; [done|]. split; [done|]. split; [done|].
  intros fuel st. unfold _execute. simpl.
  assert (node_map' = node_map) as ->; [by apply map_eq|done].
Qed.

Lemma register_graph_names_witness :
  (register_graph (__init__ abc_library no_tools) "graph-1" ["C"; "A"; "B"; "A"] abc_edges "A"
     None).2 = Returned "graph-1"
  ∧ ∃ g g',
      _graphs (register_graph (__init__ abc_library no_tools) "graph-1" ["A"; "B"; "C"]
                 abc_edges "A" None).1 !! "graph-1" = Some g
      ∧ _graphs (register_graph (__init__ abc_library no_tools) "graph-1" ["C"; "A"; "B"; "A"]
                   abc_edges "A" None).1 !! "graph-1" = Some g'
      ∧ (∀ k, nodes g' !! k = nodes g !! k)
      ∧ (∀ k, is_Some (nodes g' !! k) ↔ k ∈ ["C"; "A"; "B"; "A"])
      ∧ edges g' = edges g
      ∧ start_node g' = start_node g
      ∧ description g' = description g
      ∧ graph_id g' = graph_id g
      ∧ ∀ fuel st,
          _execute fuel (register_graph (__init__ abc_library no_tools) "graph-1"
                           ["C"; "A"; "B"; "A"] abc_edges "A" None).1 g' st
          = _execute fuel (register_graph (__init__ abc_library no_tools) "graph-1"
                             ["A"; "B"; "C"] abc_edges "A" None).1 g st.
Proof.
  apply (register_graph_needs_only_the_names (__init__ abc_library no_tools) "graph-1"
           ["A"; "B"; "C"] ["C"; "A"; "B"; "A"] abc_edges "A" None); [|reflexivity].
  intros n. rewrite !elem_of_cons, !elem_of_nil. tauto.
Defined.

(** ** Names the graph does not have *)

(** X7.  Registration does not check where edges lead, and nothing checks a
    [next_node]: when a pass hands over to a non-empty name that is no key
    of the graph's nodes, the run fails with [KeyError] on that name, and
    the record is marked failed with the [repr] of the name as its
    error. *)
Theorem handing_over_to_unknown_name_fails
    (self : GraphEngine) (uuid gid : string) (graph : GraphDefinition) (st0 : State)
    (n : nat) (name : string) (st : State) (lg : list LogEntry) (fuel : nat) :
  _graphs self !! gid = Some graph →
  passes graph (_tool_registry self) n (Some (start_node graph), st0, []) (Some name, st, lg) →
  name ≠ "" →
  nodes graph !! name = None →
  (n < fuel)%nat →
  (run_graph fuel self uuid gid st0).2 = Some (raise KeyError name)
  ∧ get_run (run_graph fuel self uuid gid st0).1 uuid
    = Returned (mkRun uuid gid st0 "failed" [] None (Some (repr_str name))).
Proof.
  intros Hg Hp Hne Hnone Hfuel.
  pose proof (loop_body_unknown graph (_tool_registry self) name st lg Hnone) as Hbody.
  rewrite (run_graph_fails_after self uuid gid graph st0 Hg n name st lg _ fuel
             Hp Hne Hbody Hfuel).
  split; [done|].
  apply (get_run_stored _ (mkRun uuid gid st0 "failed" [] None (Some (repr_str name)))).
Qed.

Lemma dangling_edge_witness :
  (run_graph 2 dangling_engine "run-11" "graph-11" ∅).2 = Some (raise KeyError "Z")
  ∧ get_run (run_graph 2 dangling_engine "run-11" "graph-11" ∅).1 "run-11"
    = Returned (mkRun "run-11" "graph-11" ∅ "failed" [] None (Some (repr_str "Z"))).
Proof.
  apply (handing_over_to_unknown_name_fails dangling_engine "run-11" "graph-11" dangling_graph ∅
           1%nat "Z" (visited ["A"]) [mkLog "A" None (visited ["A"])] 2%nat);
    [reflexivity | | discriminate | reflexivity | apply Nat.lt_succ_diag_r].
  apply (passes_S _ _ 0%nat "A" ∅ [] (Some "Z", visited ["A"], [mkLog "A" None (visited ["A"])]));
    [discriminate | reflexivity | apply passes_O].
Defined.

(** ** The tool registry and the listings *)

(** The sorted keys of a mapping: ascending, each key once, no other name. *)
Lemma sorted_keys_spec {V} (m : gmap string V) :
  StronglySorted String.le (sorted (elements (dom m)))
  ∧ NoDup (sorted (elements (dom m)))
  ∧ ∀ k, k ∈ sorted (elements (dom m)) ↔ is_Some (m !! k).
Proof.
  unfold sorted. split; [apply StronglySorted_merge_sort; apply _|]. split.
  - rewrite merge_sort_Permutation. apply NoDup_elements.
  - intros k. by rewrite merge_sort_Permutation, elem_of_elements, elem_of_dom.
Qed.

(** X8.  In a [ToolRegistry], [get] after [register] of the same name
    returns the function registered last, and [register] leaves every
    other name as it was; [get] raises [KeyError], naming the tool, exactly
    on the names [list_tools] does not list. *)
Theorem tool_registry_get_after_register :
  (∀ self name fn, get (register self name fn) name = Returned fn)
  ∧ (∀ self name fn fn', register (register self name fn') name fn = register self name fn)
  ∧ (∀ self name fn other, other ≠ name → get (register self name fn) other = get self other)
  ∧ (∀ self name, name ∉ list_tools self ↔
       get self name = raise KeyError ("Tool '" +:+ name +:+ "' is not registered")).
Proof.
  split; [|split; [|split]].
  - intros. unfold get, register. simpl. by rewrite lookup_insert_eq.
  - intros. unfold register. simpl. by rewrite insert_insert_eq.
  - intros self name fn other Hne. unfold get, register. simpl. by rewrite lookup_insert_ne.
  - intros self name. unfold list_tools, get.
    rewrite (proj2 (proj2 (sorted_keys_spec (_tools self))) name).
    destruct (_tools self !! name) as [fn|].
    + split; [|done]. intros H. destruct H. eauto.
    + split; [done|]. by intros _ [? ?].
Qed.

Lemma tool_registry_witness :
  get (register no_tools "echo" (λ args, Returned (VList args))) "other"
  = get no_tools "other".
Proof.
  apply (proj1 (proj2 (proj2 tool_registry_get_after_register))). discriminate.
Defined.

(** X9.  [list_tools] is in ascending order of code points and lists each
    registered name once; after [register] it lists the name registered
    and the names listed before, no other. *)
Theorem list_tools_sorted_and_exact :
  (∀ self, StronglySorted String.le (list_tools self) ∧ NoDup (list_tools self))
  ∧ (∀ self name fn k,
       k ∈ list_tools (register self name fn) ↔ k = name ∨ k ∈ list_tools self).
Proof.
  split.
  - intros self. unfold list_tools.
    destruct (sorted_keys_spec (_tools self)) as (? & ? & _). done.
  - intros self name fn k. unfold list_tools, register. simpl.
    rewrite !(proj2 (proj2 (sorted_keys_spec _))).
    destruct (decide (k = name)) as [->|Hne].
    + rewrite lookup_insert_eq. split; [by left|eauto].
    + rewrite lookup_insert_ne by done. split; [by right|]. by intros [?|?].
Qed.

(** X10.  [list_nodes] is in ascending order of code points and lists each
    name of the node library once; a name is listed exactly when a graph
    made of that node alone is accepted by [register_graph]. *)
Theorem list_nodes_lists_what_can_be_registered :
  (∀ self, StronglySorted String.le (list_nodes self) ∧ NoDup (list_nodes self))
  ∧ (∀ self uuid name,
       name ∈ list_nodes self
       ↔ (register_graph self uuid [name] ∅ name None).2 = Returned uuid).
Proof.
  split.
  - intros self. unfold list_nodes.
    destruct (sorted_keys_spec (_node_library self)) as (? & ? & _). done.
  - intros self uuid name. unfold list_nodes, register_graph.
    rewrite (proj2 (proj2 (sorted_keys_spec _))). simpl.
    destruct (_node_library self !! name) as [fn|]; simpl.
    + rewrite lookup_insert_eq. simpl. split; [done|eauto].
    + split; [by intros [? ?]|done].
Qed.

(** * Further properties of the quality gate *)

(** X11.  When [suggest_improvements] returns, it has appended one or two
    suggestions to the list under [suggestions] (a missing list counts as
    empty), reported their number in its log, named no [next_node], and
    left every other key of the state as it was. *)
Theorem suggest_improvements_appends_one_or_two
    (st : State) (tools : ToolRegistry) (ret : NodeReturn) :
  suggest_improvements st tools = Returned ret →
  ∃ l added,
    default (VList []) (st !! "suggestions") = VList l
    ∧ ret = RetNodeResult (mkNodeResult (<["suggestions" := VList (l ++ (VStr <$> added))]> st)
              None (Some ("Added " +:+ pretty (length added) +:+ " suggestions")))
    ∧ (length added = 1 ∨ length added = 2)%nat
    ∧ ∀ k, k ≠ "suggestions"
           → (<["suggestions" := VList (l ++ (VStr <$> added))]> st) !! k = st !! k.
Proof.
  unfold suggest_improvements.
  destruct (gt_num (default (VInt 0) (st !! "complexity_score")) (NFloat 0.7))
    as [c1|e]; [|done]. simpl.
  destruct (get_method (default (VDict ∅) (st !! "issues")) "issues" (VInt 0))
    as [issues|e]; [|done]. simpl.
  destruct (gt_num issues (NInt 0)) as [c2|e]; [|done]. simpl.
  destruct (default (VList []) (st !! "suggestions")) as [| | | | |l|] eqn:Hl; try done.
  intros [= <-]. exists l. eexists. split; [done|]. split; [done|]. split.
  - destruct c1, c2; simpl; auto.
  - intros k Hk. by rewrite lookup_insert_ne.
Qed.

Lemma suggest_improvements_witness :
  ∃ l added,
    default (VList []) (gate_state !! "suggestions") = VList l
    ∧ RetNodeResult (mkNodeResult
        (<["suggestions" := VList [VStr "Address flagged code smells."]]> gate_state)
        None (Some "Added 1 suggestions"))
      = RetNodeResult (mkNodeResult (<["suggestions" := VList (l ++ (VStr <$> added))]> gate_state)
          None (Some ("Added " +:+ pretty (length added) +:+ " suggestions")))
    ∧ (length added = 1 ∨ length added = 2)%nat
    ∧ ∀ k, k ≠ "suggestions"
           → (<["suggestions" := VList (l ++ (VStr <$> added))]> gate_state) !! k
             = gate_state !! k.
Proof.
  apply (suggest_improvements_appends_one_or_two gate_state no_tools). reflexivity.
Defined.

(** X12.  When [check_quality] returns, the state it hands on is its input
    with [quality_score] set to the rounded score and [iterations] set to
    the old count plus one (a missing count is 0), every other key as it
    was; and its [next_node] is either null or [suggest_improvements]. *)
Theorem check_quality_sets_score_and_count
    (float_repr : float → string) (st : State) (tools : ToolRegistry) (ret : NodeReturn) :
  check_quality float_repr st tools = Returned ret →
  ∃ count score r,
    add_int (default (VInt 0) (st !! "iterations")) 1 = Returned count
    ∧ quality_score st = Returned score
    ∧ ret = RetNodeResult r
    ∧ state r = <["iterations" := of_num count]> (<["quality_score" := VFloat score]> st)
    ∧ (next_node r = None ∨ next_node r = Some "suggest_improvements")
    ∧ ∀ k, k ≠ "iterations" → k ≠ "quality_score" → state r !! k = st !! k.
Proof.
  unfold check_quality.
  destruct (add_int (default (VInt 0) (st !! "iterations")) 1) as [count|e]; [|done]. simpl.
  destruct (quality_score st) as [score|e]; [|done]. simpl.
  destruct (num_ge_val (NFloat score) (default (VFloat 0.7) (st !! "quality_threshold")))
    as [reached|e]; [|done]. simpl.
  intros H. exists count, score.
  assert (Hkeys : ∀ k, k ≠ "iterations" → k ≠ "quality_score" →
            <["iterations" := of_num count]> (<["quality_score" := VFloat score]> st) !! k
            = st !! k) by (intros; by rewrite !lookup_insert_ne).
  destruct reached; simpl in H.
  - simplify_eq. eexists. repeat split; simpl; auto.
  - destruct (num_ge_val count (default (VInt 3) (st !! "max_iterations"))) as [[|]|e];
      simpl in H; simplify_eq; eexists; repeat split; simpl; auto.
Qed.

Lemma check_quality_witness :
  ∃ count score r,
    add_int (default (VInt 0) (gate_state !! "iterations")) 1 = Returned count
    ∧ quality_score gate_state = Returned score
    ∧ RetNodeResult (mkNodeResult
        (<["iterations" := VInt 1]> (<["quality_score" := VFloat 0.45]> gate_state))
        (Some "suggest_improvements") (Some "Quality score 0.45 (iteration 1) -> continue"))
      = RetNodeResult r
    ∧ state r = <["iterations" := of_num count]> (<["quality_score" := VFloat score]> gate_state)
    ∧ (next_node r = None ∨ next_node r = Some "suggest_improvements")
    ∧ ∀ k, k ≠ "iterations" → k ≠ "quality_score" → state r !! k = gate_state !! k.
Proof.
  apply (check_quality_sets_score_and_count repr_example gate_state no_tools).
  vm_compute. reflexivity.
Defined.

(** X13.  The [or] of [check_quality] is short-circuited: once the score
    reaches the threshold the node stops, naming no [next_node], and
    [max_iterations] is not compared at all, whatever it holds. *)
Theorem check_quality_stops_at_threshold
    (float_repr : float → string) (st : State) (tools : ToolRegistry)
    (count : Num) (score : float) :
  add_int (default (VInt 0) (st !! "iterations")) 1 = Returned count →
  quality_score st = Returned score →
  num_ge_val (NFloat score) (default (VFloat 0.7) (st !! "quality_threshold")) = Returned true →
  ∃ line,
    check_quality float_repr st tools
    = Returned (RetNodeResult (mkNodeResult
        (<["iterations" := of_num count]> (<["quality_score" := VFloat score]> st))
        None (Some (line +:+ " -> stop")))).
Proof.
  intros Hcount Hscore Hge. unfold check_quality. rewrite Hcount. simpl.
  rewrite Hscore. simpl. rewrite Hge. simpl. eauto.
Qed.

(** A state whose [max_iterations] is no number, with nothing to lower the
    score. *)
Lemma check_quality_threshold_witness :
  ∃ line,
    check_quality repr_example {["max_iterations" := VStr "many"]} no_tools
    = Returned (RetNodeResult (mkNodeResult
        (<["iterations" := of_num (NInt 1)]>
           (<["quality_score" := VFloat 1]> {["max_iterations" := VStr "many"]}))
        None (Some (line +:+ " -> stop")))).
Proof.
  apply (check_quality_stops_at_threshold repr_example {["max_iterations" := VStr "many"]}
           no_tools (NInt 1) 1%float); vm_compute; reflexivity.
Defined.

Lemma gate_rounds_executions k :
  length (filter (λ n, n = "check_quality") (gate_rounds k)) = S k
  ∧ length (filter (λ n, n = "suggest_improvements") (gate_rounds k)) = k.
Proof.
  induction k as [|k [IH1 IH2]]; [done|].
  change (gate_rounds (S k)) with ("check_quality" :: "suggest_improvements" :: gate_rounds k).
  rewrite !filter_cons. simpl. by rewrite IH1, IH2.
Qed.

(** X14.  The iteration cap is exact for every cap and every count already
    in the state: on the quality-gate loop started at [check_quality], with
    [max_iterations = m], [iterations] counting [i] (0 when missing), a
    score below the threshold and [suggestions] absent or a list, the run
    completes after [1 + max(0, m - i - 1)] executions of [check_quality],
    one less of [suggest_improvements], and leaves [iterations] raised by
    the number of executions. *)
Theorem quality_gate_runs_to_the_cap
    (float_repr : float → string) (self : GraphEngine) (uuid gid : string)
    (graph : GraphDefinition) (st0 : State) (m i : Z) (fuel : nat) :
  _graphs self !! gid = Some graph →
  nodes graph !! "suggest_improvements" = Some suggest_improvements →
  nodes graph !! "check_quality" = Some (check_quality float_repr) →
  edges graph !! "suggest_improvements" = Some ["check_quality"] →
  default [] (edges graph !! "check_quality") = [] →
  start_node graph = "check_quality" →
  st0 !! "max_iterations" = Some (VInt m) →
  default (VInt 0) (st0 !! "iterations") = VInt i →
  below_threshold st0 →
  suggestions_ok st0 →
  (2 * Z.to_nat (m - i - 1) + 1 ≤ fuel)%nat →
  ∃ run,
    (run_graph fuel self uuid gid st0).2 = Some (Returned run)
    ∧ status run = "completed"
    ∧ executions "check_quality" (logs run) = S (Z.to_nat (m - i - 1))
    ∧ executions "suggest_improvements" (logs run) = Z.to_nat (m - i - 1)
    ∧ current_state run !! "iterations" = Some (VInt (i + 1 + Z.of_nat (Z.to_nat (m - i - 1)))).
Proof.
  intros Hgraph Hsugg Hcheck Hback Hlast Hstart Hmax Hit Hbelow Hok Hfuel.
  set (tools := _tool_registry self). set (k := Z.to_nat (m - i - 1)) in *.
  assert (Hloop : ∃ st' lg',
             _execute_loop fuel graph tools (Some (start_node graph)) st0 []
             = Some (Returned (st', lg'))
             ∧ node <$> lg' = gate_rounds k
             ∧ st' !! "iterations" = Some (VInt (i + 1 + Z.of_nat k))).
  { rewrite Hstart. destruct (Z.le_gt_cases (m - i - 1) 0) as [Hle|Hgt].
    - assert (k = 0%nat) as -> by (subst k; lia).
      destruct (check_pass float_repr graph tools Hcheck Hlast st0 [] i m Hmax Hit Hbelow Hok)
        as (st1 & e1 & Hbody & Hn1 & _ & Hit1 & _ & _).
      rewrite (proj2 (Z.leb_le m (i + 1))) in Hbody by lia.
      exists st1, ([] ++ [e1]). split; [|split].
      + destruct fuel as [|fuel]; [lia|].
        rewrite (execute_loop_pass graph tools _ "check_quality" _ _ _ _ _ ltac:(done) Hbody).
        apply execute_loop_falsy. by left.
      + simpl. by rewrite Hn1.
      + rewrite Hit1. do 2 f_equal. lia.
    - destruct (gate_loop_terminates float_repr graph tools Hsugg Hcheck Hback Hlast k
                  st0 [] i m (fuel - (2 * k + 1))) as (st' & lg' & Hl & Hnodes & Hfin);
        [done | done | done | done | subst k; lia |].
      exists st', ([] ++ lg'). split; [|split].
      + by replace fuel with (2 * k + 1 + (fuel - (2 * k + 1)))%nat by lia.
      + done.
      + rewrite Hfin. do 2 f_equal. subst k. lia. }
  destruct Hloop as (st' & lg' & Hl & Hnodes & Hfin).
  assert (Hex : executions "check_quality" lg' = S k
                ∧ executions "suggest_improvements" lg' = k).
  { rewrite !executions_nodes, Hnodes. apply gate_rounds_executions. }
  destruct Hex as [Hex1 Hex2].
  rewrite (run_graph_completed self uuid gid graph st0 Hgraph fuel st' lg' Hl).
  by eexists.
Qed.

(** The gate with a cap of five and two iterations already counted. *)
Lemma quality_gate_cap_witness :
  ∃ run,
    (run_graph 5 gate_engine_at_check "run-12" "graph-12" gate_state_late).2
    = Some (Returned run)
    ∧ status run = "completed"
    ∧ executions "check_quality" (logs run) = S (Z.to_nat (5 - 2 - 1))
    ∧ executions "suggest_improvements" (logs run) = Z.to_nat (5 - 2 - 1)
    ∧ current_state run !! "iterations" = Some (VInt (2 + 1 + Z.of_nat (Z.to_nat (5 - 2 - 1)))).
Proof.
  apply (quality_gate_runs_to_the_cap repr_example gate_engine_at_check "run-12" "graph-12"
           gate_graph_at_check gate_state_late 5 2 5);
    [reflexivity | reflexivity | reflexivity | reflexivity | reflexivity | reflexivity
    | reflexivity | reflexivity | | | apply Nat.le_refl].
  - exists 0.45%float. split; vm_compute; reflexivity.
  - exists []. reflexivity.
Defined.

(** * Properties of the workflow nodes and of the application *)

(** ** The pattern of [extract_functions] *)

Lemma span_forall p s : forallb p (list_ascii_of_string (Text.span p s).1) = true.
Proof.
  induction s as [|c s IH]; simpl; [done|].
  destruct (p c) eqn:Hc; [|done].
  destruct (Text.span p s) as [run tail]. simpl in *. by rewrite Hc, IH.
Qed.

Lemma span_cons p c s :
  p c = true → (Text.span p (String c s)).1 = String c (Text.span p s).1.
Proof. intros Hc. simpl. rewrite Hc. by destruct (Text.span p s). Qed.

Lemma is_ident_start_char c : Text.is_ident_start c = true → Text.is_ident_char c = true.
Proof. intros H. unfold Text.is_ident_char. by rewrite H. Qed.

(** A match yields an identifier, and it needs a backslash in the text. *)
Lemma match_def_spec s group n :
  Text.match_def s = Some (group, n) →
  is_identifier group = true ∧ has_char backslash s = true.
Proof.
  unfold Text.match_def.
  destruct s as [|c1 [|c2 [|c3 [|b rest]]]]; try done.
  destruct (Ascii.eqb c1 "d" && Ascii.eqb c2 "e" && Ascii.eqb c3 "f" && Ascii.eqb b backslash)
    eqn:Hhead; [|done].
  apply andb_prop in Hhead as [Hhead Hb].
  assert (Hbs : has_char backslash (String c1 (String c2 (String c3 (String b rest)))) = true).
  { simpl. rewrite Hb. by repeat case_match. }
  destruct (Text.span (Ascii.eqb "s") rest) as [run tail] eqn:Hrun.
  pose proof (span_forall Text.is_ident_char tail) as Hword.
  destruct (Text.span Text.is_ident_char tail) as [word tail'] eqn:Hw.
  destruct run as [|s0 run']; [done|].
  destruct tail as [|c tail0].
  - destruct run'; [done|]. intros [= <- <-]. split; [|done]. simpl in *. by rewrite Hword.
  - destruct (Text.is_ident_start c) eqn:Hc.
    + intros [= <- <-]. split; [|done].
      pose proof (span_cons Text.is_ident_char c tail0 (is_ident_start_char c Hc)) as Hcons.
      rewrite Hw in Hcons. simpl in Hcons. subst word. simpl in *. rewrite Hc.
      by apply andb_prop in Hword as [_ ->].
    + destruct run'; [done|]. intros [= <- <-]. split; [|done]. simpl in *. by rewrite Hword.
Qed.

Lemma findall_def_cons skip c s :
  Text.findall_def skip (String c s)
  = match skip with
    | S k => Text.findall_def k s
    | O => match Text.match_def (String c s) with
           | Some (group, n) => group :: Text.findall_def (n - 1) s
           | None => Text.findall_def 0 s
           end
    end.
Proof. done. Qed.

Lemma findall_def_identifiers s :
  ∀ skip, Forall (λ name, is_identifier name = true) (Text.findall_def skip s).
Proof.
  induction s as [|c s IH]; intros skip; [constructor|].
  rewrite findall_def_cons. destruct skip; [|apply IH].
  destruct (Text.match_def (String c s)) as [[group n]|] eqn:Hm; [|apply IH].
  constructor; [|apply IH]. by destruct (match_def_spec _ _ _ Hm).
Qed.

Lemma findall_def_no_backslash s :
  has_char backslash s = false → ∀ skip, Text.findall_def skip s = [].
Proof.
  induction s as [|c s IH]; intros Hno skip; [done|].
  assert (Hrest : has_char backslash s = false).
  { simpl in Hno. by destruct (Ascii.eqb c backslash). }
  rewrite findall_def_cons. destruct skip; [|by apply IH].
  destruct (Text.match_def (String c s)) as [[group n]|] eqn:Hm; [|by apply IH].
  destruct (match_def_spec _ _ _ Hm) as [_ Hbs]. congruence.
Qed.

(** X15.  [extract_functions] on a state whose [code] is a string (the
    empty one when missing) stores the list of names found and their number,
    names no [next_node] and leaves the other keys alone.  Every name found
    is an identifier; and since the pattern asks for a backslash after
    [def], a code without any backslash yields no name at all. *)
Theorem extract_functions_needs_a_backslash
    (st : State) (tools : ToolRegistry) (code : string) :
  default (VStr "") (st !! "code") = VStr code →
  ∃ names,
    extract_functions st tools
    = Returned (RetNodeResult (mkNodeResult
        (<["function_count" := VInt (Z.of_nat (length names))]>
           (<["functions" := VList (VStr <$> names)]> st))
        None (Some ("Found " +:+ pretty (length names) +:+ " functions"))))
    ∧ Forall (λ name, is_identifier name = true) names
    ∧ (has_char backslash code = false → names = []).
Proof.
  intros Hcode. exists (Text.findall_def 0 code). unfold extract_functions.
  rewrite Hcode. simpl. split; [done|]. split.
  - apply findall_def_identifiers.
  - intros Hno. by apply findall_def_no_backslash.
Qed.

Lemma extract_functions_witness :
  ∃ names,
    extract_functions {["code" := VStr "def main(): pass"]} no_tools
    = Returned (RetNodeResult (mkNodeResult
        (<["function_count" := VInt (Z.of_nat (length names))]>
           (<["functions" := VList (VStr <$> names)]> {["code" := VStr "def main(): pass"]}))
        None (Some ("Found " +:+ pretty (length names) +:+ " functions"))))
    ∧ Forall (λ name, is_identifier name = true) names
    ∧ (has_char backslash "def main(): pass" = false → names = []).
Proof.
  apply (extract_functions_needs_a_backslash {["code" := VStr "def main(): pass"]} no_tools).
  reflexivity.
Defined.

Example findall_def_examples :
  Text.findall_def 0 "def main(): pass" = []
  ∧ Text.findall_def 0 ("def" +:+ String backslash "smain(): pass") = ["main"]
  ∧ Text.findall_def 0 ("def" +:+ String backslash "ss9(") = ["s9"]
  ∧ Text.findall_def 0 ("def" +:+ String backslash "s9") = [].
Proof. repeat split. Qed.

(** ** Lines and occurrences: [detect_smells_tool] *)

Lemma string_length_app (a b : string) :
  String.length (a +:+ b) = (String.length a + String.length b)%nat.
Proof.
  induction a as [|x a IH]; [done|].
  change (S (String.length (a +:+ b)) = S (String.length a + String.length b)). by rewrite IH.
Qed.

Lemma substring_length sub s : substring sub s → (String.length sub ≤ String.length s)%nat.
Proof. intros (pre & post & ->). rewrite !string_length_app. lia. Qed.

Lemma substring_trans a b c : substring a b → substring b c → substring a c.
Proof. intros Hab (pre & post & ->). by apply substring_app. Qed.

Lemma substring_cons sub c s : substring sub s → substring sub (String c s).
Proof. intros (pre & post & ->). by exists (String c pre), post. Qed.

Lemma substring_prepend sub a s : substring sub s → substring sub (a +:+ s).
Proof.
  intros H. rewrite <- (string_app_nil_r s), <- string_app_assoc, string_app_assoc.
  by apply substring_app.
Qed.

Lemma substring_extend sub a s : substring sub a → substring sub (a +:+ s).
Proof. intros H. by apply (substring_app sub a "" s). Qed.

Lemma prefix_spec sub s : String.prefix sub s = true ↔ ∃ post, s = sub +:+ post.
Proof.
  revert s. induction sub as [|x sub IH]; intros s.
  - split; [by exists s|by destruct s].
  - destruct s as [|y s]; simpl.
    + split; [done|]. by intros [post [=]].
    + destruct (Ascii.ascii_dec x y) as [->|Hxy].
      * rewrite IH. split; intros [post Hpost]; exists post.
        -- by rewrite Hpost.
        -- by injection Hpost.
      * split; [done|]. intros [post [= Heq _]]. by destruct Hxy.
Qed.

(** [sub in s] is true exactly when [sub] occurs in [s]. *)
Lemma contains_spec sub s : Text.contains sub s = true ↔ substring sub s.
Proof.
  induction s as [|c s IH].
  - change (Text.contains sub "") with (if String.prefix sub "" then true else false).
    destruct (String.prefix sub "") eqn:Hp.
    + split; [|done]. intros _. apply prefix_spec in Hp as [post Hpost]. by exists "", post.
    + split; [done|]. intros (pre & post & Heq).
      destruct pre; [|done]. assert (String.prefix sub "" = true); [|congruence].
      apply prefix_spec. by exists post.
  - change (Text.contains sub (String c s))
      with (if String.prefix sub (String c s) then true else Text.contains sub s).
    destruct (String.prefix sub (String c s)) eqn:Hp.
    + split; [|done]. intros _. apply prefix_spec in Hp as [post Hpost]. by exists "", post.
    + rewrite IH. split; [apply substring_cons|].
      intros (pre & post & Heq). destruct pre as [|p pre].
      * assert (String.prefix sub (String c s) = true); [|congruence].
        apply prefix_spec. by exists post.
      * injection Heq as _ ->. by exists pre, post.
Qed.

(** A text that starts with [sub] and has [c] further on, where [sub] has
    no [c], has all of [sub] before that [c]. *)
Lemma prefix_before_char sub c :
  has_char c sub = false →
  ∀ a b post, sub +:+ post = a +:+ String c b → ∃ r, a = sub +:+ r.
Proof.
  induction sub as [|y sub IH]; intros Hc a b post Heq; [by exists a|].
  simpl in Hc. destruct (Ascii.eqb y c) eqn:Hy; [done|].
  destruct a as [|x a].
  - injection Heq as -> _. by rewrite Ascii.eqb_refl in Hy.
  - injection Heq as -> Heq. destruct (IH Hc a b post Heq) as [r ->]. by exists r.
Qed.

(** An occurrence of [sub] in a text lies on one side of a character that
    [sub] does not have. *)
Lemma substring_split sub c a b :
  has_char c sub = false →
  substring sub (a +:+ String c b) → substring sub a ∨ substring sub b.
Proof.
  intros Hc (pre & post & Heq). revert pre Heq.
  induction a as [|x a IH]; intros pre Heq.
  - destruct pre as [|p pre].
    + destruct (prefix_before_char sub c Hc "" b post (eq_sym Heq)) as [r Hr].
      left. by exists "", r.
    + injection Heq as _ ->. right. by exists pre, post.
  - destruct pre as [|p pre].
    + destruct (prefix_before_char sub c Hc (String x a) b post (eq_sym Heq)) as [r Hr].
      left. by exists "", r.
    + injection Heq as _ Heq. destruct (IH pre Heq) as [H|H]; [left|by right].
      by apply substring_cons.
Qed.

Lemma linebreak_not_in_todo c : Text.is_linebreak c = true → has_char c "TODO" = false.
Proof. by destruct c as [[] [] [] [] [] [] [] []]. Qed.

Lemma splitlines_from_cons line c rest :
  Text.splitlines_from line (String c rest)
  = if Text.is_linebreak c then
      line :: match rest with
              | String c' rest' =>
                  if Ascii.eqb c (ascii_of_N 13) && Ascii.eqb c' (ascii_of_N 10)
                  then Text.splitlines_from "" rest'
                  else Text.splitlines_from "" rest
              | EmptyString => []
              end
    else Text.splitlines_from (line +:+ String c "") rest.
Proof. done. Qed.

Lemma string_app_snoc (line : string) c rest :
  (line +:+ String c "") +:+ rest = line +:+ String c rest.
Proof. by rewrite string_app_assoc. Qed.

(** Every line is a piece of the text. *)
Lemma splitlines_from_sub n :
  ∀ s line l, (String.length s ≤ n)%nat →
    l ∈ Text.splitlines_from line s → substring l (line +:+ s).
Proof.
  induction n as [|n IH]; intros s line l Hn Hl.
  - destruct s; [|simpl in Hn; lia]. simpl in Hl. destruct line; [by apply elem_of_nil in Hl|].
    apply list_elem_of_singleton in Hl as ->. rewrite string_app_nil_r. apply substring_refl.
  - destruct s as [|c rest].
    { simpl in Hl. destruct line; [by apply elem_of_nil in Hl|].
      apply list_elem_of_singleton in Hl as ->. rewrite string_app_nil_r. apply substring_refl. }
    simpl in Hn. rewrite splitlines_from_cons in Hl.
    destruct (Text.is_linebreak c).
    + apply elem_of_cons in Hl as [->|Hl]; [by apply substring_extend, substring_refl|].
      apply substring_prepend, substring_cons.
      destruct rest as [|c' rest']; [by apply elem_of_nil in Hl|].
      simpl in Hn.
      destruct (Ascii.eqb c (ascii_of_N 13) && Ascii.eqb c' (ascii_of_N 10)).
      * apply substring_cons. apply (IH rest' "" l); [lia|done].
      * apply (IH (String c' rest') "" l); [simpl; lia|done].
    + rewrite <- string_app_snoc. apply IH; [lia|done].
Qed.

(** An occurrence of TODO in the text is an occurrence in one of its lines. *)
Lemma splitlines_from_todo n :
  ∀ s line, (String.length s ≤ n)%nat →
    substring "TODO" (line +:+ s) →
    Exists (substring "TODO") (Text.splitlines_from line s).
Proof.
  induction n as [|n IH]; intros s line Hn Hsub.
  - destruct s; [|simpl in Hn; lia]. rewrite string_app_nil_r in Hsub. simpl.
    destruct line; [|by constructor].
    apply substring_length in Hsub. simpl in Hsub. lia.
  - destruct s as [|c rest].
    { rewrite string_app_nil_r in Hsub. simpl.
      destruct line; [|by constructor].
      apply substring_length in Hsub. simpl in Hsub. lia. }
    simpl in Hn. rewrite splitlines_from_cons.
    destruct (Text.is_linebreak c) eqn:Hc.
    + apply substring_split in Hsub as [Hsub|Hsub]; [by constructor| |by apply linebreak_not_in_todo].
      apply Exists_cons_tl.
      destruct rest as [|c' rest'].
      { apply substring_length in Hsub. simpl in Hsub. lia. }
      simpl in Hn.
      destruct (Ascii.eqb c (ascii_of_N 13) && Ascii.eqb c' (ascii_of_N 10)) eqn:Hcrlf.
      * apply andb_prop in Hcrlf as [_ Hlf]. apply Ascii.eqb_eq in Hlf as ->.
        apply (substring_split "TODO" _ "" rest') in Hsub as [Hsub|Hsub]; [| |done].
        { apply substring_length in Hsub. simpl in Hsub. lia. }
        apply (IH rest' ""); [lia|done].
      * apply (IH (String c' rest') ""); [simpl; lia|done].
    + rewrite <- string_app_snoc in Hsub. apply IH; [lia|done].
Qed.

(** A text of at most 120 characters has no line longer than that. *)
Lemma long_lines_of_short_text code :
  (String.length code ≤ 120)%nat →
  filter (λ line, (120 <? String.length line)%nat) (Text.splitlines code) = [].
Proof.
  intros Hshort. apply elem_of_nil_inv.
  intros l [Hlong Hl]%list_elem_of_filter.
  apply (splitlines_from_sub (String.length code)), substring_length in Hl; [|done].
  apply Is_true_true, Nat.ltb_lt in Hlong. change ("" +:+ code) with code in Hl. lia.
Qed.

(** No line has TODO exactly when the text has none. *)
Lemma todo_lines_none code :
  filter (λ line, Text.contains "TODO" line) (Text.splitlines code) = []
  ↔ ¬ substring "TODO" code.
Proof.
  split.
  - intros Hnone Hsub.
    apply (splitlines_from_todo (String.length code) code "") in Hsub; [|done].
    apply Exists_exists in Hsub as (l & Hl & Hsub).
    assert (Hin : l ∈ filter (λ line, Text.contains "TODO" line) (Text.splitlines code)).
    { apply list_elem_of_filter. split; [|done]. by apply Is_true_true, contains_spec. }
    rewrite Hnone in Hin. by apply elem_of_nil in Hin.
  - intros Hnone. apply elem_of_nil_inv.
    intros l [Hl Hin]%list_elem_of_filter. apply Hnone.
    apply Is_true_true, contains_spec in Hl.
    apply (substring_trans _ l); [done|].
    by apply (splitlines_from_sub (String.length code) code "").
Qed.

(** X16.  [detect_smells_tool] on a string returns the three counts, with
    [issues] the sum of the other two.  No line is counted as long in a
    text of at most 120 characters, neither count exceeds the number of
    lines, and the count of TODO lines is zero exactly when TODO occurs
    nowhere in the text. *)
Theorem detect_smells_tool_counts (code : string) :
  ∃ long_lines todos,
    main.detect_smells_tool [VStr code] = Returned (smells long_lines todos)
    ∧ (long_lines ≤ length (Text.splitlines code))%nat
    ∧ (todos ≤ length (Text.splitlines code))%nat
    ∧ ((String.length code ≤ 120)%nat → long_lines = 0%nat)
    ∧ (todos = 0%nat ↔ ¬ substring "TODO" code).
Proof.
  eexists _, _. split; [reflexivity|].
  split; [apply length_filter|]. split; [apply length_filter|]. split.
  - intros Hshort. by rewrite long_lines_of_short_text.
  - rewrite length_zero_iff_nil. apply todo_lines_none.
Qed.

(** ** [detect_issues] and [check_complexity] *)

(** X17.  With the registry of the application, [detect_issues] on a state
    whose [code] is a string (the empty one when missing) stores the counts
    of [detect_smells_tool] under [issues], names no [next_node] and
    reports their sum; the count of TODO lines is zero exactly when TODO
    occurs nowhere in the code, and a code of at most 120 characters has no
    long line. *)
Theorem detect_issues_stores_the_counts
    (float_repr : float → string) (container_str : PyVal → string)
    (st : State) (code : string) :
  default (VStr "") (st !! "code") = VStr code →
  ∃ long_lines todos,
    detect_issues float_repr container_str st main.tool_registry
    = Returned (RetNodeResult (mkNodeResult (<["issues" := smells long_lines todos]> st) None
        (Some ("Issues detected: " +:+ pretty (Z.of_nat (long_lines + todos))))))
    ∧ (todos = 0%nat ↔ ¬ substring "TODO" code)
    ∧ ((String.length code ≤ 120)%nat → long_lines = 0%nat).
Proof.
  intros Hcode. eexists _, _. split; [|split].
  - unfold detect_issues. rewrite Hcode. reflexivity.
  - rewrite length_zero_iff_nil. apply todo_lines_none.
  - intros Hshort. by rewrite long_lines_of_short_text.
Qed.

Lemma detect_issues_witness :
  ∃ long_lines todos,
    detect_issues repr_example (λ _, "") {["code" := VStr "x = 1  # TODO"]} main.tool_registry
    = Returned (RetNodeResult (mkNodeResult
        (<["issues" := smells long_lines todos]> {["code" := VStr "x = 1  # TODO"]}) None
        (Some ("Issues detected: " +:+ pretty (Z.of_nat (long_lines + todos))))))
    ∧ (todos = 0%nat ↔ ¬ substring "TODO" "x = 1  # TODO")
    ∧ ((String.length "x = 1  # TODO" ≤ 120)%nat → long_lines = 0%nat).
Proof.
  apply (detect_issues_stores_the_counts repr_example (λ _, "")
           {["code" := VStr "x = 1  # TODO"]} "x = 1  # TODO").
  reflexivity.
Defined.

(** X18.  [check_complexity] on a state whose [functions] are missing, an
    empty list or an empty string stores the score 0.1, whatever else the
    state holds; a value that cannot be iterated raises a [TypeError]
    before anything is stored. *)
Theorem check_complexity_without_functions
    (float_repr : float → string) (key_order : gmap string PyVal → list string)
    (st : State) (tools : ToolRegistry) :
  (st !! "functions" = None ∨ st !! "functions" = Some (VList [])
   ∨ st !! "functions" = Some (VStr "") →
   check_complexity float_repr key_order st tools
   = Returned (RetNodeResult (mkNodeResult (<["complexity_score" := VFloat 0.1]> st) None
       (Some ("Complexity score: " +:+ float_repr 0.1%float)))))
  ∧ (∀ v, st !! "functions" = Some v →
       v = VNone ∨ (∃ b, v = VBool b) ∨ (∃ z, v = VInt z) ∨ (∃ f, v = VFloat f) →
       check_complexity float_repr key_order st tools
       = raise TypeError ("'" +:+ type_name v +:+ "' object is not iterable")).
Proof.
  split.
  - intros [H|[H|H]]; unfold check_complexity; by rewrite H.
  - intros v Hv Hcase. unfold check_complexity. rewrite Hv.
    by destruct Hcase as [->|[[b ->]|[[z ->]|[f ->]]]].
Qed.

(** ** The handlers of the application *)

(** The outcomes of [core.run_graph], by what the loop does. *)
Lemma run_graph_cases fuel self uuid gid st0 :
  (_graphs self !! gid = None
   ∧ core.run_graph fuel self uuid gid st0
     = (self, Some (raise KeyError ("Graph '" +:+ gid +:+ "' not found"))))
  ∨ (∃ graph, _graphs self !! gid = Some graph
     ∧ ((_execute fuel self graph st0 = None
         ∧ core.run_graph fuel self uuid gid st0
           = (store_run self (new_run uuid gid st0), None))
        ∨ (∃ final lg, _execute fuel self graph st0 = Some (Returned (final, lg))
           ∧ core.run_graph fuel self uuid gid st0
             = (store_run (store_run self (new_run uuid gid st0))
                  (mkRun uuid gid final "completed" lg None None),
                Some (Returned (mkRun uuid gid final "completed" lg None None))))
        ∨ (∃ e, _execute fuel self graph st0 = Some (Raised e)
           ∧ core.run_graph fuel self uuid gid st0
             = (store_run (store_run self (new_run uuid gid st0))
                  (mkRun uuid gid st0 "failed" [] None (Some (exc_str e))),
                Some (Raised e))))).
Proof.
  destruct (_graphs self !! gid) as [graph|] eqn:Hg.
  - right. exists graph. split; [done|].
    unfold _execute.
    destruct (_execute_loop fuel graph (_tool_registry self) (Some (start_node graph)) st0 [])
      as [[[final lg]|e]|] eqn:Hloop.
    + right. left. exists final, lg. split; [done|]. by apply (run_graph_completed self uuid gid graph st0 Hg).
    + right. right. exists e. split; [done|]. by apply (run_graph_failed self uuid gid graph st0 Hg).
    + left. split; [done|]. unfold core.run_graph. rewrite (run_graph_begin_ok self uuid gid graph st0 Hg).
      unfold _execute. simpl. by rewrite Hloop.
  - left. split; [done|]. unfold core.run_graph, run_graph_begin. by rewrite Hg.
Qed.

(** X19.  A body returned by the handler [run_graph] carries the drawn run
    id, and the state and logs it shows are those of the stored record:
    [get_state] with that id answers with the same state and logs, the
    status completed, no current node and no error.  The graph asked for
    was registered. *)
Theorem run_reply_matches_get_state
    (fuel : nat) (eng eng' : GraphEngine) (uuid : string)
    (request : main.GraphRunRequest) (body : main.GraphRunResponse) :
  main.run_graph fuel eng uuid request = (eng', Some (main.Body body)) →
  main.resp_run_id body = uuid
  ∧ main.get_state eng' uuid
    = main.Body (main.mkStateResponse uuid "completed" (main.final_state body)
                   (main.resp_logs body) None None)
  ∧ is_Some (_graphs eng !! main.req_graph_id request).
Proof.
  unfold main.run_graph.
  destruct (run_graph_cases fuel eng uuid (main.req_graph_id request) (main.initial_state request))
    as [[Hg ->]|(graph & Hg & [[_ ->]|[(final & lg & _ & ->)|(e & _ & ->)]])].
  - done.
  - done.
  - intros [= <- <-]. simpl. split; [done|]. split; [|by rewrite Hg].
    unfold main.get_state.
    by rewrite (get_run_stored _ (mkRun uuid _ final "completed" lg None None)).
  - by destruct (exc_class e).
Qed.

Lemma run_reply_witness :
  main.resp_run_id (main.mkRunResponse "run-1" (current_state abc_run) (logs abc_run)) = "run-1"
  ∧ main.get_state (core.run_graph 4 abc_engine "run-1" "graph-1" ∅).1 "run-1"
    = main.Body (main.mkStateResponse "run-1" "completed" (current_state abc_run)
                   (logs abc_run) None None)
  ∧ is_Some (_graphs abc_engine !! "graph-1").
Proof.
  apply (run_reply_matches_get_state 4 abc_engine _ "run-1" (main.mkRunRequest "graph-1" ∅)).
  reflexivity.
Defined.

(** X20.  A run the handler [run_graph] refuses is refused with 404 or
    with 500 and nothing else.  For a graph id that is not registered it is
    404, the detail is the [repr] of the message, and the engine is as
    before.  For a registered graph the record of the run is stored as
    failed, with no logs, no current node and the detail as its error, and
    [get_state] shows it so; the state it shows is the record's copy of the
    initial state, of which nothing is said here. *)
Theorem refused_run_is_404_or_500
    (fuel : nat) (eng eng' : GraphEngine) (uuid : string)
    (request : main.GraphRunRequest) (e : main.HTTPException) :
  main.run_graph fuel eng uuid request = (eng', Some (main.Refused e)) →
  (_graphs eng !! main.req_graph_id request = None
   ∧ eng' = eng
   ∧ e = main.mkHTTP 404 (repr_str ("Graph '" +:+ main.req_graph_id request +:+ "' not found")))
  ∨ (is_Some (_graphs eng !! main.req_graph_id request)
     ∧ (main.status_code e = 404 ∨ main.status_code e = 500)
     ∧ ∃ reply,
         main.get_state eng' uuid = main.Body reply
         ∧ main.state_run_id reply = uuid
         ∧ main.state_status reply = "failed"
         ∧ main.state_logs reply = []
         ∧ main.state_current_node reply = None
         ∧ main.state_error reply = Some (main.detail e)).
Proof.
  unfold main.run_graph.
  destruct (run_graph_cases fuel eng uuid (main.req_graph_id request) (main.initial_state request))
    as [[Hg ->]|(graph & Hg & [[_ ->]|[(final & lg & _ & ->)|(exc & _ & ->)]])].
  - intros [= <- <-]. by left.
  - done.
  - done.
  - intros Hreply. right. split; [by rewrite Hg|].
    assert (eng' = store_run (store_run eng (new_run uuid (main.req_graph_id request)
                                               (main.initial_state request)))
                     (mkRun uuid (main.req_graph_id request) (main.initial_state request)
                        "failed" [] None (Some (exc_str exc)))
            ∧ main.detail e = exc_str exc
            ∧ (main.status_code e = 404 ∨ main.status_code e = 500)) as (-> & -> & Hcode).
    { destruct (exc_class exc); injection Hreply as <- <-; auto. }
    split; [done|]. unfold main.get_state.
    rewrite (get_run_stored _ (mkRun uuid _ _ "failed" [] None (Some (exc_str exc)))).
    by eexists.
Qed.

Lemma refused_run_witness :
  (_graphs stray_engine !! "graph-6" = None
   ∧ (core.run_graph 2 stray_engine "run-1" "graph-6" ∅).1 = stray_engine
   ∧ main.mkHTTP 404 "'Z'"
     = main.mkHTTP 404 (repr_str ("Graph '" +:+ "graph-6" +:+ "' not found")))
  ∨ (is_Some (_graphs stray_engine !! "graph-6")
     ∧ (main.status_code (main.mkHTTP 404 "'Z'") = 404
        ∨ main.status_code (main.mkHTTP 404 "'Z'") = 500)
     ∧ ∃ reply,
         main.get_state (core.run_graph 2 stray_engine "run-1" "graph-6" ∅).1 "run-1"
         = main.Body reply
         ∧ main.state_run_id reply = "run-1"
         ∧ main.state_status reply = "failed"
         ∧ main.state_logs reply = []
         ∧ main.state_current_node reply = None
         ∧ main.state_error reply = Some (main.detail (main.mkHTTP 404 "'Z'"))).
Proof.
  apply (refused_run_is_404_or_500 2 stray_engine _ "run-1" (main.mkRunRequest "graph-6" ∅)).
  reflexivity.
Defined.

(** X21.  A run whose first node is [detect_issues], on an engine whose
    registry has no tool [detect_smells], is answered with 404, the status
    of an unknown graph, although the graph is registered: the [KeyError]
    of [ToolRegistry.get] reaches the handler.  The detail is the [repr] of
    the message, and the record of the run is stored as failed. *)
Theorem missing_tool_is_answered_404
    (float_repr : float → string) (container_str : PyVal → string)
    (fuel : nat) (eng : GraphEngine) (uuid gid : string) (graph : GraphDefinition)
    (st0 : State) :
  _graphs eng !! gid = Some graph →
  start_node graph ≠ "" →
  nodes graph !! start_node graph = Some (detect_issues float_repr container_str) →
  _tools (_tool_registry eng) !! "detect_smells" = None →
  main.run_graph (S fuel) eng uuid (main.mkRunRequest gid st0)
  = (store_run (store_run eng (new_run uuid gid st0))
       (mkRun uuid gid st0 "failed" [] None (Some missing_tool_detail)),
     Some (main.Refused (main.mkHTTP 404 missing_tool_detail))).
Proof.
  intros Hg Hne Hfn Htool. unfold main.run_graph. simpl.
  rewrite (run_graph_failed eng uuid gid graph st0 Hg (S fuel)
             (mkExc KeyError "Tool 'detect_smells' is not registered")); [done|].
  apply execute_loop_raise; [done|].
  apply (loop_body_node_raises _ _ _ _ _ _ _ Hfn).
  unfold _run_node, detect_issues, get. by rewrite Htool.
Qed.

Lemma missing_tool_witness :
  main.run_graph 1 toolless_engine "run-1" (main.mkRunRequest "graph-13" ∅)
  = (store_run (store_run toolless_engine (new_run "run-1" "graph-13" ∅))
       (mkRun "run-1" "graph-13" ∅ "failed" [] None (Some missing_tool_detail)),
     Some (main.Refused (main.mkHTTP 404 missing_tool_detail))).
Proof.
  apply (missing_tool_is_answered_404 repr_example (λ _, "") 0 toolless_engine
           "run-1" "graph-13" toolless_graph ∅); [reflexivity|done|reflexivity|reflexivity].
Defined.

(** The two outcomes of [register_graph]. *)
Lemma register_graph_cases self uuid names es start descr :
  ((∀ n, n ∈ names → is_Some (_node_library self !! n)) ∧ start ∈ names
   ∧ ∃ node_map,
       build_node_map (_node_library self) names ∅ = Returned node_map
       ∧ register_graph self uuid names es start descr
         = (mkEngine (<[uuid := mkGraph uuid node_map (normalize_edge <$> es) start descr]>
                        (_graphs self))
              (_runs self) (_node_library self) (_tool_registry self),
            Returned uuid))
  ∨ (¬ ((∀ n, n ∈ names → is_Some (_node_library self !! n)) ∧ start ∈ names)
     ∧ ∃ msg, register_graph self uuid names es start descr = (self, raise ValueError msg)).
Proof.
  unfold register_graph.
  destruct (build_node_map (_node_library self) names ∅) as [node_map|e] eqn:Hbuild.
  - pose proof (build_node_map_lookup _ _ _ _ Hbuild) as Hlk.
    pose proof (build_node_map_known _ _ _ _ Hbuild) as Hknown.
    destruct (node_map !! start) as [fn|] eqn:Hstart.
    + left. split; [done|]. split; [|by exists node_map].
      rewrite Hlk in Hstart. destruct (decide (start ∈ names)); [done|].
      by rewrite lookup_empty in Hstart.
    + right. split; [|by eexists]. intros [_ Hin].
      rewrite Hlk, decide_True in Hstart by done.
      destruct (Hknown start Hin) as [? ?]. congruence.
  - right.
    assert (Hnot : ¬ ∀ n, n ∈ names → is_Some (_node_library self !! n)).
    { intros Hall.
      destruct (build_node_map_all_known (_node_library self) names ∅ Hall) as [m Hm].
      congruence. }
    split; [by intros [? _]|].
    destruct (decide (Forall (λ n, is_Some (_node_library self !! n)) names)) as [Hall|Hex].
    { destruct Hnot. by apply Forall_forall. }
    apply not_Forall_Exists, Exists_exists in Hex as (bad & Hbad & Hnone); [|apply _].
    destruct (build_node_map_unknown (_node_library self) names ∅) as (b & _ & _ & Hb).
    { exists bad. split; [done|]. by apply eq_None_not_Some. }
    rewrite Hb in Hbuild. injection Hbuild as <-. by eexists.
Qed.

(** X22.  The handler [create_graph] answers with the drawn id exactly
    when every name of the request is in the node library and the start
    node is among the names; any other request is refused with 400 and
    leaves the engine as it was, and no exception passes the handler.  The
    lists the handler makes of the edge values change nothing: the engine
    after the call is the one [register_graph] gives with the edges as
    requested. *)
Theorem create_graph_answers_id_or_400
    (eng : GraphEngine) (uuid : string) (request : main.GraphCreateRequest) :
  (main.create_graph eng uuid request).1
  = (register_graph eng uuid (main.req_nodes request) (main.req_edges request)
       (main.req_start_node request) (main.req_description request)).1
  ∧ (((∀ n, n ∈ main.req_nodes request → is_Some (_node_library eng !! n))
      ∧ main.req_start_node request ∈ main.req_nodes request)
     ↔ (main.create_graph eng uuid request).2 = main.Body uuid)
  ∧ ((main.create_graph eng uuid request).2 = main.Body uuid
     ∨ ∃ detail, main.create_graph eng uuid request
                 = (eng, main.Refused (main.mkHTTP 400 detail))).
Proof.
  assert (Hedges : normalize_edge <$> ((λ v, NameList (normalize_edge v)) <$> main.req_edges request)
                   = normalize_edge <$> main.req_edges request).
  { by rewrite <- map_fmap_compose. }
  unfold main.create_graph.
  destruct (register_graph_cases eng uuid (main.req_nodes request)
              ((λ v, NameList (normalize_edge v)) <$> main.req_edges request)
              (main.req_start_node request) (main.req_description request))
    as [(Hall & Hstart & node_map & Hbuild & ->)|(Hnot & msg & ->)];
  destruct (register_graph_cases eng uuid (main.req_nodes request) (main.req_edges request)
              (main.req_start_node request) (main.req_description request))
    as [(Hall' & Hstart' & node_map' & Hbuild' & ->)|(Hnot' & msg' & ->)];
    try (by destruct Hnot'); try (by destruct Hnot).
  - simpl. rewrite Hedges. split; [congruence|]. split; [done|by left].
  - unfold raise. simpl. split; [done|]. split; [done|]. right. by eexists.
Qed.

(** ** The default graph *)

(** The graph [_ensure_default_graph] registers: the five review nodes in
    a line, entered at [extract_functions]. *)
Lemma default_graph_registered fr ko cs (eng : GraphEngine) (uuid : string) :
  _node_library eng = NODE_LIBRARY fr ko cs →
  register_graph eng uuid main.default_nodes main.default_edges "extract_functions"
    (Some "Code review loop")
  = (mkEngine (<[uuid := default_graph fr ko cs uuid]> (_graphs eng))
       (_runs eng) (_node_library eng) (_tool_registry eng),
     Returned uuid).
Proof. intros Hlib. unfold register_graph. rewrite Hlib. reflexivity. Qed.

(** X23.  [_ensure_default_graph] on the engine of the application never
    raises and returns the id of a registered graph.  With graphs already
    registered it leaves the engine as it is; with none it registers, under
    the drawn id, the five review nodes entered at [extract_functions].
    A second call changes nothing and returns the same id.  [graph_order]
    lists the ids of the graph table, as [list_graphs] does. *)
Theorem ensure_default_graph_registers_once
    (float_repr : float → string) (key_order : gmap string PyVal → list string)
    (container_str : PyVal → string)
    (graph_order : gmap string GraphDefinition → list string)
    (eng : GraphEngine) (uuid uuid' : string) :
  (∀ m k, k ∈ graph_order m ↔ is_Some (m !! k)) →
  _node_library eng = NODE_LIBRARY float_repr key_order container_str →
  ∃ gid eng',
    main._ensure_default_graph graph_order eng uuid = (eng', Returned gid)
    ∧ is_Some (_graphs eng' !! gid)
    ∧ (_graphs eng ≠ ∅ → eng' = eng)
    ∧ (_graphs eng = ∅ →
       gid = uuid
       ∧ _graphs eng' = {[uuid := default_graph float_repr key_order container_str uuid]})
    ∧ main._ensure_default_graph graph_order eng' uuid' = (eng', Returned gid).
Proof.
  intros Horder Hlib. unfold main._ensure_default_graph at 1.
  destruct (graph_order (_graphs eng)) as [|first rest] eqn:Hfirst.
  - assert (Hempty : _graphs eng = ∅).
    { apply map_empty. intros k. apply eq_None_not_Some. rewrite <- Horder, Hfirst.
      apply not_elem_of_nil. }
    rewrite (default_graph_registered float_repr key_order container_str) by done.
    eexists _, _. split; [done|]. simpl. rewrite Hempty.
    split; [by rewrite lookup_insert_eq|]. split; [done|]. split; [done|].
    unfold main._ensure_default_graph. simpl.
    match goal with
    | |- context [graph_order ?m] =>
        pose proof (Horder m) as Hkeys; destruct (graph_order m) as [|first rest]
    end.
    + assert (Hin : uuid ∈ @nil string) by (apply Hkeys; by rewrite lookup_insert_eq).
      by apply elem_of_nil in Hin.
    + destruct (decide (first = uuid)) as [->|Hne]; [done|].
      destruct (proj1 (Hkeys first)) as [g Hg]; [apply list_elem_of_here|].
      by rewrite lookup_insert_ne, lookup_empty in Hg.
  - assert (Hin : first ∈ graph_order (_graphs eng)) by (rewrite Hfirst; apply list_elem_of_here).
    apply Horder in Hin.
    exists first, eng. split; [done|]. split; [done|]. split; [done|]. split.
    + intros Hempty. rewrite Hempty, lookup_empty in Hin. by destruct Hin.
    + unfold main._ensure_default_graph. by rewrite Hfirst.
Qed.

Lemma ensure_default_graph_witness :
  ∃ gid eng',
    main._ensure_default_graph (λ m, elements (dom m))
      (main.engine repr_example (λ _, []) (λ _, "")) "graph-1" = (eng', Returned gid)
    ∧ is_Some (_graphs eng' !! gid)
    ∧ (_graphs (main.engine repr_example (λ _, []) (λ _, "")) ≠ ∅
       → eng' = main.engine repr_example (λ _, []) (λ _, ""))
    ∧ (_graphs (main.engine repr_example (λ _, []) (λ _, "")) = ∅ →
       gid = "graph-1"
       ∧ _graphs eng' = {["graph-1" := default_graph repr_example (λ _, []) (λ _, "") "graph-1"]})
    ∧ main._ensure_default_graph (λ m, elements (dom m)) eng' "graph-2" = (eng', Returned gid).
Proof.
  apply (ensure_default_graph_registers_once repr_example (λ _, []) (λ _, "")
           (λ m, elements (dom m)) (main.engine repr_example (λ _, []) (λ _, ""))
           "graph-1" "graph-2").
  - intros m k. by rewrite elem_of_elements, elem_of_dom.
  - reflexivity.
Defined.

(** ** The default review from end to end *)

Section review.
Context (float_repr : float → string) (key_order : gmap string PyVal → list string)
        (container_str : PyVal → string) (gid code : string) (long_lines todos : nat)
        (g : float).
Hypothesis Hcode : has_char backslash code = false.
Hypothesis Htool : main.detect_smells_tool [VStr code] = Returned (smells long_lines todos).
Hypothesis Hfloat : float_of_Z (Z.of_nat (long_lines + todos)) = Returned g.

Local Abbreviation graph := (default_graph float_repr key_order container_str gid).
Local Abbreviation tools := main.tool_registry.
Local Abbreviation n := (long_lines + todos)%nat.

Lemma review_extract lg :
  loop_body graph tools "extract_functions" {["code" := VStr code]} lg
  = Returned (Some "check_complexity",
              <["function_count" := VInt 0]> (<["functions" := VList []]> {["code" := VStr code]}),
              lg ++ [mkLog "extract_functions" (Some "Found 0 functions")
                       (<["function_count" := VInt 0]>
                          (<["functions" := VList []]> {["code" := VStr code]}))]).
Proof.
  rewrite (loop_body_static graph tools "extract_functions" extract_functions _ lg
             (mkNodeResult (<["function_count" := VInt 0]>
                              (<["functions" := VList []]> {["code" := VStr code]}))
                None (Some "Found 0 functions"))); [done|done| |done|vm_compute; lia].
  unfold _run_node, extract_functions.
  change (default (VStr "") (({["code" := VStr code]} : State) !! "code")) with (VStr code).
  simpl. by rewrite (findall_def_no_backslash code Hcode 0).
Qed.

Lemma review_complexity st lg :
  st !! "functions" = Some (VList []) →
  loop_body graph tools "check_complexity" st lg
  = Returned (Some "detect_issues", <["complexity_score" := VFloat 0.1]> st,
              lg ++ [mkLog "check_complexity" (Some ("Complexity score: " +:+ float_repr 0.1))
                       (<["complexity_score" := VFloat 0.1]> st)]).
Proof.
  intros Hfns.
  rewrite (loop_body_static graph tools "check_complexity" (check_complexity float_repr key_order)
             st lg (mkNodeResult (<["complexity_score" := VFloat 0.1]> st) None
                      (Some ("Complexity score: " +:+ float_repr 0.1))));
    [done|done| |done|vm_compute; lia].
  unfold _run_node, check_complexity. by rewrite Hfns.
Qed.

Lemma review_issues st lg :
  st !! "code" = Some (VStr code) →
  loop_body graph tools "detect_issues" st lg
  = Returned (Some "suggest_improvements", <["issues" := smells long_lines todos]> st,
              lg ++ [mkLog "detect_issues" (Some ("Issues detected: " +:+ pretty (Z.of_nat n)))
                       (<["issues" := smells long_lines todos]> st)]).
Proof.
  intros Hst.
  rewrite (loop_body_static graph tools "detect_issues" (detect_issues float_repr container_str)
             st lg (mkNodeResult (<["issues" := smells long_lines todos]> st) None
                      (Some ("Issues detected: " +:+ pretty (Z.of_nat n)))));
    [done|done| |done|vm_compute; lia].
  unfold _run_node, detect_issues. rewrite Hst.
  change (get tools "detect_smells") with (Returned main.detect_smells_tool).
  pose proof Htool as Hcounts. revert Hcounts.
  generalize main.detect_smells_tool. intros tool Hcounts. simpl. by rewrite Hcounts.
Qed.

Lemma review_suggest st lg l :
  st !! "complexity_score" = Some (VFloat 0.1) →
  st !! "issues" = Some (smells long_lines todos) →
  default (VList []) (st !! "suggestions") = VList l →
  loop_body graph tools "suggest_improvements" st lg
  = Returned (Some "check_quality", <["suggestions" := VList (l ++ [VStr (advice n)])]> st,
              lg ++ [mkLog "suggest_improvements" (Some "Added 1 suggestions")
                       (<["suggestions" := VList (l ++ [VStr (advice n)])]> st)]).
Proof.
  intros Hcomplexity Hissues Hsugg.
  rewrite (loop_body_static graph tools "suggest_improvements" suggest_improvements
             st lg (mkNodeResult (<["suggestions" := VList (l ++ [VStr (advice n)])]> st) None
                      (Some "Added 1 suggestions")));
    [done|done| |done|vm_compute; lia].
  unfold _run_node, suggest_improvements. rewrite Hcomplexity, Hissues, Hsugg.
  change (gt_num (default (VInt 0) (Some (VFloat 0.1))) (NFloat 0.7)) with (Returned false).
  change (get_method (default (VDict ∅) (Some (smells long_lines todos))) "issues" (VInt 0))
    with (Returned (VInt (Z.of_nat n))).
  unfold advice. simpl. unfold num_gt. simpl.
  destruct (Nat.ltb_spec 0 n) as [Hpos|Hzero].
  - by rewrite (proj2 (Z.compare_gt_iff (Z.of_nat n) 0)) by lia.
  - replace (Z.of_nat n) with 0 by lia. done.
Qed.

Lemma review_check st (i : Z) :
  st !! "complexity_score" = Some (VFloat 0.1) →
  st !! "issues" = Some (smells long_lines todos) →
  st !! "quality_threshold" = None →
  st !! "max_iterations" = None →
  default (VInt 0) (st !! "iterations") = VInt i →
  ∃ line, ∀ lg,
    loop_body graph tools "check_quality" st lg
    = Returned (if num_ge (NFloat (review_score g)) (NFloat 0.7) || (3 <=? i + 1)
                then None else Some "suggest_improvements",
                <["iterations" := VInt (i + 1)]> (<["quality_score" := VFloat (review_score g)]> st),
                lg ++ [mkLog "check_quality" line
                         (<["iterations" := VInt (i + 1)]>
                            (<["quality_score" := VFloat (review_score g)]> st))]).
Proof.
  intros Hcomplexity Hissues Hthreshold Hmax Hit.
  assert (Hrun : ∃ line,
    check_quality float_repr st tools
    = Returned (RetNodeResult (mkNodeResult
        (<["iterations" := VInt (i + 1)]> (<["quality_score" := VFloat (review_score g)]> st))
        (if num_ge (NFloat (review_score g)) (NFloat 0.7) || (3 <=? i + 1)
         then None else Some "suggest_improvements") line))).
  { unfold check_quality, quality_score. rewrite Hcomplexity, Hissues, Hthreshold, Hmax, Hit.
    change (get_method (default (VDict ∅) (Some (smells long_lines todos))) "issues" (VInt 0))
      with (Returned (VInt (Z.of_nat n))).
    simpl. rewrite Hfloat. simpl.
    repeat match goal with
           | |- context [round2 ?x] => change (round2 x) with (review_score g)
           end.
    destruct (num_ge (NFloat (review_score g)) (NFloat 0.7)); simpl; [by eexists|].
    unfold num_ge. simpl. rewrite Z.leb_compare, (Z.compare_antisym (i + 1) 3).
    destruct (i + 1 ?= 3); simpl; by eexists. }
  destruct Hrun as [line Hrun]. exists line. intros lg.
  destruct (num_ge (NFloat (review_score g)) (NFloat 0.7) || (3 <=? i + 1)) eqn:Hstop.
  - rewrite (loop_body_static graph tools "check_quality" (check_quality float_repr) st lg
               (mkNodeResult (<["iterations" := VInt (i + 1)]>
                                (<["quality_score" := VFloat (review_score g)]> st)) None line));
      [done|done| |done|vm_compute; lia].
    unfold _run_node. by rewrite Hrun.
  - rewrite (loop_body_dynamic graph tools "check_quality" (check_quality float_repr) st lg
               (mkNodeResult (<["iterations" := VInt (i + 1)]>
                                (<["quality_score" := VFloat (review_score g)]> st))
                  (Some "suggest_improvements") line) "suggest_improvements");
      [done|done| |done].
    unfold _run_node. by rewrite Hrun.
Qed.

(** The loop on the default graph from the state that holds the code
    alone: four nodes in a line, then one execution of [check_quality]
    when the score reaches 0.7 and three otherwise. *)
Lemma review_loop (fuel : nat) :
  ∃ lg,
    _execute_loop (2 * rounds g + 3 + fuel) graph tools (Some "extract_functions")
      {["code" := VStr code]} []
    = Some (Returned (reviewed (rounds g) code long_lines todos g, lg))
    ∧ node <$> lg = ["extract_functions"; "check_complexity"; "detect_issues";
                     "suggest_improvements"] ++ gate_rounds (rounds g - 1).
Proof.
  destruct (review_check (<["suggestions" := VList [VStr (advice n)]]>
                            (analysed code long_lines todos)) 0) as [line1 Hcheck1];
    [reflexivity..|].
  destruct (review_check (<["suggestions" := VList (replicate 2 (VStr (advice n)))]>
                            (reviewed 1 code long_lines todos g)) 1) as [line2 Hcheck2];
    [reflexivity..|].
  destruct (review_check (<["suggestions" := VList (replicate 3 (VStr (advice n)))]>
                            (reviewed 2 code long_lines todos g)) 2) as [line3 Hcheck3];
    [reflexivity..|].
  revert Hcheck1 Hcheck2 Hcheck3. unfold rounds.
  destruct (num_ge (NFloat (review_score g)) (NFloat 0.7)); intros Hcheck1 Hcheck2 Hcheck3.
  - change (2 * 1 + 3 + fuel)%nat with (S (S (S (S (S fuel))))).
    erewrite execute_loop_pass; [|done|apply review_extract].
    erewrite execute_loop_pass; [|done|by apply review_complexity].
    erewrite execute_loop_pass; [|done|by apply review_issues].
    erewrite execute_loop_pass; [|done|by apply (review_suggest _ _ [])].
    erewrite execute_loop_pass; [|done|apply Hcheck1].
    eexists. split; [by apply execute_loop_falsy; left|done].
  - change (2 * 3 + 3 + fuel)%nat with (S (S (S (S (S (S (S (S (S fuel))))))))).
    erewrite execute_loop_pass; [|done|apply review_extract].
    erewrite execute_loop_pass; [|done|by apply review_complexity].
    erewrite execute_loop_pass; [|done|by apply review_issues].
    erewrite execute_loop_pass; [|done|by apply (review_suggest _ _ [])].
    erewrite execute_loop_pass; [|done|apply Hcheck1].
    change (if false || (3 <=? 0 + 1) then None else Some "suggest_improvements")
      with (Some "suggest_improvements").
    erewrite execute_loop_pass; [|done|by apply (review_suggest _ _ [VStr (advice n)])].
    erewrite execute_loop_pass; [|done|apply Hcheck2].
    change (if false || (3 <=? 1 + 1) then None else Some "suggest_improvements")
      with (Some "suggest_improvements").
    erewrite execute_loop_pass;
      [|done|by apply (review_suggest _ _ (replicate 2 (VStr (advice n))))].
    erewrite execute_loop_pass; [|done|apply Hcheck3].
    change (if false || (3 <=? 2 + 1) then None else Some "suggest_improvements")
      with (@None string).
    eexists. split; [by apply execute_loop_falsy; left|done].
Qed.

End review.

(** The handler [run_graph] on the default graph, given the loop. *)
Lemma review_reply float_repr key_order container_str eng uuid gid st0 final lg fuel fuel' :
  _graphs eng !! gid = Some (default_graph float_repr key_order container_str gid) →
  _tool_registry eng = main.tool_registry →
  _execute_loop fuel' (default_graph float_repr key_order container_str gid) main.tool_registry
    (Some "extract_functions") st0 [] = Some (Returned (final, lg)) →
  (fuel' ≤ fuel)%nat →
  main.run_graph fuel eng uuid (main.mkRunRequest gid st0)
  = (store_run (store_run eng (new_run uuid gid st0))
       (mkRun uuid gid final "completed" lg None None),
     Some (main.Body (main.mkRunResponse uuid final lg))).
Proof.
  intros Hgraph Htools Hloop Hfuel. unfold main.run_graph. simpl.
  rewrite (run_graph_completed eng uuid gid _ st0 Hgraph fuel final lg); [done|].
  rewrite Htools. by apply (execute_loop_mono _ _ fuel').
Qed.

(** X24.  The default review of a code alone in the initial state, where
    the code has no backslash (so no function is found) and the count of
    its issues converts to the float [g]: the run completes within nine
    passes, whatever the code.  The four nodes before the gate run once;
    [check_quality] runs once when the score reaches the default threshold
    0.7 and three times, the default cap, otherwise, each further round
    adding the same suggestion again.  The body shows the state of the last
    round. *)
Theorem default_review_runs_one_or_three_checks
    (float_repr : float → string) (key_order : gmap string PyVal → list string)
    (container_str : PyVal → string) (eng : GraphEngine) (uuid gid code : string)
    (long_lines todos : nat) (g : float) (fuel : nat) :
  _graphs eng !! gid = Some (default_graph float_repr key_order container_str gid) →
  _tool_registry eng = main.tool_registry →
  has_char backslash code = false →
  main.detect_smells_tool [VStr code] = Returned (smells long_lines todos) →
  float_of_Z (Z.of_nat (long_lines + todos)) = Returned g →
  (9 ≤ fuel)%nat →
  ∃ eng' lg,
    main.run_graph fuel eng uuid (main.mkRunRequest gid {["code" := VStr code]})
    = (eng', Some (main.Body (main.mkRunResponse uuid
                                (reviewed (rounds g) code long_lines todos g) lg)))
    ∧ node <$> lg = ["extract_functions"; "check_complexity"; "detect_issues";
                     "suggest_improvements"] ++ gate_rounds (rounds g - 1)
    ∧ executions "check_quality" lg = rounds g
    ∧ (rounds g = 1%nat ∨ rounds g = 3%nat)
    ∧ reviewed (rounds g) code long_lines todos g !! "suggestions"
      = Some (VList (replicate (rounds g) (VStr (advice (long_lines + todos))))).
Proof.
  intros Hgraph Htools Hcode Htool Hfloat Hfuel.
  destruct (review_loop float_repr key_order container_str gid code long_lines todos g
              Hcode Htool Hfloat 0) as (lg & Hloop & Hnodes).
  assert (Hrounds : rounds g = 1%nat ∨ rounds g = 3%nat).
  { unfold rounds. destruct (num_ge _ _); auto. }
  eexists _, lg. split; [|split; [done|split; [|split; [done|]]]].
  - apply (review_reply float_repr key_order container_str eng uuid gid _ _ _ fuel _
             Hgraph Htools Hloop). destruct Hrounds as [-> | ->]; simpl; lia.
  - rewrite executions_nodes, Hnodes. by destruct Hrounds as [-> | ->].
  - by destruct Hrounds as [-> | ->].
Qed.

Lemma default_review_witness :
  ∃ eng' lg,
    main.run_graph 9 review_engine "run-1" (main.mkRunRequest "graph-14" {["code" := VStr todo_code]})
    = (eng', Some (main.Body (main.mkRunResponse "run-1"
                                (reviewed (rounds 2) todo_code 0 2 2) lg)))
    ∧ node <$> lg = ["extract_functions"; "check_complexity"; "detect_issues";
                     "suggest_improvements"] ++ gate_rounds (rounds 2 - 1)
    ∧ executions "check_quality" lg = rounds 2
    ∧ (rounds 2 = 1%nat ∨ rounds 2 = 3%nat)
    ∧ reviewed (rounds 2) todo_code 0 2 2 !! "suggestions"
      = Some (VList (replicate (rounds 2) (VStr (advice (0 + 2))))).
Proof.
  apply (default_review_runs_one_or_three_checks repr_example (λ _, []) (λ _, "")
           review_engine "run-1" "graph-14" todo_code 0 2 2 9);
    [reflexivity | reflexivity | reflexivity | reflexivity | reflexivity | apply Nat.le_refl].
Defined.

Example rounds_examples :
  rounds 0 = 1%nat ∧ rounds 1 = 1%nat ∧ rounds 2 = 3%nat
  ∧ review_score 0 = 0.97%float ∧ review_score 1 = 0.77%float ∧ review_score 2 = 0.57%float.
Proof. repeat split; vm_compute; reflexivity. Qed.

(** X25.  A code of at most 120 characters with no backslash and no TODO
    passes the default review at the first check: the five nodes run once
    each, in the order of the graph, and the body shows no function, the
    complexity 0.1, no issue, the score 0.97, the one suggestion that
    nothing needs doing and one iteration. *)
Theorem clean_code_passes_at_the_first_check
    (float_repr : float → string) (key_order : gmap string PyVal → list string)
    (container_str : PyVal → string) (eng : GraphEngine) (uuid gid code : string)
    (fuel : nat) :
  _graphs eng !! gid = Some (default_graph float_repr key_order container_str gid) →
  _tool_registry eng = main.tool_registry →
  has_char backslash code = false →
  (String.length code ≤ 120)%nat →
  ¬ substring "TODO" code →
  (5 ≤ fuel)%nat →
  ∃ eng' final lg,
    main.run_graph fuel eng uuid (main.mkRunRequest gid {["code" := VStr code]})
    = (eng', Some (main.Body (main.mkRunResponse uuid final lg)))
    ∧ node <$> lg = main.default_nodes
    ∧ final !! "code" = Some (VStr code)
    ∧ final !! "functions" = Some (VList [])
    ∧ final !! "function_count" = Some (VInt 0)
    ∧ final !! "complexity_score" = Some (VFloat 0.1)
    ∧ final !! "issues" = Some (smells 0 0)
    ∧ final !! "suggestions" = Some (VList [VStr "Looks good, minor refactors only."])
    ∧ final !! "quality_score" = Some (VFloat 0.97)
    ∧ final !! "iterations" = Some (VInt 1)
    ∧ size final = 8%nat.
Proof.
  intros Hgraph Htools Hcode Hshort Htodo Hfuel.
  assert (Htool : main.detect_smells_tool [VStr code] = Returned (smells 0 0)).
  { unfold main.detect_smells_tool.
    by rewrite (long_lines_of_short_text code Hshort), (proj2 (todo_lines_none code) Htodo). }
  destruct (review_loop float_repr key_order container_str gid code 0 0 0 Hcode Htool
              ltac:(reflexivity) 0) as (lg & Hloop & Hnodes).
  exists (store_run (store_run eng (new_run uuid gid {["code" := VStr code]}))
            (mkRun uuid gid (reviewed 1 code 0 0 0) "completed" lg None None)),
         (reviewed 1 code 0 0 0), lg.
  split; [|split; [done|]].
  - by apply (review_reply float_repr key_order container_str eng uuid gid _ _ _ fuel 5
                Hgraph Htools Hloop).
  - repeat split; reflexivity.
Qed.

Lemma clean_code_witness :
  ∃ eng' final lg,
    main.run_graph 5 review_engine "run-1" (main.mkRunRequest "graph-14" {["code" := VStr clean_code]})
    = (eng', Some (main.Body (main.mkRunResponse "run-1" final lg)))
    ∧ node <$> lg = main.default_nodes
    ∧ final !! "code" = Some (VStr clean_code)
    ∧ final !! "functions" = Some (VList [])
    ∧ final !! "function_count" = Some (VInt 0)
    ∧ final !! "complexity_score" = Some (VFloat 0.1)
    ∧ final !! "issues" = Some (smells 0 0)
    ∧ final !! "suggestions" = Some (VList [VStr "Looks good, minor refactors only."])
    ∧ final !! "quality_score" = Some (VFloat 0.97)
    ∧ final !! "iterations" = Some (VInt 1)
    ∧ size final = 8%nat.
Proof.
  apply (clean_code_passes_at_the_first_check repr_example (λ _, []) (λ _, "")
           review_engine "run-1" "graph-14" clean_code 5);
    [reflexivity | reflexivity | reflexivity | vm_compute; lia | | apply Nat.le_refl].
  intros Hsub. by apply contains_spec in Hsub.
Defined.

(** ** What every engine keeps *)

(** X26.  Whatever calls of [register_graph] and [run_graph] an engine has
    seen, with whatever arguments and ids: its node library and tools are
    those it was created with; every graph is stored under its own id, has
    its start node among its nodes and only nodes of the library; every
    record is stored under its own run id, names a registered graph, has no
    current node, and is running or failed with no logs and an error
    exactly when failed, or completed without error. *)
Theorem reachable_engine_is_consistent
    (library : gmap string NodeCallable) (tools : ToolRegistry) (eng : GraphEngine) :
  reachable library tools eng →
  _node_library eng = library
  ∧ _tool_registry eng = tools
  ∧ (∀ gid graph, _graphs eng !! gid = Some graph → graph_ok library gid graph)
  ∧ (∀ rid run, _runs eng !! rid = Some run → run_ok eng rid run).
Proof.
  induction 1 as [|eng uuid names es start descr _ (Hlib & Htools & Hgraphs & Hruns)
                  |eng fuel uuid gid st0 _ (Hlib & Htools & Hgraphs & Hruns)].
  - split; [done|]. split; [done|]. split; intros ? ?; simpl; by rewrite lookup_empty.
  - destruct (register_graph_cases eng uuid names es start descr)
      as [(Hall & Hstart & node_map & Hbuild & ->)|(_ & msg & ->)]; [|done].
    simpl. split; [done|]. split; [done|]. split.
    + intros g graph. destruct (decide (g = uuid)) as [->|Hne].
      * rewrite lookup_insert_eq. intros [= <-]. split; [done|].
        pose proof (build_node_map_lookup _ _ _ _ Hbuild) as Hlk. simpl. split.
        -- rewrite Hlk, decide_True by done. by apply Hall.
        -- intros name fn. rewrite Hlk. destruct (decide (name ∈ names)); [|done].
           by rewrite Hlib.
      * rewrite lookup_insert_ne by done. apply Hgraphs.
    + intros rid run Hrun. destruct (Hruns rid run Hrun) as (Hid & Hg & Hrest).
      split; [done|]. split; [|done]. simpl.
      destruct (decide (run_graph_id run = uuid)) as [->|Hne];
        [by rewrite lookup_insert_eq|by rewrite lookup_insert_ne].
  - assert (Hstored : ∀ run1 run2,
              is_Some (_graphs eng !! gid) →
              run_ok eng uuid run1 → run_ok eng uuid run2 →
              ∀ rid run,
                _runs (store_run (store_run eng run1) run2) !! rid = Some run →
                run_ok (store_run (store_run eng run1) run2) rid run).
    { intros run1 run2 Hg Hok1 Hok2 rid run. simpl.
      destruct Hok1 as [Hid1 _]. destruct (Hok2) as [Hid2 _]. rewrite Hid1, Hid2.
      destruct (decide (rid = uuid)) as [->|Hne].
      - rewrite lookup_insert_eq. by intros [= <-].
      - rewrite !lookup_insert_ne by done. apply Hruns. }
    destruct (run_graph_cases fuel eng uuid gid st0)
      as [[_ ->]|(graph & Hg & [[_ ->]|[(final & lg & _ & ->)|(e & _ & ->)]])]; [done|..];
      simpl; (split; [done|]); (split; [done|]); (split; [done|]).
    + intros rid run. destruct (decide (rid = uuid)) as [->|Hne].
      * rewrite lookup_insert_eq. intros [= <-]. repeat split; simpl; [by rewrite Hg|auto].
      * rewrite lookup_insert_ne by done. apply Hruns.
    + apply Hstored; [by rewrite Hg|..]; repeat split; simpl; rewrite ?Hg; auto.
    + apply Hstored; [by rewrite Hg|..]; repeat split; simpl; rewrite ?Hg; auto 10.
Qed.

Lemma reachable_engine_witness :
  _node_library (run_graph 4 abc_engine "run-1" "graph-1" ∅).1 = abc_library
  ∧ _tool_registry (run_graph 4 abc_engine "run-1" "graph-1" ∅).1 = no_tools
  ∧ (∀ gid graph,
       _graphs (run_graph 4 abc_engine "run-1" "graph-1" ∅).1 !! gid = Some graph →
       graph_ok abc_library gid graph)
  ∧ (∀ rid run,
       _runs (run_graph 4 abc_engine "run-1" "graph-1" ∅).1 !! rid = Some run →
       run_ok (run_graph 4 abc_engine "run-1" "graph-1" ∅).1 rid run).
Proof.
  apply (reachable_engine_is_consistent abc_library no_tools).
  apply reachable_run.
  apply (reachable_register abc_library no_tools (__init__ abc_library no_tools)
           "graph-1" ["A"; "B"; "C"] abc_edges "A" None).
  apply reachable_init.
Defined.

(** ** A code that is not a string *)

(** X27.  Nothing checks the initial state: when [code] is there and is
    not a string, the default review fails in its first node, on the
    [TypeError] of [re.findall]; the handler answers 500 with the message
    of the error as detail, and the record is stored as failed with that
    message, the initial state and no logs. *)
Theorem non_string_code_is_answered_500
    (float_repr : float → string) (key_order : gmap string PyVal → list string)
    (container_str : PyVal → string) (eng : GraphEngine) (uuid gid : string)
    (st0 : State) (v : PyVal) (fuel : nat) :
  _graphs eng !! gid = Some (default_graph float_repr key_order container_str gid) →
  st0 !! "code" = Some v →
  (∀ s, v ≠ VStr s) →
  ∃ detail,
    main.run_graph (S fuel) eng uuid (main.mkRunRequest gid st0)
    = (store_run (store_run eng (new_run uuid gid st0))
         (mkRun uuid gid st0 "failed" [] None (Some detail)),
       Some (main.Refused (main.mkHTTP 500 detail)))
    ∧ substring (type_name v) detail.
Proof.
  intros Hgraph Hcode Hv.
  exists ("expected string or bytes-like object, got '" +:+ type_name v +:+ "'").
  split; [|apply substring_intro].
  unfold main.run_graph. simpl.
  rewrite (run_graph_failed eng uuid gid _ st0 Hgraph (S fuel)
             (mkExc TypeError ("expected string or bytes-like object, got '"
                               +:+ type_name v +:+ "'"))); [done|].
  apply execute_loop_raise; [done|].
  apply (loop_body_node_raises _ _ "extract_functions" extract_functions); [done|].
  unfold _run_node, extract_functions. rewrite Hcode.
  destruct v; try done. by destruct (Hv s).
Qed.

Lemma non_string_code_witness :
  ∃ detail,
    main.run_graph 1 review_engine "run-1" (main.mkRunRequest "graph-14" {["code" := VInt 5]})
    = (store_run (store_run review_engine (new_run "run-1" "graph-14" {["code" := VInt 5]}))
         (mkRun "run-1" "graph-14" {["code" := VInt 5]} "failed" [] None (Some detail)),
       Some (main.Refused (main.mkHTTP 500 detail)))
    ∧ substring (type_name (VInt 5)) detail.
Proof.
  apply (non_string_code_is_answered_500 repr_example (λ _, []) (λ _, "")
           review_engine "run-1" "graph-14" {["code" := VInt 5]} (VInt 5) 0);
    [reflexivity | reflexivity | done].
Defined.

(** * The engine with shared objects *)

(** ** Reading the store *)

Lemma unchanged_refl h : unchanged h h.
Proof. by intros l o. Qed.



Lemma read_entries_Some f m pm :
  shared.read_entries f m = Some pm ↔
  (∀ k v, m !! k = Some v → is_Some (f v)) ∧ pm = omap f m.
Proof.
  unfold shared.read_entries. case_decide as Hall.
  - split; [intros [= <-]; by split|]. by intros [_ ->].
  - split; [done|]. by intros [Hall' _].
Qed.

Lemma read_entries_ext f g m pm :
  (∀ k v y, m !! k = Some v → f v = Some y → g v = Some y) →
  shared.read_entries f m = Some pm → shared.read_entries g m = Some pm.
Proof.
  intros Hext [Hall ->]%read_entries_Some. apply read_entries_Some. split.
  - intros k v Hk. destruct (Hall k v Hk) as [y Hy]. rewrite (Hext k v y Hk Hy). by eexists.
  - apply map_eq. intros k. rewrite !lookup_omap.
    destruct (m !! k) as [v|] eqn:Hk; [|done]. simpl.
    destruct (Hall k v Hk) as [y Hy]. by rewrite Hy, (Hext k v y Hk Hy).
Qed.

(** What was read stays readable, with the same result, as long as no
    object is changed. *)
Lemma read_unchanged depth :
  ∀ h h' v pv, unchanged h h' → shared.read depth h v = Some pv →
               shared.read depth h' v = Some pv.
Proof.
  induction depth as [|d IH]; intros h h' v pv Hun Hread.
  - by destruct v.
  - destruct v as [| | | | |l]; try done. simpl in *.
    destruct (h !! l) as [o|] eqn:Hl; [|done]. rewrite (Hun l o Hl).
    destruct o as [items|m].
    + apply fmap_Some in Hread as (k & Hk & ->).
      apply fmap_Some. exists k. split; [|done].
      apply mapM_Some. apply mapM_Some in Hk.
      eapply Forall2_impl; [done|]. intros x y Hxy. by apply (IH h).
    + apply fmap_Some in Hread as (pm & Hpm & ->).
      apply fmap_Some. exists pm. split; [|done].
      apply (read_entries_ext (shared.read d h)); [|done].
      intros k v y _ Hy. by apply (IH h).
Qed.



(** ** The loop over the store *)


Section shared_loop_facts.
Context (graph : shared.GraphDefinition) (tools : ToolRegistry).


Lemma shared_loop_body_raises h cur fn st lg h' e :
  shared.nodes graph !! cur = Some fn →
  shared._run_node tools fn h st = (h', Raised e) →
  shared.loop_body graph tools h cur st lg = (h', Raised e).
Proof. intros Hfn Hr. unfold shared.loop_body. by rewrite Hfn, Hr. Qed.







End shared_loop_facts.

Section shared_run_facts.
Context (self : shared.GraphEngine) (h : shared.Store) (uuid gid : string)
        (graph : shared.GraphDefinition) (s0 : shared.Value).
Hypothesis Hgraph : shared._graphs self !! gid = Some graph.




End shared_run_facts.


(** ** C1: the linear graph A → B → C *)


(** [visit_afresh] is such a node. *)
Lemma read_entries_unchanged depth h h' m pm :
  unchanged h h' →
  shared.read_entries (shared.read depth h) m = Some pm →
  shared.read_entries (shared.read depth h') m = Some pm.
Proof.
  intros Hun. apply read_entries_ext. intros k v y _ Hy. by apply (read_unchanged depth h).
Qed.





(** ** C4: the record of a failed run *)





(** The copy is shallow.  From the state [{"visited": []}] the in-place
    node A extends the list the record's copy shares with the state it
    works on: the record of the failed run reads [{"visited": ["A"]}], not
    the initial state as it was given. *)
Example failed_run_shows_changes_in_place :
  shared.read 2 empty_list_store (shared.PRef 1%nat) = Some (VDict (visited []))
  ∧ failing_run_in_place.2 = Some (raise TypeError "Node must return NodeResult or dict")
  ∧ shared.get_run failing_run_in_place.1.1 "run-4"
    = Returned (shared.mkRun "run-4" "graph-4" (shared.PRef 2%nat) "failed" [] None
                  (Some "Node must return NodeResult or dict"))
  ∧ failing_run_in_place.1.2 = in_place_store_at_B
  ∧ shared.read 2 failing_run_in_place.1.2 (shared.PRef 2%nat)
    = Some (VDict (visited ["A"])).
Proof. repeat split; vm_compute; reflexivity. Qed.

(** The same with the node of the repository: [suggest_improvements]
    extends the list under [suggestions] that the record's copy shares. *)
Example failed_review_shows_the_suggestion :
  shared.read 2 no_suggestions_store (shared.PRef 1%nat)
  = Some (VDict {["suggestions" := VList []]})
  ∧ failing_review.2 = Some (raise TypeError "Node must return NodeResult or dict")
  ∧ shared.get_run failing_review.1.1 "run-15"
    = Returned (shared.mkRun "run-15" "graph-15" (shared.PRef 2%nat) "failed" [] None
                  (Some "Node must return NodeResult or dict"))
  ∧ shared.read 2 failing_review.1.2 (shared.PRef 2%nat)
    = Some (VDict {["suggestions" := VList [VStr "Looks good, minor refactors only."]]}).
Proof. repeat split; vm_compute; reflexivity. Qed.

(** ** What a run leaves alone *)

(** X4.  [run_graph] rebinds nothing of another run's record: under every
    other run id [get_run] returns the record it returned before, each
    field the same value or the same object, and the graphs, the node
    library and the tools are as before.  The objects themselves are not
    protected: a second run of the in-place nodes, started from the state
    object the first run ended with, extends the list that state holds,
    and the first record, untouched, reads six names where it read three. *)
Theorem run_graph_rebinds_no_other_record :
  (∀ fuel self h uuid gid rid s0,
     rid ≠ uuid →
     shared.get_run (shared.run_graph fuel self h uuid gid s0).1.1 rid = shared.get_run self rid
     ∧ shared._graphs (shared.run_graph fuel self h uuid gid s0).1.1 = shared._graphs self
     ∧ shared._node_library (shared.run_graph fuel self h uuid gid s0).1.1
       = shared._node_library self
     ∧ shared._tool_registry (shared.run_graph fuel self h uuid gid s0).1.1
       = shared._tool_registry self)
  ∧ shared.get_run second_run.1.1 "run-2" = shared.get_run in_place_run.1.1 "run-2"
  ∧ shared.get_run in_place_run.1.1 "run-2"
    = Returned (shared.mkRun "run-2" "graph-2" (shared.PRef 6%nat) "completed"
                  [shared.mkLog "A" None (shared.PRef 4%nat);
                   shared.mkLog "B" None (shared.PRef 5%nat);
                   shared.mkLog "C" None (shared.PRef 6%nat)] None None)
  ∧ shared.read 2 in_place_run.1.2 (shared.PRef 6%nat)
    = Some (VDict (visited ["A"; "B"; "C"]))
  ∧ shared.read 2 second_run.1.2 (shared.PRef 6%nat)
    = Some (VDict (visited ["A"; "B"; "C"; "A"; "B"; "C"])).
Proof.
  split.
  - intros fuel self h uuid gid rid s0 Hne.
    unfold shared.run_graph, shared.run_graph_begin, shared.get_run.
    destruct (shared._graphs self !! gid) as [graph|]; [|done]. simpl.
    destruct (shared._execute fuel _ graph _ s0) as [h2 [[[final lg]|e]|]]; simpl;
      rewrite ?lookup_insert_ne by done; done.
  - repeat split; vm_compute; reflexivity.
Qed.
